(** * StayIn: client-side form validation (script.js)

    A shallow embedding of [script.js]: the two field validators with their
    regular expressions, the error-display helpers over a document indexed
    by element id, the booking-form and contact-form submit handlers, the
    check-in change handler with the [Date] arithmetic it relies on, and the
    deferred auto-hide timer of the success banner.

    What the script takes from its environment is kept as it is: strings
    are sequences of UTF-16 code units, [toLowerCase] is a parameter
    characterized by what Unicode case mapping preserves, the zone offset
    of local time is a parameter, and the current time is a clock in the
    state of the page. Statements run in a state monad with exceptions, so
    that a write through a [null] reference throws as it does in the
    browser. *)

From Stdlib Require Import ZArith NArith List String Ascii Bool Lia DecimalString.
From stdpp Require Import gmap list.
Import ListNotations.

Local Open Scope N_scope.

(* ===================================================================== *)
(** ** JavaScript strings *)
(* ===================================================================== *)

(** A JavaScript string is a finite sequence of UTF-16 code units. *)
Abbreviation JSString := (list N) (only parsing).

Definition cu (a : ascii) : N := N_of_ascii a.

(** A string literal of the source (all of them are ASCII). *)
Definition lit (s : string) : JSString := map cu (list_ascii_of_string s).

(** ECMAScript [WhiteSpace] and [LineTerminator] code points: the set
    stripped by [String.prototype.trim] and matched by the class escape
    [\s]. *)
Definition is_js_space (c : N) : bool :=
  (c =? 9) || (c =? 10) || (c =? 11) || (c =? 12) || (c =? 13) || (c =? 32)
  || (c =? 160) || (c =? 5760) || ((8192 <=? c) && (c <=? 8202))
  || (c =? 8232) || (c =? 8233) || (c =? 8239) || (c =? 8287)
  || (c =? 12288) || (c =? 65279).

(** [\d] without the unicode flag: the ten ASCII digits. *)
Definition is_digit (c : N) : bool := (48 <=? c) && (c <=? 57).

Fixpoint trimStart (s : JSString) : JSString :=
  match s with
  | [] => []
  | c :: s' => if is_js_space c then trimStart s' else s
  end.

Definition trimEnd (s : JSString) : JSString := rev (trimStart (rev s)).

(** [String.prototype.trim] *)
Definition trim (s : JSString) : JSString := trimEnd (trimStart s).

(** [s === ""] *)
Definition is_empty (s : JSString) : bool :=
  match s with [] => true | _ => false end.

(** Truthiness of a string value: [if (s)] holds for non-empty strings. *)
Definition truthy (s : JSString) : bool := negb (is_empty s).

(** The relational operator [<] on two strings: lexicographic comparison
    of code units. *)
Fixpoint str_lt (a b : JSString) : bool :=
  match a, b with
  | _, [] => false
  | [], _ :: _ => true
  | x :: a', y :: b' => (x <? y) || ((x =? y) && str_lt a' b')
  end.

(** [String.prototype.padStart(n, fill)] for a one-unit fill string. *)
Definition padStart (n : nat) (fill : N) (s : JSString) : JSString :=
  repeat fill (n - length s) ++ s.

(* ===================================================================== *)
(** ** Regular expressions *)
(* ===================================================================== *)

(** The fragment of the pattern language used by the two literals of the
    source: literal characters, the escapes [\s] and [\d], bracket classes
    (possibly negated), sequencing, [+] and the bounded repetition [{n}].
    [RNone], [RAlt] and [RStar] close the syntax under derivatives. *)
Inductive ClassAtom : Type :=
  | ClsChar (c : N)
  | ClsSpace
  | ClsDigit.

Inductive Regex : Type :=
  | RNone
  | REps
  | RAtom (a : ClassAtom)
  | RBracket (negated : bool) (atoms : list ClassAtom)
  | RSeq (r1 r2 : Regex)
  | RAlt (r1 r2 : Regex)
  | RStar (r : Regex).

Definition atom_mem (a : ClassAtom) (c : N) : bool :=
  match a with
  | ClsChar c' => c =? c'
  | ClsSpace => is_js_space c
  | ClsDigit => is_digit c
  end.

Definition bracket_mem (negated : bool) (atoms : list ClassAtom) (c : N) : bool :=
  xorb negated (existsb (fun a => atom_mem a c) atoms).

(** [r+] *)
Definition RPlus (r : Regex) : Regex := RSeq r (RStar r).

(** [r{n}] *)
Fixpoint RRepeat (n : nat) (r : Regex) : Regex :=
  match n with
  | O => REps
  | S n' => RSeq r (RRepeat n' r)
  end.

(** Denotation: the strings a pattern matches as a whole. *)
Inductive Matches : Regex -> JSString -> Prop :=
  | MEps : Matches REps []
  | MAtom a c : atom_mem a c = true -> Matches (RAtom a) [c]
  | MBracket neg atoms c :
      bracket_mem neg atoms c = true -> Matches (RBracket neg atoms) [c]
  | MSeq r1 r2 s1 s2 :
      Matches r1 s1 -> Matches r2 s2 -> Matches (RSeq r1 r2) (s1 ++ s2)
  | MAltL r1 r2 s : Matches r1 s -> Matches (RAlt r1 r2) s
  | MAltR r1 r2 s : Matches r2 s -> Matches (RAlt r1 r2) s
  | MStarNil r : Matches (RStar r) []
  | MStarCons r s1 s2 :
      Matches r s1 -> Matches (RStar r) s2 -> Matches (RStar r) (s1 ++ s2).

Fixpoint nullable (r : Regex) : bool :=
  match r with
  | RNone => false
  | REps => true
  | RAtom _ => false
  | RBracket _ _ => false
  | RSeq r1 r2 => nullable r1 && nullable r2
  | RAlt r1 r2 => nullable r1 || nullable r2
  | RStar _ => true
  end.

Fixpoint deriv (c : N) (r : Regex) : Regex :=
  match r with
  | RNone => RNone
  | REps => RNone
  | RAtom a => if atom_mem a c then REps else RNone
  | RBracket neg atoms => if bracket_mem neg atoms c then REps else RNone
  | RSeq r1 r2 =>
      if nullable r1
      then RAlt (RSeq (deriv c r1) r2) (deriv c r2)
      else RSeq (deriv c r1) r2
  | RAlt r1 r2 => RAlt (deriv c r1) (deriv c r2)
  | RStar r1 => RSeq (deriv c r1) (RStar r1)
  end.

(** [/^r$/.test(s)]: with both anchors and no flags the test succeeds
    exactly when the whole of [s] matches [r]. *)
Fixpoint test_anchored (r : Regex) (s : JSString) : bool :=
  match s with
  | [] => nullable r
  | c :: s' => test_anchored (deriv c r) s'
  end.

(* ===================================================================== *)
(** ** Validation helper functions *)
(* ===================================================================== *)

(** [[^\s@]] *)
Definition not_space_at : Regex := RBracket true [ClsSpace; ClsChar (cu "@")].

(** [/^[^\s@]+@[^\s@]+\.[^\s@]+$/] *)
Definition email_re : Regex :=
  RSeq (RPlus not_space_at)
    (RSeq (RAtom (ClsChar (cu "@")))
       (RSeq (RPlus not_space_at)
          (RSeq (RAtom (ClsChar (cu ".")))
             (RPlus not_space_at)))).

(** [/^\d{10}$/] *)
Definition phone_re : Regex := RRepeat 10 (RAtom ClsDigit).

(** [String.prototype.toLowerCase] restricted to ASCII, where it maps
    [A-Z] to [a-z] and nothing else. It instantiates the abstract
    lower-casing of the development on concrete inputs. *)
Definition ascii_lower_unit (c : N) : N :=
  if (65 <=? c) && (c <=? 90) then c + 32 else c.

Definition ascii_toLowerCase (s : JSString) : JSString := map ascii_lower_unit s.

(** Code units whose presence decides the e-mail pattern: white space,
    [@] and [.]. *)
Definition is_delimiter (c : N) : bool :=
  is_js_space c || (c =? cu "@") || (c =? cu ".").

(** What lower-casing does to a single code unit: a delimiter is kept as
    it is; any other unit becomes one or more units none of which is a
    delimiter (a letter may lower-case to a letter followed by a combining
    mark). *)
Definition lower_piece (c : N) (p : JSString) : Prop :=
  if is_delimiter c then p = [c]
  else p <> [] /\ Forall (fun c' => is_delimiter c' = false) p.

(* ===================================================================== *)
(** ** Dates *)
(* ===================================================================== *)

Local Open Scope Z_scope.

(** Time values are milliseconds since the epoch, in UTC. A [Date] object
    holds a time value or [NaN] (an invalid date), here [None]; numbers
    read off a date are integers or [NaN] in the same way. *)
Abbreviation TimeValue := (option Z) (only parsing).
Abbreviation Num := (option Z) (only parsing).

Definition msPerDay : Z := 86400000.

Definition Day (t : Z) : Z := t / msPerDay.

Definition TimeWithinDay (t : Z) : Z := t mod msPerDay.

Definition TimeClip (t : Z) : TimeValue :=
  if Z.abs t <=? 8640000000000000 then Some t else None.

(** Day number (days since 1970-01-01) of a date of the proleptic
    Gregorian calendar, months counted from 1; the year is taken to start
    in March so that the leap day comes last. *)
Definition days_from_civil (y m d : Z) : Z :=
  let y' := if m <=? 2 then y - 1 else y in
  let era := y' / 400 in
  let yoe := y' - era * 400 in
  let mp := if m <=? 2 then m + 9 else m - 3 in
  let doy := (153 * mp + 2) / 5 + d - 1 in
  let doe := yoe * 365 + yoe / 4 - yoe / 100 + doy in
  era * 146097 + doe - 719468.

(** The inverse: year, month (from 1) and day of the month of a day
    number. *)
Definition civil_from_days (z : Z) : Z * Z * Z :=
  let z' := z + 719468 in
  let era := z' / 146097 in
  let doe := z' - era * 146097 in
  let yoe := (doe - doe / 1460 + doe / 36524 - doe / 146096) / 365 in
  let doy := doe - (365 * yoe + yoe / 4 - yoe / 100) in
  let mp := (5 * doy + 2) / 153 in
  let d := doy - (153 * mp + 2) / 5 + 1 in
  let m := if mp <? 10 then mp + 3 else mp - 9 in
  let y := yoe + era * 400 in
  (if m <=? 2 then y + 1 else y, m, d).

Definition YearFromTime (t : Z) : Z := fst (fst (civil_from_days (Day t))).

(** Months are 0-based, as [getMonth] returns them. *)
Definition MonthFromTime (t : Z) : Z := snd (fst (civil_from_days (Day t))) - 1.

Definition DateFromTime (t : Z) : Z := snd (civil_from_days (Day t)).

(** [MakeDay(year, month, date)] with a 0-based month; a month or a day
    of the month out of range carries over. *)
Definition MakeDay (year month date : Z) : Z :=
  days_from_civil (year + month / 12) (month mod 12 + 1) 1 + date - 1.

Definition MakeDate (day time : Z) : Z := day * msPerDay + time.

Definition is_leap_year (y : Z) : bool :=
  ((y mod 4 =? 0) && negb (y mod 100 =? 0)) || (y mod 400 =? 0).

Definition days_in_month (y m : Z) : Z :=
  if m =? 2 then (if is_leap_year y then 29 else 28)
  else if (m =? 4) || (m =? 6) || (m =? 9) || (m =? 11) then 30
  else 31.

Definition digit_value (c : N) : Z := Z.of_N c - 48.

(** The value of a date control is the empty string or a date string
    naming a day of the calendar; up to the year 9999 the string is
    [YYYY-MM-DD]. [parse_date_string] reads such a string. *)
Definition parse_date_string (s : JSString) : option (Z * Z * Z) :=
  match s with
  | [y1; y2; y3; y4; h1; m1; m2; h2; d1; d2] =>
      if forallb is_digit [y1; y2; y3; y4; m1; m2; d1; d2]
         && (h1 =? cu "-")%N && (h2 =? cu "-")%N
      then
        let y := 1000 * digit_value y1 + 100 * digit_value y2
                 + 10 * digit_value y3 + digit_value y4 in
        let m := 10 * digit_value m1 + digit_value m2 in
        let d := 10 * digit_value d1 + digit_value d2 in
        if (1 <=? m) && (m <=? 12) && (1 <=? d) && (d <=? days_in_month y m)
        then Some (y, m, d)
        else None
      else None
  | _ => None
  end.

(** From the year 10000 on a date control writes the year with all its
    digits, five or more, without a sign and without a leading zero:
    [10000-01-02]. [parse_long_date_string] reads such a string. *)
Fixpoint digits_value (acc : Z) (s : JSString) : Z :=
  match s with
  | [] => acc
  | c :: s' => digits_value (10 * acc + digit_value c) s'
  end.

Definition parse_long_date_string (s : JSString) : option (Z * Z * Z) :=
  let n := (length s - 6)%nat in
  match take n s, drop n s with
  | y1 :: ys, [h1; m1; m2; h2; d1; d2] =>
      if (4 <=? length ys)%nat && negb (y1 =? cu "0")%N
         && forallb is_digit (y1 :: ys) && forallb is_digit [m1; m2; d1; d2]
         && (h1 =? cu "-")%N && (h2 =? cu "-")%N
      then
        let y := digits_value 0 (y1 :: ys) in
        let m := 10 * digit_value m1 + digit_value m2 in
        let d := 10 * digit_value d1 + digit_value d2 in
        if (1 <=? m) && (m <=? 12) && (1 <=? d) && (d <=? days_in_month y m)
        then Some (y, m, d)
        else None
      else None
  | _, _ => None
  end.

(** The day a non-empty value of a date control names, whatever the
    number of digits of its year. *)
Definition date_value (s : JSString) : option (Z * Z * Z) :=
  match parse_date_string s with
  | Some c => Some c
  | None => parse_long_date_string s
  end.

(** [a < b] and [a <= b] on two dates: a comparison of time values,
    false as soon as one of them is [NaN]. *)
Definition date_lt (a b : TimeValue) : bool :=
  match a, b with
  | Some x, Some y => x <? y
  | _, _ => false
  end.

Definition date_le (a b : TimeValue) : bool :=
  match a, b with
  | Some x, Some y => x <=? y
  | _, _ => false
  end.

(** [String(n)] for an integer or [NaN]. *)
Definition String_of_num (n : Num) : JSString :=
  match n with
  | Some z => lit (NilZero.string_of_int (Z.to_int z))
  | None => lit "NaN"
  end.

(** [n + k] for a number [n] and an integer constant [k]. *)
Definition num_add (n : Num) (k : Z) : Num :=
  match n with Some z => Some (z + k) | None => None end.

(** A calendar date written back as [YYYY-MM-DD]. *)
Definition date_string (y m d : Z) : JSString :=
  String_of_num (Some y) ++ lit "-"
  ++ padStart 2 (cu "0") (String_of_num (Some m)) ++ lit "-"
  ++ padStart 2 (cu "0") (String_of_num (Some d)).

(** *** Auxiliary notions of the calendar *)

(** Days from the first of March of year 0 to the first of March of year
    [y]. *)
Definition year_days (y : Z) : Z := 365 * y + y / 4 - y / 100 + y / 400.

(** Days from the first of March to the first of the month that comes
    [mp] months after March. *)
Definition month_offset (mp : Z) : Z := (153 * mp + 2) / 5.

(** The year within a 400-year era, counted from March, of the day
    [doe] of the era, and the day within that year. *)
Definition year_of_era (doe : Z) : Z :=
  (doe - doe / 1460 + doe / 36524 - doe / 146096) / 365.

Definition day_of_year (doe : Z) : Z :=
  doe - (365 * year_of_era doe + year_of_era doe / 4 - year_of_era doe / 100).

(** A day of the calendar. *)
Definition valid_date (y m d : Z) : Prop :=
  1 <= m <= 12 /\ 1 <= d <= days_in_month y m.

(** One calendar day is earlier than another. *)
Definition civil_lt (a b : Z * Z * Z) : Prop :=
  let '(y1, m1, d1) := a in
  let '(y2, m2, d2) := b in
  y1 < y2 \/ (y1 = y2 /\ (m1 < m2 \/ (m1 = m2 /\ d1 < d2))).


(* ===================================================================== *)
(** ** The page *)
(* ===================================================================== *)

(** An element that displays text: an error display or the success
    banner. [inside_form] is the id of the form the element is a
    descendant of, if any. *)
Record Element : Type := mkElement {
  textContent : JSString;
  style_display : JSString;
  classList : list JSString;
  inside_form : option JSString
}.

(** A form control: its current value, the value [form.reset()] restores,
    and its [min] attribute. The default value comes from the markup of
    the page, which the script does not set; the specification has every
    control empty by default. *)
Record Control : Type := mkControl {
  value : JSString;
  defaultValue : JSString;
  min : JSString
}.

Record BookingControls : Type := mkBooking {
  name : Control;
  email : Control;
  phone : Control;
  countryCode : Control;
  roomType : Control;
  checkin : Control;
  checkout : Control;
  guests : Control
}.

Record ContactControls : Type := mkContact {
  contact_name : Control;
  contact_email : Control;
  subject : Control;
  message : Control
}.

(** The only function ever handed to [setTimeout]: the arrow function
    that hides the success banner. *)
Inductive Callback : Type := HideSuccess.

Record Timer : Type := mkTimer {
  due : Z;
  callback : Callback
}.

(** The state of a page. The controls and the success banner are the
    elements the initializer looks up once and keeps; they are taken to
    exist, since the initializer or the first submit fails on a missing
    one. [elements] holds the other elements that carry an id, which is
    where [showError] and [clearError] look up [{inputId}-error] on every
    call; such an element may be missing. The document is taken to be
    flat: no error display contains a control or the banner, and neither
    the controls nor the banner are of class [error-message]. [clock] is
    the current time and [timers] the pending timeouts, oldest first. *)
Record Page (C : Type) : Type := mkPage {
  controls : C;
  successMessage : Element;
  elements : gmap JSString Element;
  timers : list Timer;
  clock : Z
}.

Arguments mkPage {C} _ _ _ _ _.
Arguments controls {C} _.
Arguments successMessage {C} _.
Arguments elements {C} _.
Arguments timers {C} _.
Arguments clock {C} _.

Definition set_textContent (v : JSString) (e : Element) : Element :=
  mkElement v (style_display e) (classList e) (inside_form e).

Definition set_style_display (v : JSString) (e : Element) : Element :=
  mkElement (textContent e) v (classList e) (inside_form e).

Definition set_className (v : list JSString) (e : Element) : Element :=
  mkElement (textContent e) (style_display e) v (inside_form e).

Definition set_value (v : JSString) (c : Control) : Control :=
  mkControl v (defaultValue c) (min c).

Definition set_min (v : JSString) (c : Control) : Control :=
  mkControl (value c) (defaultValue c) v.

Definition upd_controls {C : Type} (f : C -> C) (p : Page C) : Page C :=
  mkPage (f (controls p)) (successMessage p) (elements p) (timers p) (clock p).

Definition upd_successMessage {C : Type} (f : Element -> Element) (p : Page C) : Page C :=
  mkPage (controls p) (f (successMessage p)) (elements p) (timers p) (clock p).

Definition upd_elements {C : Type}
    (f : gmap JSString Element -> gmap JSString Element) (p : Page C) : Page C :=
  mkPage (controls p) (successMessage p) (f (elements p)) (timers p) (clock p).

Definition upd_timers {C : Type} (f : list Timer -> list Timer) (p : Page C) : Page C :=
  mkPage (controls p) (successMessage p) (elements p) (f (timers p)) (clock p).

Definition upd_clock {C : Type} (f : Z -> Z) (p : Page C) : Page C :=
  mkPage (controls p) (successMessage p) (elements p) (timers p) (f (clock p)).

Definition upd_checkin (f : Control -> Control) (c : BookingControls) : BookingControls :=
  mkBooking (name c) (email c) (phone c) (countryCode c) (roomType c)
    (f (checkin c)) (checkout c) (guests c).

Definition upd_checkout (f : Control -> Control) (c : BookingControls) : BookingControls :=
  mkBooking (name c) (email c) (phone c) (countryCode c) (roomType c)
    (checkin c) (f (checkout c)) (guests c).

(** [form.reset()]: every control of the form goes back to its default
    value. *)
Definition reset_control (c : Control) : Control := set_value (defaultValue c) c.

Definition reset_booking (c : BookingControls) : BookingControls :=
  mkBooking (reset_control (name c)) (reset_control (email c))
    (reset_control (phone c)) (reset_control (countryCode c))
    (reset_control (roomType c)) (reset_control (checkin c))
    (reset_control (checkout c)) (reset_control (guests c)).

Definition reset_contact (c : ContactControls) : ContactControls :=
  mkContact (reset_control (contact_name c)) (reset_control (contact_email c))
    (reset_control (subject c)) (reset_control (message c)).

(* ===================================================================== *)
(** ** Statements with effects *)
(* ===================================================================== *)

Inductive JSError : Type := TypeError.

(** A statement runs to completion or throws. *)
Inductive Completion (A : Type) : Type :=
  | Normal (a : A)
  | Throw (e : JSError).

Arguments Normal {A} _.
Arguments Throw {A} _.

(** A statement over a state [S] that yields an [A]. *)
Definition M (S A : Type) : Type := S -> Completion (A * S).

#[global] Instance M_ret {S : Type} : MRet (M S) :=
  fun A a s => Normal (a, s).

#[global] Instance M_bind {S : Type} : MBind (M S) :=
  fun A B f m s =>
    match m s with
    | Normal (a, s') => f a s'
    | Throw e => Throw e
    end.

Definition gets {S A : Type} (f : S -> A) : M S A := fun s => Normal (f s, s).

Definition modify {S : Type} (f : S -> S) : M S unit := fun s => Normal (tt, f s).

Definition throw {S A : Type} (e : JSError) : M S A := fun _ => Throw e.

(** [document.getElementById(id)]: a reference to the element (its key in
    the document) or [null]. *)
Definition getElementById {C : Type} (id : JSString) : M (Page C) (option JSString) :=
  gets (fun p => match elements p !! id with
                 | Some _ => Some id
                 | None => None
                 end).

(** A property write [ref.prop = v]; on [null] it throws a [TypeError]. *)
Definition write_element {C : Type} (ref : option JSString) (f : Element -> Element)
    : M (Page C) unit :=
  match ref with
  | Some k => modify (upd_elements (alter f k))
  | None => throw TypeError
  end.

(** Truthiness of a reference: [null] is falsy, an element is truthy. *)
Definition is_element (ref : option JSString) : bool :=
  match ref with Some _ => true | None => false end.

(** function showError(inputId, message) *)
Definition showError {C : Type} (inputId message : JSString) : M (Page C) unit :=
  errorElement ← getElementById (inputId ++ lit "-error");
  if is_element errorElement then
    write_element errorElement (set_textContent message) ;;
    write_element errorElement (set_style_display (lit "block"))
  else mret tt.

(** function clearError(inputId) *)
Definition clearError {C : Type} (inputId : JSString) : M (Page C) unit :=
  errorElement ← getElementById (inputId ++ lit "-error");
  if is_element errorElement then
    write_element errorElement (set_textContent (lit "")) ;;
    write_element errorElement (set_style_display (lit "none"))
  else mret tt.

(** [form.querySelectorAll(".error-message")] selects the descendants of
    the form whose class list has [error-message]. *)
Definition is_error_message (form : JSString) (e : Element) : bool :=
  bool_decide (inside_form e = Some form)
  && bool_decide (lit "error-message" ∈ classList e).

Definition clear_message (e : Element) : Element :=
  set_style_display (lit "none") (set_textContent (lit "") e).

(** function clearAllErrors(form) *)
Definition clearAllErrors {C : Type} (form : JSString) : M (Page C) unit :=
  modify (upd_elements
            (fmap (fun msg => if is_error_message form msg
                              then clear_message msg else msg))).

(** [setTimeout(cb, delay)] *)
Definition setTimeout {C : Type} (cb : Callback) (delay : Z) : M (Page C) unit :=
  modify (fun p => upd_timers (fun ts => ts ++ [mkTimer (clock p + delay) cb]) p).

(** The body of the arrow function given to [setTimeout]. *)
Definition run_callback {C : Type} (cb : Callback) : M (Page C) unit :=
  match cb with
  | HideSuccess => modify (upd_successMessage (set_style_display (lit "none")))
  end.

(** The controls of the booking form, as a user addresses them. *)
Inductive BookingField : Type :=
  | FName | FEmail | FPhone | FCountryCode | FRoomType
  | FCheckin | FCheckout | FGuests.

Definition upd_field (f : BookingField) (g : Control -> Control)
    (c : BookingControls) : BookingControls :=
  match f with
  | FName => mkBooking (g (name c)) (email c) (phone c) (countryCode c)
               (roomType c) (checkin c) (checkout c) (guests c)
  | FEmail => mkBooking (name c) (g (email c)) (phone c) (countryCode c)
                (roomType c) (checkin c) (checkout c) (guests c)
  | FPhone => mkBooking (name c) (email c) (g (phone c)) (countryCode c)
                (roomType c) (checkin c) (checkout c) (guests c)
  | FCountryCode => mkBooking (name c) (email c) (phone c) (g (countryCode c))
                      (roomType c) (checkin c) (checkout c) (guests c)
  | FRoomType => mkBooking (name c) (email c) (phone c) (countryCode c)
                   (g (roomType c)) (checkin c) (checkout c) (guests c)
  | FCheckin => upd_checkin g c
  | FCheckout => upd_checkout g c
  | FGuests => mkBooking (name c) (email c) (phone c) (countryCode c)
                 (roomType c) (checkin c) (checkout c) (g (guests c))
  end.

(** What can happen to the booking page once it is initialized: the user
    edits a control, the user submits the form, or time passes. *)
Inductive Event : Type :=
  | UserInput (f : BookingField) (v : JSString)
  | Submit
  | Elapse (dt : Z).

Definition is_due (now : Z) (t : Timer) : bool := due t <=? now.

Fixpoint run_callbacks {C : Type} (ts : list Timer) : M (Page C) unit :=
  match ts with
  | [] => mret tt
  | t :: ts' => run_callback (callback t) ;; run_callbacks ts'
  end.

(** Time passes: the clock advances and the event loop runs the callbacks
    of the timers that have become due, oldest first, and drops them.
    Nothing else ever removes a timer: the program has no
    [clearTimeout]. *)
Definition elapse {C : Type} (dt : Z) : M (Page C) unit :=
  modify (upd_clock (fun t => t + Z.max 0 dt)) ;;
  now ← gets clock;
  ready ← gets (fun p => List.filter (is_due now) (timers p));
  modify (upd_timers (List.filter (fun t => negb (is_due now t)))) ;;
  run_callbacks ready.

(** *** Example pages *)

(** An error display as the pages are expected to carry them: inside the
    form, of class [error-message], hidden and blank. *)
Definition error_display (form : string) : Element :=
  mkElement (lit "") (lit "none") [lit "error-message"] (Some (lit form)).

Definition blank_control : Control := mkControl (lit "") (lit "") (lit "").

Definition filled (v : string) : Control := mkControl (lit v) (lit "") (lit "").

Definition hidden_banner : Element :=
  mkElement (lit "") (lit "none") [lit "form-message"] None.

Definition booking_displays : gmap JSString Element :=
  list_to_map
    (map (fun f : string => (lit f ++ lit "-error", error_display "booking-form"))
       ["name"; "email"; "phone"; "room-type"; "checkin"; "checkout"; "guests"]%string).

Definition contact_displays : gmap JSString Element :=
  list_to_map
    (map (fun f : string => (lit f ++ lit "-error", error_display "contact-form"))
       ["contact-name"; "contact-email"; "subject"; "message"]%string).

(** A booking page with every control empty. *)
Definition empty_booking_page : Page BookingControls :=
  mkPage
    (mkBooking blank_control blank_control blank_control blank_control
       blank_control blank_control blank_control blank_control)
    hidden_banner booking_displays [] 1718470800000.

(** A contact page with every control empty. *)
Definition empty_contact_page : Page ContactControls :=
  mkPage (mkContact blank_control blank_control blank_control blank_control)
    hidden_banner contact_displays [] 1718470800000.

(** A booking page with the given check-in and check-out dates and every
    other control validly filled, at the time [now]. *)
Definition filled_booking_page (ci co : string) (now : Z) : Page BookingControls :=
  mkPage
    (mkBooking (filled "John Doe") (filled "john@example.com")
       (filled "1234567890") (filled "+91") (filled "deluxe")
       (filled ci) (filled co) (filled "2"))
    hidden_banner booking_displays [] now.

(** A page without any error display. *)
Definition bare_page : Page BookingControls :=
  mkPage
    (mkBooking blank_control blank_control blank_control blank_control
       blank_control blank_control blank_control blank_control)
    hidden_banner ∅ [] 0.

(** A contact page with every control validly filled. *)
Definition filled_contact_page : Page ContactControls :=
  mkPage
    (mkContact (filled "John Doe") (filled "john@example.com")
       (filled "Late arrival") (filled "We will arrive after midnight."))
    hidden_banner contact_displays [] 1718470800000.

(** A valid booking page on which the banner of an earlier confirmation
    is still shown: its timer, set three seconds ago, is due in two
    seconds. *)
Definition resubmitted_page : Page BookingControls :=
  mkPage
    (mkBooking (filled "John Doe") (filled "john@example.com")
       (filled "1234567890") (filled "+91") (filled "deluxe")
       (filled "2024-06-20") (filled "2024-06-22") (filled "2"))
    (mkElement (lit "Booking confirmed! We will contact you shortly.")
       (lit "block") [lit "form-message"; lit "success"] None)
    booking_displays [mkTimer 1718470802000 HideSuccess] 1718470800000.

(** A valid booking page whose name display is outside the form and
    still shows the error of an earlier submit. *)
Definition stale_page : Page BookingControls :=
  mkPage
    (mkBooking (filled "John Doe") (filled "john@example.com")
       (filled "1234567890") (filled "+91") (filled "deluxe")
       (filled "2024-06-20") (filled "2024-06-22") (filled "2"))
    hidden_banner
    (<[lit "name-error" :=
         mkElement (lit "Full Name is required.") (lit "block")
           [lit "error-message"] None]> booking_displays)
    [] 1718470800000.

(* ===================================================================== *)
(** ** The program *)
(* ===================================================================== *)

Section Program.

(** [String.prototype.toLowerCase]: its case table is the Unicode one and
    is not part of the program; the development is parametric in it. *)
Variable toLowerCase : JSString -> JSString.

(** Lower-casing works unit by unit in the sense of [lower_piece]: no
    case mapping of Unicode produces or consumes white space, [@] or a
    dot. *)
Hypothesis toLowerCase_pieces :
  forall s : JSString,
    exists ps : list JSString,
      toLowerCase s = concat ps /\ Forall2 lower_piece s ps.

(** The offset of local time from UTC in milliseconds, for a zone whose
    offset does not change. *)
Variable LocalTZA : Z.

(** *** Validation helper functions *)

(** function validateEmail(email); [String(email)] is the identity on a
    string argument. *)
Definition validateEmail (email : JSString) : bool :=
  let re := email_re in
  test_anchored re (toLowerCase email).

(** function validatePhone(phone) *)
Definition validatePhone (phone : JSString) : bool :=
  let re := phone_re in
  test_anchored re phone.

(** *** Methods of [Date] *)

Definition LocalTime (t : Z) : Z := t + LocalTZA.

Definition UTC (t : Z) : Z := t - LocalTZA.

Definition getFullYear (d : TimeValue) : Num :=
  match d with Some t => Some (YearFromTime (LocalTime t)) | None => None end.

Definition getMonth (d : TimeValue) : Num :=
  match d with Some t => Some (MonthFromTime (LocalTime t)) | None => None end.

Definition getDate (d : TimeValue) : Num :=
  match d with Some t => Some (DateFromTime (LocalTime t)) | None => None end.

(** [new Date(s)] for the value of a date control. A string [YYYY-MM-DD]
    is the date-only form of the language and is read as midnight UTC of
    that day. A year of more than four digits without a sign is outside
    the format of the language, which leaves the reading to the
    implementation; V8 then takes the three numbers as year, month and
    day of a date in local time, so the string is read as midnight, local
    time, of that day. Either way a time outside the range of [Date]
    gives an invalid date. Strings that are neither give an invalid date
    here; a date control never holds one. *)
Definition Date_of_string (s : JSString) : TimeValue :=
  match parse_date_string s with
  | Some (y, m, d) => TimeClip (MakeDate (MakeDay y (m - 1) d) 0)
  | None =>
      match parse_long_date_string s with
      | Some (y, m, d) => TimeClip (UTC (MakeDate (MakeDay y (m - 1) d) 0))
      | None => None
      end
  end.

(** [d.setDate(dt)]: the day of the month is replaced in local time. *)
Definition setDate (d : TimeValue) (dt : Num) : TimeValue :=
  match d, dt with
  | Some t, Some dt =>
      let t := LocalTime t in
      let newDate :=
        MakeDate (MakeDay (YearFromTime t) (MonthFromTime t) dt) (TimeWithinDay t) in
      TimeClip (UTC newDate)
  | _, _ => None
  end.

(** [d.setHours(0, 0, 0, 0)]: midnight, local time, of the day of [d]. *)
Definition setHours_midnight (d : TimeValue) : TimeValue :=
  match d with
  | Some t =>
      let t := LocalTime t in
      TimeClip (UTC (MakeDate (Day t) 0))
  | None => None
  end.

(** [new Date()] *)
Definition Date_now {C : Type} : M (Page C) TimeValue :=
  gets (fun p => Some (clock p)).

(** The template [`${yyyy}-${mm}-${dd}`] over the local fields of a date,
    with month and day padded to two digits. *)
Definition local_date_string (d : TimeValue) : JSString :=
  let yyyy := getFullYear d in
  let mm := padStart 2 (cu "0") (String_of_num (num_add (getMonth d) 1)) in
  let dd := padStart 2 (cu "0") (String_of_num (getDate d)) in
  String_of_num yyyy ++ lit "-" ++ mm ++ lit "-" ++ dd.

(** *** The booking form *)

Definition booking_form : JSString := lit "booking-form".

(** The part of [initBookingForm] that runs at once: the minimum check-in
    date is today. The two listeners it registers are [checkin_onChange]
    and [booking_onSubmit] below. *)
Definition initBookingForm : M (Page BookingControls) unit :=
  today ← Date_now;
  let todayString := local_date_string today in
  modify (upd_controls (upd_checkin (set_min todayString))).

(** The listener for [change] on the check-in control. *)
Definition checkin_onChange : M (Page BookingControls) unit :=
  checkin_value ← gets (fun p => value (checkin (controls p)));
  if truthy checkin_value then
    let checkinDate := Date_of_string checkin_value in
    let checkinDate := setDate checkinDate (num_add (getDate checkinDate) 1) in
    let checkoutMinDate := local_date_string checkinDate in
    modify (upd_controls (upd_checkout (set_min checkoutMinDate))) ;;
    checkout_value ← gets (fun p => value (checkout (controls p)));
    if truthy checkout_value && str_lt checkout_value checkoutMinDate then
      modify (upd_controls (upd_checkout (set_value (lit ""))))
    else mret tt
  else
    modify (upd_controls (upd_checkout (set_min (lit "")))).

(** The validations of the submit listener, one definition for each [if]
    statement of the source, in its order. Each takes the current
    [isValid] and yields the new one. *)

Definition check_name (isValid : bool) : M (Page BookingControls) bool :=
  v ← gets (fun p => value (name (controls p)));
  if is_empty (trim v) then
    showError (lit "name") (lit "Full Name is required.") ;; mret false
  else mret isValid.

Definition check_email (isValid : bool) : M (Page BookingControls) bool :=
  v ← gets (fun p => value (email (controls p)));
  if is_empty (trim v) then
    showError (lit "email") (lit "Email Address is required.") ;; mret false
  else if negb (validateEmail v) then
    showError (lit "email")
      (lit "Please enter a valid email (e.g., name@example.com).") ;;
    mret false
  else mret isValid.

Definition check_countryCode (isValid : bool) : M (Page BookingControls) bool :=
  v ← gets (fun p => value (countryCode (controls p)));
  if is_empty (trim v) then
    showError (lit "phone") (lit "Please select a country code.") ;; mret false
  else mret isValid.

Definition check_phone (isValid : bool) : M (Page BookingControls) bool :=
  v ← gets (fun p => value (phone (controls p)));
  if is_empty (trim v) then
    showError (lit "phone") (lit "Phone Number is required.") ;; mret false
  else if negb (validatePhone v) then
    showError (lit "phone") (lit "Phone Number must be exactly 10 digits.") ;;
    mret false
  else mret isValid.

Definition check_roomType (isValid : bool) : M (Page BookingControls) bool :=
  v ← gets (fun p => value (roomType (controls p)));
  if is_empty v then
    showError (lit "room-type") (lit "Please select a room type.") ;; mret false
  else mret isValid.

Definition check_checkin (isValid : bool) : M (Page BookingControls) bool :=
  v ← gets (fun p => value (checkin (controls p)));
  if is_empty v then
    showError (lit "checkin") (lit "Check-in date is required.") ;; mret false
  else mret isValid.

Definition check_checkout (isValid : bool) : M (Page BookingControls) bool :=
  v ← gets (fun p => value (checkout (controls p)));
  if is_empty v then
    showError (lit "checkout") (lit "Check-out date is required.") ;; mret false
  else mret isValid.

Definition check_dates (isValid : bool) : M (Page BookingControls) bool :=
  checkin_value ← gets (fun p => value (checkin (controls p)));
  checkout_value ← gets (fun p => value (checkout (controls p)));
  if truthy checkin_value && truthy checkout_value then
    let checkinDate := Date_of_string checkin_value in
    let checkoutDate := Date_of_string checkout_value in
    now ← Date_now;
    let todayForCompare := setHours_midnight now in
    isValid ← (if date_lt checkinDate todayForCompare then
                 showError (lit "checkin")
                   (lit "Check-in date cannot be in the past.") ;;
                 mret false
               else mret isValid);
    if date_le checkoutDate checkinDate then
      showError (lit "checkout")
        (lit "Check-out date must be after the check-in date.") ;;
      mret false
    else mret isValid
  else mret isValid.

Definition check_guests (isValid : bool) : M (Page BookingControls) bool :=
  v ← gets (fun p => value (guests (controls p)));
  if is_empty v then
    showError (lit "guests") (lit "Please select the number of guests.") ;;
    mret false
  else mret isValid.

(** The success branch of the booking form. *)
Definition booking_confirm (isValid : bool) : M (Page BookingControls) unit :=
  if isValid then
    modify (upd_successMessage
              (set_textContent (lit "Booking confirmed! We will contact you shortly."))) ;;
    modify (upd_successMessage (set_className [lit "form-message"; lit "success"])) ;;
    modify (upd_successMessage (set_style_display (lit "block"))) ;;
    modify (upd_controls reset_booking) ;;
    setTimeout HideSuccess 5000
  else mret tt.

(** The listener for [submit] on the booking form.
    [event.preventDefault()] leaves the page as it is. *)
Definition booking_onSubmit : M (Page BookingControls) unit :=
  let isValid := true in
  clearAllErrors booking_form ;;
  modify (upd_successMessage (set_style_display (lit "none"))) ;;
  isValid ← check_name isValid;
  isValid ← check_email isValid;
  isValid ← check_countryCode isValid;
  isValid ← check_phone isValid;
  isValid ← check_roomType isValid;
  isValid ← check_checkin isValid;
  isValid ← check_checkout isValid;
  isValid ← check_dates isValid;
  isValid ← check_guests isValid;
  booking_confirm isValid.

(** *** The contact form *)

Definition contact_form : JSString := lit "contact-form".

Definition check_contact_name (isValid : bool) : M (Page ContactControls) bool :=
  v ← gets (fun p => value (contact_name (controls p)));
  if is_empty (trim v) then
    showError (lit "contact-name") (lit "Your Name is required.") ;; mret false
  else mret isValid.

Definition check_contact_email (isValid : bool) : M (Page ContactControls) bool :=
  v ← gets (fun p => value (contact_email (controls p)));
  if is_empty (trim v) then
    showError (lit "contact-email") (lit "Email Address is required.") ;;
    mret false
  else if negb (validateEmail v) then
    showError (lit "contact-email")
      (lit "Please enter a valid email (e.g., name@example.com).") ;;
    mret false
  else mret isValid.

Definition check_subject (isValid : bool) : M (Page ContactControls) bool :=
  v ← gets (fun p => value (subject (controls p)));
  if is_empty (trim v) then
    showError (lit "subject") (lit "Subject is required.") ;; mret false
  else mret isValid.

Definition check_message (isValid : bool) : M (Page ContactControls) bool :=
  v ← gets (fun p => value (message (controls p)));
  if is_empty (trim v) then
    showError (lit "message") (lit "Message is required.") ;; mret false
  else mret isValid.

Definition contact_confirm (isValid : bool) : M (Page ContactControls) unit :=
  if isValid then
    modify (upd_successMessage
              (set_textContent (lit "Thank you! Your message has been sent."))) ;;
    modify (upd_successMessage (set_className [lit "form-message"; lit "success"])) ;;
    modify (upd_successMessage (set_style_display (lit "block"))) ;;
    modify (upd_controls reset_contact) ;;
    setTimeout HideSuccess 5000
  else mret tt.

(** The listener for [submit] on the contact form. *)
Definition contact_onSubmit : M (Page ContactControls) unit :=
  let isValid := true in
  clearAllErrors contact_form ;;
  modify (upd_successMessage (set_style_display (lit "none"))) ;;
  isValid ← check_contact_name isValid;
  isValid ← check_contact_email isValid;
  isValid ← check_subject isValid;
  isValid ← check_message isValid;
  contact_confirm isValid.


(** *** The booking page as a reactive system *)

(** One turn of the event loop. An edit of the check-in control fires its
    [change] listener. *)
Definition dispatch (ev : Event) : M (Page BookingControls) unit :=
  match ev with
  | UserInput f v =>
      modify (upd_controls (upd_field f (set_value v))) ;;
      match f with
      | FCheckin => checkin_onChange
      | _ => mret tt
      end
  | Submit => booking_onSubmit
  | Elapse dt => elapse dt
  end.

Fixpoint run_events (evs : list Event) : M (Page BookingControls) unit :=
  match evs with
  | [] => mret tt
  | ev :: evs' => dispatch ev ;; run_events evs'
  end.

(** *** The validation rules in the words of the specification *)

(** The id of the error display of a field: [`${inputId}-error`]. *)
Definition err_id (inputId : JSString) : JSString := inputId ++ lit "-error".

(** What a successful [showError] leaves in the error display. *)
Definition show_message (msg : JSString) (e : Element) : Element :=
  set_style_display (lit "block") (set_textContent msg e).

(** A field rule at submit time: whether it fails on the current values,
    the field whose error display it reports to, and its message. *)
Record Rule : Type := mkRule {
  fails : bool;
  target : JSString;
  text : JSString
}.

(** Midnight of today for a page, as the submit listener computes it. *)
Definition todayForCompare {C : Type} (p : Page C) : TimeValue :=
  setHours_midnight (Some (clock p)).

Definition rule_name (c : BookingControls) : Rule :=
  mkRule (is_empty (trim (value (name c))))
    (lit "name") (lit "Full Name is required.").

Definition rule_email_required (c : BookingControls) : Rule :=
  mkRule (is_empty (trim (value (email c))))
    (lit "email") (lit "Email Address is required.").

Definition rule_email_format (c : BookingControls) : Rule :=
  mkRule (negb (is_empty (trim (value (email c))))
          && negb (validateEmail (value (email c))))
    (lit "email") (lit "Please enter a valid email (e.g., name@example.com).").

Definition rule_countryCode (c : BookingControls) : Rule :=
  mkRule (is_empty (trim (value (countryCode c))))
    (lit "phone") (lit "Please select a country code.").

Definition rule_phone_required (c : BookingControls) : Rule :=
  mkRule (is_empty (trim (value (phone c))))
    (lit "phone") (lit "Phone Number is required.").

Definition rule_phone_format (c : BookingControls) : Rule :=
  mkRule (negb (is_empty (trim (value (phone c))))
          && negb (validatePhone (value (phone c))))
    (lit "phone") (lit "Phone Number must be exactly 10 digits.").

Definition rule_roomType (c : BookingControls) : Rule :=
  mkRule (is_empty (value (roomType c)))
    (lit "room-type") (lit "Please select a room type.").

Definition rule_checkin_required (c : BookingControls) : Rule :=
  mkRule (is_empty (value (checkin c)))
    (lit "checkin") (lit "Check-in date is required.").

Definition rule_checkout_required (c : BookingControls) : Rule :=
  mkRule (is_empty (value (checkout c)))
    (lit "checkout") (lit "Check-out date is required.").

Definition both_dates (c : BookingControls) : bool :=
  truthy (value (checkin c)) && truthy (value (checkout c)).

Definition rule_checkin_past (p : Page BookingControls) : Rule :=
  mkRule (both_dates (controls p)
          && date_lt (Date_of_string (value (checkin (controls p))))
                     (todayForCompare p))
    (lit "checkin") (lit "Check-in date cannot be in the past.").

Definition rule_checkout_order (c : BookingControls) : Rule :=
  mkRule (both_dates c
          && date_le (Date_of_string (value (checkout c)))
                     (Date_of_string (value (checkin c))))
    (lit "checkout") (lit "Check-out date must be after the check-in date.").

Definition rule_guests (c : BookingControls) : Rule :=
  mkRule (is_empty (value (guests c)))
    (lit "guests") (lit "Please select the number of guests.").

(** The rules of the booking form in the order the specification lists
    them. *)
Definition booking_rules (p : Page BookingControls) : list Rule :=
  let c := controls p in
  [ rule_name c; rule_email_required c; rule_email_format c;
    rule_countryCode c; rule_phone_required c; rule_phone_format c;
    rule_roomType c; rule_checkin_required c; rule_checkout_required c;
    rule_checkin_past p; rule_checkout_order c; rule_guests c ].

Definition rule_contact_name (c : ContactControls) : Rule :=
  mkRule (is_empty (trim (value (contact_name c))))
    (lit "contact-name") (lit "Your Name is required.").

Definition rule_contact_email_required (c : ContactControls) : Rule :=
  mkRule (is_empty (trim (value (contact_email c))))
    (lit "contact-email") (lit "Email Address is required.").

Definition rule_contact_email_format (c : ContactControls) : Rule :=
  mkRule (negb (is_empty (trim (value (contact_email c))))
          && negb (validateEmail (value (contact_email c))))
    (lit "contact-email")
    (lit "Please enter a valid email (e.g., name@example.com).").

Definition rule_subject (c : ContactControls) : Rule :=
  mkRule (is_empty (trim (value (subject c))))
    (lit "subject") (lit "Subject is required.").

Definition rule_message (c : ContactControls) : Rule :=
  mkRule (is_empty (trim (value (message c))))
    (lit "message") (lit "Message is required.").

Definition contact_rules (p : Page ContactControls) : list Rule :=
  let c := controls p in
  [ rule_contact_name c; rule_contact_email_required c;
    rule_contact_email_format c; rule_subject c; rule_message c ].

(** Reporting a rule: a failing rule writes its message to the error
    display of its target if there is one; a passing rule writes
    nothing. *)
Definition flag (r : Rule) (els : gmap JSString Element) : gmap JSString Element :=
  if fails r then alter (show_message (text r)) (err_id (target r)) els else els.

(** Reporting every rule of a list, in order, with no early exit. *)
Definition mark (rs : list Rule) (els : gmap JSString Element)
    : gmap JSString Element :=
  foldl (fun els r => flag r els) els rs.

Definition all_pass (rs : list Rule) : bool := forallb (fun r => negb (fails r)) rs.

(** The error displays of a form after [clearAllErrors]. *)
Definition cleared (form : JSString) (els : gmap JSString Element)
    : gmap JSString Element :=
  (fun msg => if is_error_message form msg then clear_message msg else msg) <$> els.

(** The success banner as the confirmation leaves it. *)
Definition confirmed_banner (msg : JSString) (e : Element) : Element :=
  mkElement msg (lit "block") [lit "form-message"; lit "success"] (inside_form e).

(** The confirmation of a form: the banner is shown, the controls are
    reset, and the banner is scheduled to be hidden five seconds later. *)
Definition confirm {C : Type} (msg : JSString) (reset : C -> C) (p : Page C) : Page C :=
  upd_timers (fun ts => ts ++ [mkTimer (clock p + 5000) HideSuccess])
    (upd_controls reset (upd_successMessage (confirmed_banner msg) p)).

(** A submit with every rule evaluated: the old errors and the old banner
    are hidden, every failing rule is reported, and the form is confirmed
    when no rule fails. *)
Definition outcome {C : Type} (form msg : JSString) (reset : C -> C)
    (rs : list Rule) (p : Page C) : Page C :=
  let q := upd_elements (fun els => mark rs (cleared form els))
             (upd_successMessage (set_style_display (lit "none")) p) in
  if all_pass rs then confirm msg reset q else q.

Definition booking_outcome (p : Page BookingControls) : Page BookingControls :=
  outcome booking_form (lit "Booking confirmed! We will contact you shortly.")
    reset_booking (booking_rules p) p.

Definition contact_outcome (p : Page ContactControls) : Page ContactControls :=
  outcome contact_form (lit "Thank you! Your message has been sent.")
    reset_contact (contact_rules p) p.

(** Whether a rule writes to the element with id [k]. *)
Definition reports_to (k : JSString) (r : Rule) : bool :=
  bool_decide (err_id (target r) = k) && fails r.

(** What the rules of a list leave in the element with id [k], given
    what it held before. *)
Definition reported (k : JSString) (rs : list Rule) (e : Element) : Element :=
  foldl (fun e r => (if reports_to k r then show_message (text r) else fun e => e) e)
    e rs.

(** *** Empty forms *)

Definition all_empty_booking (c : BookingControls) : Prop :=
  value (name c) = [] /\ value (email c) = [] /\ value (phone c) = []
  /\ value (countryCode c) = [] /\ value (roomType c) = []
  /\ value (checkin c) = [] /\ value (checkout c) = [] /\ value (guests c) = [].

Definition all_empty_contact (c : ContactControls) : Prop :=
  value (contact_name c) = [] /\ value (contact_email c) = []
  /\ value (subject c) = [] /\ value (message c) = [].

(** The field whose error display reports on a control of the booking
    form: its own, except for the country code, which the submit listener
    reports on the display of the phone number. *)
Definition booking_error_target (f : BookingField) : JSString :=
  match f with
  | FName => lit "name"
  | FEmail => lit "email"
  | FPhone => lit "phone"
  | FCountryCode => lit "phone"
  | FRoomType => lit "room-type"
  | FCheckin => lit "checkin"
  | FCheckout => lit "checkout"
  | FGuests => lit "guests"
  end.


(** An error display of [before] holds [msg], visibly, in [after]. *)
Definition displays {C : Type} (before after : Page C) (field msg : JSString) : Prop :=
  forall e : Element,
    elements before !! err_id field = Some e ->
    elements after !! err_id field
    = Some (mkElement msg (lit "block") (classList e) (inside_form e)).

(** The submit was not confirmed: the banner is hidden and keeps its old
    text, the controls keep their values and no timer was added. *)
Definition not_confirmed {C : Type} (before after : Page C) : Prop :=
  style_display (successMessage after) = lit "none"
  /\ textContent (successMessage after) = textContent (successMessage before)
  /\ controls after = controls before
  /\ timers after = timers before.

(** The non-short-circuit property in the words of the specification:
    after a submit every failing rule has its own message on display. *)
Definition every_failing_rule_displayed
    (p q : Page BookingControls) : Prop :=
  forall r : Rule,
    r ∈ booking_rules p -> fails r = true -> displays p q (target r) (text r).

(** *** The confirmation and its timer *)

Definition field (f : BookingField) (c : BookingControls) : Control :=
  match f with
  | FName => name c
  | FEmail => email c
  | FPhone => phone c
  | FCountryCode => countryCode c
  | FRoomType => roomType c
  | FCheckin => checkin c
  | FCheckout => checkout c
  | FGuests => guests c
  end.

(** The timer a confirmation at the time of [p] sets: it hides the
    banner five seconds later. *)
Definition hide_timer {C : Type} (p : Page C) : Timer :=
  mkTimer (clock p + 5000) HideSuccess.

Definition hide_banner {C : Type} (p : Page C) : Page C :=
  upd_successMessage (set_style_display (lit "none")) p.

(** *** The validators in the words of the specification *)

(** A code unit that is neither white space nor [@]. *)
Definition email_unit (c : N) : bool :=
  negb (is_js_space c) && negb (c =? cu "@")%N.

(** The shape [local@domain.tld]: three non-empty runs of code units that
    are neither white space nor [@], the first two separated by [@] and
    the last two by a dot. *)
Definition email_shape (s : JSString) : Prop :=
  exists x y z : JSString,
    s = x ++ cu "@" :: y ++ cu "." :: z
    /\ x <> [] /\ y <> [] /\ z <> []
    /\ Forall (fun c => email_unit c = true) x
    /\ Forall (fun c => email_unit c = true) y
    /\ Forall (fun c => email_unit c = true) z.

Definition no_space (s : JSString) : Prop :=
  Forall (fun c => is_js_space c = false) s.

(** The sufficient condition the specification gives for an address to
    pass: no white space before the [@], none between the [@] and the
    dot, and a non-empty suffix after the last dot. *)
Definition spec_email_passes (s : JSString) : Prop :=
  exists x y z : JSString,
    s = x ++ cu "@" :: y ++ cu "." :: z
    /\ no_space x /\ no_space y
    /\ z <> [] /\ cu "." ∉ z.

(** Exactly ten decimal digits. *)
Definition ten_digits (s : JSString) : Prop :=
  length s = 10%nat /\ Forall (fun c => is_digit c = true) s.

(** *** Further notions for the listeners *)

(** A string of white space only (the empty string included). *)
Definition blank (s : JSString) : Prop :=
  Forall (fun c => is_js_space c = true) s.

(** The message of the rule that requires a control of the booking
    form to be filled in. *)
Definition required_message (f : BookingField) : JSString :=
  match f with
  | FName => lit "Full Name is required."
  | FEmail => lit "Email Address is required."
  | FPhone => lit "Phone Number is required."
  | FCountryCode => lit "Please select a country code."
  | FRoomType => lit "Please select a room type."
  | FCheckin => lit "Check-in date is required."
  | FCheckout => lit "Check-out date is required."
  | FGuests => lit "Please select the number of guests."
  end.

(** A message is on display in some element of the page. *)
Definition on_display {C : Type} (q : Page C) (msg : JSString) : Prop :=
  exists (k : JSString) (e : Element),
    elements q !! k = Some e
    /\ textContent e = msg /\ style_display e = lit "block".

(** The outcome of a submit of the empty booking form in the words of
    the specification: an error is shown for every required control. *)
Definition every_required_error_displayed (q : Page BookingControls) : Prop :=
  forall f : BookingField, on_display q (required_message f).

(** An element as it was, or hidden: text, class and place are kept. *)
Definition kept_or_hidden (before after : Element) : Prop :=
  after = before \/ after = set_style_display (lit "none") before.

(** What [clearAllErrors] makes of one element. *)
Definition swept (form : JSString) (e : Element) : Element :=
  if is_error_message form e then clear_message e else e.

(** The values the booking form confirms. *)
Definition booking_accepts (p : Page BookingControls) : Prop :=
  let c := controls p in
  ~ blank (value (name c))
  /\ email_shape (value (email c))
  /\ ~ blank (value (countryCode c))
  /\ ten_digits (value (phone c))
  /\ value (roomType c) <> []
  /\ value (checkin c) <> []
  /\ value (checkout c) <> []
  /\ date_lt (Date_of_string (value (checkin c))) (todayForCompare p) = false
  /\ date_le (Date_of_string (value (checkout c)))
       (Date_of_string (value (checkin c))) = false
  /\ value (guests c) <> [].

(** The values the contact form confirms. *)
Definition contact_accepts (c : ContactControls) : Prop :=
  ~ blank (value (contact_name c))
  /\ email_shape (value (contact_email c))
  /\ ~ blank (value (subject c))
  /\ ~ blank (value (message c)).

(** Every pending timer is due later than now and within five seconds. *)
Definition timers_fresh {C : Type} (p : Page C) : Prop :=
  Forall (fun t => clock p < due t <= clock p + 5000) (timers p).

(** A banner on display has a timer pending. *)
Definition banner_covered {C : Type} (p : Page C) : Prop :=
  style_display (successMessage p) = lit "block" -> timers p <> [].

(** Checking a property of every integer from 0 up to a bound, by
    evaluation. *)
Definition range_step (f : Z -> bool) (acc : bool * Z) : bool * Z :=
  (fst acc && f (snd acc), snd acc + 1).

Definition all_below (n : N) (f : Z -> bool) : bool :=
  fst (N.iter n (range_step f) (true, 0)).

(** The code unit of a decimal digit, and a number written with four and
    with two digits. *)
Definition digit_unit (q : Z) : N := Z.to_N (48 + q).

Definition four_digits (z : Z) : JSString :=
  [digit_unit (z / 1000); digit_unit ((z / 100) mod 10);
   digit_unit ((z / 10) mod 10); digit_unit (z mod 10)].

Definition two_digits (z : Z) : JSString :=
  [digit_unit (z / 10); digit_unit (z mod 10)].

(* ===================================================================== *)
(** ** Properties *)
(* ===================================================================== *)

(** *** Regular expressions: the matcher decides the denotation *)

Lemma nullable_spec (r : Regex) : nullable r = true <-> Matches r [].
Proof.
  split.
  - induction r; simpl; intros H; try discriminate.
    + constructor.
    + apply andb_true_iff in H as [H1 H2].
      change (@nil N) with (@nil N ++ []). constructor; auto.
    + apply orb_true_iff in H as [H | H]; [apply MAltL | apply MAltR]; auto.
    + constructor.
  - intros H. remember [] as s eqn:E.
    induction H; simpl; subst; try discriminate; auto.
    + apply app_eq_nil in E as [-> ->]. rewrite IHMatches1, IHMatches2; auto.
    + rewrite IHMatches; auto.
    + rewrite IHMatches, orb_true_r; auto.
Qed.

Lemma deriv_sound (c : N) (r : Regex) :
  forall s, Matches (deriv c r) s -> Matches r (c :: s).
Proof.
  induction r; simpl; intros s H.
  - inversion H.
  - inversion H.
  - destruct (atom_mem a c) eqn:E; inversion H; subst. now constructor.
  - destruct (bracket_mem negated atoms c) eqn:E; inversion H; subst.
    now constructor.
  - destruct (nullable r1) eqn:E.
    + inversion H; subst.
      * match goal with
        | HS : Matches (RSeq _ _) _ |- _ => inversion HS; subst
        end.
        change (c :: s1 ++ s2) with ((c :: s1) ++ s2). constructor; auto.
      * change (c :: s) with ([] ++ c :: s). constructor; auto.
        now apply nullable_spec.
    + inversion H; subst.
      change (c :: s1 ++ s2) with ((c :: s1) ++ s2). constructor; auto.
  - inversion H; subst; [apply MAltL | apply MAltR]; auto.
  - inversion H; subst.
    change (c :: s1 ++ s2) with ((c :: s1) ++ s2). constructor; auto.
Qed.

Lemma deriv_complete (c : N) (r : Regex) (w : JSString) :
  Matches r w -> forall t, w = c :: t -> Matches (deriv c r) t.
Proof.
  induction 1; intros t E; simpl.
  - discriminate.
  - injection E as -> <-. rewrite H. constructor.
  - injection E as -> <-. rewrite H. constructor.
  - destruct s1 as [| c1 s1'].
    + simpl in E. subst s2.
      assert (Hn : nullable r1 = true) by now apply nullable_spec.
      rewrite Hn. apply MAltR. now apply IHMatches2.
    + simpl in E. injection E as -> <-.
      destruct (nullable r1); [apply MAltL |]; constructor; auto.
  - apply MAltL. auto.
  - apply MAltR. auto.
  - discriminate.
  - destruct s1 as [| c1 s1'].
    + simpl in E. now apply IHMatches2.
    + simpl in E. injection E as -> <-. constructor; auto.
Qed.

Lemma test_anchored_spec (s : JSString) :
  forall r, test_anchored r s = true <-> Matches r s.
Proof.
  induction s as [| c s IH]; intros r; simpl.
  - apply nullable_spec.
  - rewrite IH. split.
    + apply deriv_sound.
    + intros H. now apply (deriv_complete c r (c :: s)).
Qed.


Lemma Matches_star_bracket (neg : bool) (atoms : list ClassAtom) (s : JSString) :
  Matches (RStar (RBracket neg atoms)) s
  <-> Forall (fun c => bracket_mem neg atoms c = true) s.
Proof.
  split.
  - intros H. remember (RStar (RBracket neg atoms)) as r eqn:E.
    induction H; inversion E; subst.
    + constructor.
    + inversion H; subst. simpl. constructor; auto.
  - induction 1 as [| c s Hc _ IH].
    + constructor.
    + change (c :: s) with ([c] ++ s). constructor; [now constructor | exact IH].
Qed.

Lemma Matches_plus_bracket (neg : bool) (atoms : list ClassAtom) (s : JSString) :
  Matches (RPlus (RBracket neg atoms)) s
  <-> s <> [] /\ Forall (fun c => bracket_mem neg atoms c = true) s.
Proof.
  unfold RPlus. split.
  - intros H. inversion H as [| | | r1 r2 s1 s2 H1 H2 | | | |]; subst.
    inversion H1; subst. apply Matches_star_bracket in H2. simpl.
    split; [discriminate | constructor; auto].
  - intros [Hne HF]. destruct s as [| c s]; [congruence |].
    inversion HF; subst.
    change (c :: s) with ([c] ++ s).
    constructor; [now constructor | now apply Matches_star_bracket].
Qed.

Lemma Matches_char (c : N) (s : JSString) :
  Matches (RAtom (ClsChar c)) s <-> s = [c].
Proof.
  split.
  - intros H. inversion H; subst. simpl in *.
    match goal with HE : (_ =? _)%N = true |- _ => apply N.eqb_eq in HE; now subst end.
  - intros ->. constructor. simpl. apply N.eqb_refl.
Qed.

Lemma Matches_seq (r1 r2 : Regex) (s : JSString) :
  Matches (RSeq r1 r2) s
  <-> exists s1 s2, s = s1 ++ s2 /\ Matches r1 s1 /\ Matches r2 s2.
Proof.
  split.
  - intros H. inversion H; subst. eauto.
  - intros (s1 & s2 & -> & H1 & H2). now constructor.
Qed.

Lemma not_space_at_mem (c : N) :
  bracket_mem true [ClsSpace; ClsChar (cu "@")] c = email_unit c.
Proof.
  unfold bracket_mem, email_unit. cbn [existsb atom_mem].
  destruct (is_js_space c), (c =? cu "@")%N; reflexivity.
Qed.

Lemma Forall_not_space_at (s : JSString) :
  Forall (fun c => bracket_mem true [ClsSpace; ClsChar (cu "@")] c = true) s
  <-> Forall (fun c => email_unit c = true) s.
Proof.
  split; induction 1 as [| c s Hc _ IH]; constructor; auto.
  - now rewrite <- not_space_at_mem.
  - now rewrite not_space_at_mem.
Qed.

Lemma Matches_not_space_at_plus (s : JSString) :
  Matches (RPlus not_space_at) s
  <-> s <> [] /\ Forall (fun c => email_unit c = true) s.
Proof.
  unfold not_space_at. rewrite Matches_plus_bracket, Forall_not_space_at.
  reflexivity.
Qed.

Lemma Matches_email_re (s : JSString) : Matches email_re s <-> email_shape s.
Proof.
  unfold email_re, email_shape. split.
  - intros H.
    apply Matches_seq in H as (x & r1 & -> & Hx & H).
    apply Matches_seq in H as (a & r2 & -> & Ha & H).
    apply Matches_seq in H as (y & r3 & -> & Hy & H).
    apply Matches_seq in H as (d & z & -> & Hd & Hz).
    apply Matches_char in Ha as ->. apply Matches_char in Hd as ->.
    apply Matches_not_space_at_plus in Hx as [? ?].
    apply Matches_not_space_at_plus in Hy as [? ?].
    apply Matches_not_space_at_plus in Hz as [? ?].
    exists x, y, z. simpl. repeat split; auto.
  - intros (x & y & z & -> & Hx & Hy & Hz & Fx & Fy & Fz).
    apply Matches_seq. exists x, (cu "@" :: y ++ cu "." :: z).
    split; [reflexivity |]. split; [now apply Matches_not_space_at_plus |].
    apply Matches_seq. exists [cu "@"], (y ++ cu "." :: z).
    split; [reflexivity |]. split; [now apply Matches_char |].
    apply Matches_seq. exists y, (cu "." :: z).
    split; [reflexivity |]. split; [now apply Matches_not_space_at_plus |].
    apply Matches_seq. exists [cu "."], z.
    split; [reflexivity |]. split; [now apply Matches_char |].
    now apply Matches_not_space_at_plus.
Qed.

Lemma Matches_repeat_atom (a : ClassAtom) (n : nat) :
  forall s, Matches (RRepeat n (RAtom a)) s
            <-> length s = n /\ Forall (fun c => atom_mem a c = true) s.
Proof.
  induction n as [| n IH]; intros s; simpl.
  - split.
    + intros H. inversion H; subst. split; [reflexivity | constructor].
    + intros [Hl _]. destruct s; [constructor | discriminate].
  - rewrite Matches_seq. split.
    + intros (s1 & s2 & -> & H1 & H2). inversion H1; subst.
      apply IH in H2 as [Hl HF]. simpl. split; [now rewrite Hl | constructor; auto].
    + intros [Hl HF]. destruct s as [| c s]; [discriminate |].
      inversion HF; subst. exists [c], s.
      split; [reflexivity |]. split; [now constructor |].
      apply IH. split; [now injection Hl | assumption].
Qed.


(** *** Lower-casing and the e-mail shape *)

Lemma not_delimiter_unit (c : N) :
  is_delimiter c = false -> email_unit c = true.
Proof.
  unfold is_delimiter, email_unit.
  destruct (is_js_space c), (c =? cu "@")%N; simpl; congruence.
Qed.

Lemma lower_piece_delimiter (c : N) (p : JSString) :
  is_delimiter c = true -> lower_piece c p -> p = [c].
Proof. unfold lower_piece. now intros ->. Qed.

Lemma lower_piece_other (c : N) (p : JSString) :
  is_delimiter c = false -> lower_piece c p ->
  p <> [] /\ Forall (fun c' => is_delimiter c' = false) p.
Proof. unfold lower_piece. now intros ->. Qed.

Lemma pieces_units (x : JSString) (px : list JSString) :
  Forall2 lower_piece x px ->
  Forall (fun c => email_unit c = true) x ->
  Forall (fun c => email_unit c = true) (concat px).
Proof.
  induction 1 as [| c p x px Hp _ IH]; intros HF; simpl; [constructor |].
  inversion HF as [| ? ? Hc HF']; subst.
  apply Forall_app. split; [| now apply IH].
  destruct (is_delimiter c) eqn:E.
  - apply (lower_piece_delimiter _ _ E) in Hp as ->. now constructor.
  - apply (lower_piece_other _ _ E) in Hp as [_ Hp].
    eapply Forall_impl; [exact Hp |]. intros c'. apply not_delimiter_unit.
Qed.

Lemma pieces_units_back (x : JSString) (px : list JSString) :
  Forall2 lower_piece x px ->
  Forall (fun c => email_unit c = true) (concat px) ->
  Forall (fun c => email_unit c = true) x.
Proof.
  induction 1 as [| c p x px Hp _ IH]; intros HF; simpl in *; [constructor |].
  apply Forall_app in HF as [HF1 HF2].
  constructor; [| now apply IH].
  destruct (is_delimiter c) eqn:E.
  - apply (lower_piece_delimiter _ _ E) in Hp as ->. now inversion HF1.
  - now apply not_delimiter_unit.
Qed.

Lemma pieces_nonempty (x : JSString) (px : list JSString) :
  Forall2 lower_piece x px -> x <> [] <-> concat px <> [].
Proof.
  destruct 1 as [| c p x px Hp _]; simpl; [tauto |].
  split; intros _; [| discriminate].
  destruct (is_delimiter c) eqn:E.
  - apply (lower_piece_delimiter _ _ E) in Hp as ->. discriminate.
  - apply (lower_piece_other _ _ E) in Hp as [Hp _].
    destruct p; [congruence | discriminate].
Qed.

Lemma prefix_without (d : N) (p r a b : JSString) :
  Forall (fun c => is_delimiter c = false) p ->
  is_delimiter d = true ->
  p ++ r = a ++ d :: b ->
  exists a', a = p ++ a' /\ r = a' ++ d :: b.
Proof.
  intros Hp Hd. revert a. induction Hp as [| q p Hq _ IH]; intros a E; simpl in *.
  - exists a. auto.
  - destruct a as [| a0 a]; simpl in E.
    + injection E as -> _. congruence.
    + injection E as -> E. destruct (IH _ E) as (a' & -> & ->).
      exists a'. auto.
Qed.

Lemma pieces_split (d : N) (s : JSString) (ps : list JSString) :
  Forall2 lower_piece s ps ->
  is_delimiter d = true ->
  forall a b, concat ps = a ++ d :: b ->
  exists s1 s2 ps1 ps2,
    s = s1 ++ d :: s2
    /\ Forall2 lower_piece s1 ps1 /\ concat ps1 = a
    /\ Forall2 lower_piece s2 ps2 /\ concat ps2 = b.
Proof.
  intros HF Hd. induction HF as [| c p s ps Hp HF IH]; intros a b E; simpl in E.
  - destruct a; discriminate.
  - destruct (is_delimiter c) eqn:Ec.
    + apply (lower_piece_delimiter _ _ Ec) in Hp as ->. simpl in E.
      destruct a as [| a0 a]; simpl in E.
      * injection E as -> E. exists [], s, [], ps. simpl. auto.
      * injection E as -> E.
        destruct (IH _ _ E) as (s1 & s2 & ps1 & ps2 & -> & H1 & <- & H2 & <-).
        exists (a0 :: s1), s2, ([a0] :: ps1), ps2. simpl.
        repeat split; auto. constructor; auto.
        unfold lower_piece. now rewrite Ec.
    + pose proof (lower_piece_other _ _ Ec Hp) as [_ Hnd].
      destruct (prefix_without _ _ _ _ _ Hnd Hd E) as (a' & -> & E').
      destruct (IH _ _ E') as (s1 & s2 & ps1 & ps2 & -> & H1 & <- & H2 & <-).
      exists (c :: s1), s2, (p :: ps1), ps2. simpl.
      repeat split; auto.
Qed.

Lemma email_shape_pieces (s : JSString) (ps : list JSString) :
  Forall2 lower_piece s ps -> email_shape (concat ps) <-> email_shape s.
Proof.
  intros HF. split.
  - intros (x & y & z & E & Hx & Hy & Hz & Fx & Fy & Fz).
    destruct (pieces_split (cu "@") _ _ HF eq_refl _ _ E)
      as (s1 & s2 & ps1 & ps2 & -> & H1 & <- & H2 & E2).
    destruct (pieces_split (cu ".") _ _ H2 eq_refl _ _ E2)
      as (s3 & s4 & ps3 & ps4 & -> & H3 & <- & H4 & <-).
    exists s1, s3, s4. split; [reflexivity |].
    split; [now apply (pieces_nonempty _ _ H1) |].
    split; [now apply (pieces_nonempty _ _ H3) |].
    split; [now apply (pieces_nonempty _ _ H4) |].
    split; [now apply (pieces_units_back _ _ H1) |].
    split; [now apply (pieces_units_back _ _ H3) |].
    now apply (pieces_units_back _ _ H4).
  - intros (x & y & z & -> & Hx & Hy & Hz & Fx & Fy & Fz).
    apply Forall2_app_inv_l in HF as (px & ps' & H1 & HF & ->).
    inversion HF as [| ? pa ? ps'' Ha HF']; subst.
    apply Forall2_app_inv_l in HF' as (py & ps3 & H2 & HF' & ->).
    inversion HF' as [| ? pd ? pz Hd H3]; subst.
    apply (lower_piece_delimiter (cu "@") _ eq_refl) in Ha as ->.
    apply (lower_piece_delimiter (cu ".") _ eq_refl) in Hd as ->.
    exists (concat px), (concat py), (concat pz).
    split; [now rewrite !concat_app; simpl; rewrite !concat_app |].
    split; [now apply (pieces_nonempty _ _ H1) |].
    split; [now apply (pieces_nonempty _ _ H2) |].
    split; [now apply (pieces_nonempty _ _ H3) |].
    split; [now apply (pieces_units _ _ H1) |].
    split; [now apply (pieces_units _ _ H2) |].
    now apply (pieces_units _ _ H3).
Qed.

Lemma email_shape_toLowerCase (s : JSString) :
  email_shape (toLowerCase s) <-> email_shape s.
Proof.
  destruct (toLowerCase_pieces s) as (ps & -> & HF).
  now apply email_shape_pieces.
Qed.

Lemma validateEmail_shape (s : JSString) :
  validateEmail s = true <-> email_shape s.
Proof.
  unfold validateEmail.
  rewrite test_anchored_spec, Matches_email_re.
  apply email_shape_toLowerCase.
Qed.


Lemma email_shape_no_space (s : JSString) :
  email_shape s -> forall c, c ∈ s -> is_js_space c = false /\ email_unit c = true \/ c = cu "@".
Proof.
  intros (x & y & z & -> & _ & _ & _ & Fx & Fy & Fz) c Hc.
  assert (U : forall l, Forall (fun c => email_unit c = true) l -> c ∈ l ->
                        is_js_space c = false /\ email_unit c = true).
  { intros l Hl Hin. rewrite Forall_forall in Hl. specialize (Hl c Hin).
    split; [| exact Hl]. unfold email_unit in Hl.
    destruct (is_js_space c); [discriminate | reflexivity]. }
  rewrite elem_of_app, elem_of_cons, elem_of_app, elem_of_cons in Hc.
  destruct Hc as [Hc | [-> | [Hc | [-> | Hc]]]]; eauto.
Qed.

(** C1 (as amended). [validateEmail(s)] is true exactly when the
    lower-cased [s] matches the pattern, and that is exactly when [s] has
    the shape [x@y.z] with [x], [y] and [z] non-empty and free of white
    space and of [@]. Hence a string with white space anywhere, or without
    an [@], or without a dot, fails. *)
Theorem validateEmail_correct (s : JSString) :
  (validateEmail s = true <-> Matches email_re (toLowerCase s))
  /\ (validateEmail s = true <-> email_shape s)
  /\ ((exists c, c ∈ s /\ is_js_space c = true) -> validateEmail s = false)
  /\ (cu "@" ∉ s -> validateEmail s = false)
  /\ (cu "." ∉ s -> validateEmail s = false).
Proof.
  split; [apply test_anchored_spec |].
  split; [apply validateEmail_shape |].
  repeat split.
  - intros (c & Hc & Hs). apply not_true_is_false. intros H.
    apply validateEmail_shape in H.
    destruct (email_shape_no_space _ H c Hc) as [[Hn _] | ->]; [congruence |].
    discriminate Hs.
  - intros Hno. apply not_true_is_false. intros H.
    apply validateEmail_shape in H as (x & y & z & -> & _).
    apply Hno. rewrite elem_of_app, elem_of_cons. auto.
  - intros Hno. apply not_true_is_false. intros H.
    apply validateEmail_shape in H as (x & y & z & -> & _).
    apply Hno. rewrite elem_of_app, elem_of_cons, elem_of_app, elem_of_cons. auto.
Qed.

(** C2. [validatePhone(s)] is true exactly when [s] consists of exactly
    ten decimal digits; ["12345"] is invalid and ["1234567890"] is
    valid. *)
Theorem validatePhone_correct :
  (forall s : JSString, validatePhone s = true <-> ten_digits s)
  /\ validatePhone (lit "12345") = false
  /\ validatePhone (lit "1234567890") = true.
Proof.
  split; [| split; reflexivity].
  intros s. unfold validatePhone, phone_re, ten_digits.
  rewrite test_anchored_spec. apply Matches_repeat_atom.
Qed.

(** *** The statements run to completion *)

Lemma bind_run {S A B : Type} (m : M S A) (f : A -> M S B) (s : S) :
  (m ≫= f) s = match m s with
               | Normal (a, s') => f a s'
               | Throw e => Throw e
               end.
Proof. reflexivity. Qed.

Lemma upd_elements_id {C : Type} (p : Page C) : upd_elements (fun els => els) p = p.
Proof. now destruct p. Qed.

Lemma upd_elements_compose {C : Type}
    (f g : gmap JSString Element -> gmap JSString Element) (p : Page C) :
  upd_elements f (upd_elements g p) = upd_elements (fun els => f (g els)) p.
Proof. reflexivity. Qed.

Lemma upd_elements_ext {C : Type}
    (f g : gmap JSString Element -> gmap JSString Element) (p : Page C) :
  f (elements p) = g (elements p) -> upd_elements f p = upd_elements g p.
Proof. unfold upd_elements. now intros ->. Qed.

Lemma alter_absent (f : Element -> Element) (k : JSString)
    (els : gmap JSString Element) :
  els !! k = None -> alter f k els = els.
Proof.
  intros H. apply map_eq. intros j. rewrite lookup_alter.
  case_decide; [subst; now rewrite H | reflexivity].
Qed.

Lemma write_twice {C : Type} (k : JSString) (f g : Element -> Element) (p : Page C) :
  upd_elements (alter g k) (upd_elements (alter f k) p)
  = upd_elements (alter (fun e => g (f e)) k) p.
Proof.
  rewrite upd_elements_compose. apply upd_elements_ext.
  apply (alter_alter_eq g f).
Qed.

Lemma showError_run {C : Type} (inputId message : JSString) (p : Page C) :
  showError inputId message p
  = Normal (tt, upd_elements (alter (show_message message) (err_id inputId)) p).
Proof.
  unfold showError. rewrite bind_run. unfold getElementById, gets.
  fold (err_id inputId). destruct (elements p !! err_id inputId) eqn:E; simpl.
  - rewrite bind_run. simpl. unfold modify. now rewrite write_twice.
  - unfold mret, M_ret. rewrite <- (upd_elements_id p) at 1.
    f_equal. f_equal. apply upd_elements_ext. now rewrite alter_absent.
Qed.

Lemma clearError_run {C : Type} (inputId : JSString) (p : Page C) :
  clearError inputId p
  = Normal (tt, upd_elements (alter clear_message (err_id inputId)) p).
Proof.
  unfold clearError. rewrite bind_run. unfold getElementById, gets.
  fold (err_id inputId). destruct (elements p !! err_id inputId) eqn:E; simpl.
  - rewrite bind_run. simpl. unfold modify. now rewrite write_twice.
  - unfold mret, M_ret. rewrite <- (upd_elements_id p) at 1.
    f_equal. f_equal. apply upd_elements_ext. now rewrite alter_absent.
Qed.

(** One [if] statement of a submit listener: a failing rule reports and
    clears [isValid], a passing rule leaves both alone. *)
Lemma report_run {C : Type} (r : Rule) (isValid : bool) (p : Page C) :
  (if fails r
   then showError (target r) (text r) ;; mret false
   else mret isValid) p
  = Normal (isValid && negb (fails r), upd_elements (flag r) p).
Proof.
  unfold flag. destruct (fails r).
  - rewrite bind_run, showError_run. now rewrite andb_false_r.
  - unfold mret, M_ret. now rewrite andb_true_r, upd_elements_id.
Qed.

Lemma bind_Normal {S A B : Type} (m : M S A) (f : A -> M S B) (s s' : S) (a : A) :
  m s = Normal (a, s') -> (m ≫= f) s = f a s'.
Proof. intros H. now rewrite bind_run, H. Qed.

Lemma modify_run {S : Type} (f : S -> S) (s : S) : modify f s = Normal (tt, f s).
Proof. reflexivity. Qed.

Lemma clearAllErrors_run {C : Type} (form : JSString) (p : Page C) :
  clearAllErrors form p = Normal (tt, upd_elements (cleared form) p).
Proof. reflexivity. Qed.

Lemma report2_run {C : Type} (c1 c2 : bool) (t m1 m2 : JSString)
    (isValid : bool) (p : Page C) :
  (if c1 then showError t m1 ;; mret false
   else if c2 then showError t m2 ;; mret false
   else mret isValid) p
  = Normal (isValid && negb (fails (mkRule c1 t m1))
            && negb (fails (mkRule (negb c1 && c2) t m2)),
            upd_elements (flag (mkRule (negb c1 && c2) t m2))
              (upd_elements (flag (mkRule c1 t m1)) p)).
Proof.
  unfold flag. destruct c1, c2; cbn [fails negb andb];
    rewrite ?bind_run, ?showError_run; unfold mret, M_ret;
    rewrite ?upd_elements_id, ?andb_false_r, ?andb_true_r; reflexivity.
Qed.

Lemma check_name_run (v : bool) (p : Page BookingControls) :
  check_name v p
  = Normal (v && negb (fails (rule_name (controls p))),
            upd_elements (flag (rule_name (controls p))) p).
Proof. exact (report_run (rule_name (controls p)) v p). Qed.

Lemma check_email_run (v : bool) (p : Page BookingControls) :
  check_email v p
  = Normal (v && negb (fails (rule_email_required (controls p)))
            && negb (fails (rule_email_format (controls p))),
            upd_elements (flag (rule_email_format (controls p)))
              (upd_elements (flag (rule_email_required (controls p))) p)).
Proof. apply report2_run. Qed.

Lemma check_countryCode_run (v : bool) (p : Page BookingControls) :
  check_countryCode v p
  = Normal (v && negb (fails (rule_countryCode (controls p))),
            upd_elements (flag (rule_countryCode (controls p))) p).
Proof. exact (report_run (rule_countryCode (controls p)) v p). Qed.

Lemma check_phone_run (v : bool) (p : Page BookingControls) :
  check_phone v p
  = Normal (v && negb (fails (rule_phone_required (controls p)))
            && negb (fails (rule_phone_format (controls p))),
            upd_elements (flag (rule_phone_format (controls p)))
              (upd_elements (flag (rule_phone_required (controls p))) p)).
Proof. apply report2_run. Qed.

Lemma check_roomType_run (v : bool) (p : Page BookingControls) :
  check_roomType v p
  = Normal (v && negb (fails (rule_roomType (controls p))),
            upd_elements (flag (rule_roomType (controls p))) p).
Proof. exact (report_run (rule_roomType (controls p)) v p). Qed.

Lemma check_checkin_run (v : bool) (p : Page BookingControls) :
  check_checkin v p
  = Normal (v && negb (fails (rule_checkin_required (controls p))),
            upd_elements (flag (rule_checkin_required (controls p))) p).
Proof. exact (report_run (rule_checkin_required (controls p)) v p). Qed.

Lemma check_checkout_run (v : bool) (p : Page BookingControls) :
  check_checkout v p
  = Normal (v && negb (fails (rule_checkout_required (controls p))),
            upd_elements (flag (rule_checkout_required (controls p))) p).
Proof. exact (report_run (rule_checkout_required (controls p)) v p). Qed.

Lemma check_dates_run (v : bool) (p : Page BookingControls) :
  check_dates v p
  = Normal (v && negb (fails (rule_checkin_past p))
            && negb (fails (rule_checkout_order (controls p))),
            upd_elements (flag (rule_checkout_order (controls p)))
              (upd_elements (flag (rule_checkin_past p)) p)).
Proof.
  unfold check_dates, Date_now, gets. repeat (rewrite bind_run; cbv beta iota).
  unfold rule_checkin_past, rule_checkout_order, todayForCompare, flag.
  cbn [fails target text]. unfold both_dates.
  destruct (truthy (value (checkin (controls p)))
            && truthy (value (checkout (controls p)))); cbn [andb].
  - repeat (rewrite bind_run; cbv beta iota).
    destruct (date_lt _ _), (date_le _ _);
      repeat (rewrite ?bind_run, ?showError_run; unfold mret, M_ret; cbv beta iota);
      rewrite ?upd_elements_id, ?andb_false_r, ?andb_true_r; reflexivity.
  - unfold mret, M_ret. now rewrite !upd_elements_id, !andb_true_r.
Qed.

Lemma check_guests_run (v : bool) (p : Page BookingControls) :
  check_guests v p
  = Normal (v && negb (fails (rule_guests (controls p))),
            upd_elements (flag (rule_guests (controls p))) p).
Proof. exact (report_run (rule_guests (controls p)) v p). Qed.

Lemma all_pass_foldl (rs : list Rule) (v : bool) :
  foldl (fun v r => v && negb (fails r)) v rs = v && all_pass rs.
Proof.
  revert v. induction rs as [| r rs IH]; intros v; simpl.
  - now rewrite andb_true_r.
  - rewrite IH. now rewrite andb_assoc.
Qed.

Lemma booking_confirm_run (v : bool) (p : Page BookingControls) :
  booking_confirm v p
  = Normal (tt, if v
                then confirm (lit "Booking confirmed! We will contact you shortly.")
                       reset_booking p
                else p).
Proof. destruct v; reflexivity. Qed.

(** The submit listener of the booking form runs to completion, and what
    it leaves is [booking_outcome]: every rule has been evaluated. *)
Lemma booking_onSubmit_run (p : Page BookingControls) :
  booking_onSubmit p = Normal (tt, booking_outcome p).
Proof.
  unfold booking_onSubmit.
  rewrite (bind_Normal _ _ _ _ _ (clearAllErrors_run _ _)).
  rewrite (bind_Normal _ _ _ _ _ (modify_run _ _)).
  rewrite (bind_Normal _ _ _ _ _ (check_name_run _ _)).
  rewrite (bind_Normal _ _ _ _ _ (check_email_run _ _)).
  rewrite (bind_Normal _ _ _ _ _ (check_countryCode_run _ _)).
  rewrite (bind_Normal _ _ _ _ _ (check_phone_run _ _)).
  rewrite (bind_Normal _ _ _ _ _ (check_roomType_run _ _)).
  rewrite (bind_Normal _ _ _ _ _ (check_checkin_run _ _)).
  rewrite (bind_Normal _ _ _ _ _ (check_checkout_run _ _)).
  rewrite (bind_Normal _ _ _ _ _ (check_dates_run _ _)).
  rewrite (bind_Normal _ _ _ _ _ (check_guests_run _ _)).
  rewrite booking_confirm_run.
  unfold booking_outcome, outcome.
  rewrite <- (andb_true_l (all_pass (booking_rules p))).
  rewrite <- all_pass_foldl.
  reflexivity.
Qed.

Lemma check_contact_name_run (v : bool) (p : Page ContactControls) :
  check_contact_name v p
  = Normal (v && negb (fails (rule_contact_name (controls p))),
            upd_elements (flag (rule_contact_name (controls p))) p).
Proof. exact (report_run (rule_contact_name (controls p)) v p). Qed.

Lemma check_contact_email_run (v : bool) (p : Page ContactControls) :
  check_contact_email v p
  = Normal (v && negb (fails (rule_contact_email_required (controls p)))
            && negb (fails (rule_contact_email_format (controls p))),
            upd_elements (flag (rule_contact_email_format (controls p)))
              (upd_elements (flag (rule_contact_email_required (controls p))) p)).
Proof. apply report2_run. Qed.

Lemma check_subject_run (v : bool) (p : Page ContactControls) :
  check_subject v p
  = Normal (v && negb (fails (rule_subject (controls p))),
            upd_elements (flag (rule_subject (controls p))) p).
Proof. exact (report_run (rule_subject (controls p)) v p). Qed.

Lemma check_message_run (v : bool) (p : Page ContactControls) :
  check_message v p
  = Normal (v && negb (fails (rule_message (controls p))),
            upd_elements (flag (rule_message (controls p))) p).
Proof. exact (report_run (rule_message (controls p)) v p). Qed.

Lemma contact_confirm_run (v : bool) (p : Page ContactControls) :
  contact_confirm v p
  = Normal (tt, if v
                then confirm (lit "Thank you! Your message has been sent.")
                       reset_contact p
                else p).
Proof. destruct v; reflexivity. Qed.

(** The submit listener of the contact form runs to completion, and what
    it leaves is [contact_outcome]. *)
Lemma contact_onSubmit_run (p : Page ContactControls) :
  contact_onSubmit p = Normal (tt, contact_outcome p).
Proof.
  unfold contact_onSubmit.
  rewrite (bind_Normal _ _ _ _ _ (clearAllErrors_run _ _)).
  rewrite (bind_Normal _ _ _ _ _ (modify_run _ _)).
  rewrite (bind_Normal _ _ _ _ _ (check_contact_name_run _ _)).
  rewrite (bind_Normal _ _ _ _ _ (check_contact_email_run _ _)).
  rewrite (bind_Normal _ _ _ _ _ (check_subject_run _ _)).
  rewrite (bind_Normal _ _ _ _ _ (check_message_run _ _)).
  rewrite contact_confirm_run.
  unfold contact_outcome, outcome.
  rewrite <- (andb_true_l (all_pass (contact_rules p))).
  rewrite <- all_pass_foldl.
  reflexivity.
Qed.

(** *** What a submit leaves in an error display *)

Lemma lookup_flag (k : JSString) (r : Rule) (els : gmap JSString Element) :
  flag r els !! k
  = (if reports_to k r then show_message (text r) else fun e => e) <$> els !! k.
Proof.
  unfold flag, reports_to. destruct (fails r).
  - rewrite lookup_alter. rewrite andb_true_r.
    destruct (decide (err_id (target r) = k)) as [<- | Hne].
    + now rewrite bool_decide_eq_true_2.
    + rewrite bool_decide_eq_false_2 by assumption. now destruct (els !! k).
  - rewrite andb_false_r. now destruct (els !! k).
Qed.

Lemma lookup_mark (k : JSString) (rs : list Rule) :
  forall els : gmap JSString Element,
    mark rs els !! k = reported k rs <$> els !! k.
Proof.
  unfold mark, reported. induction rs as [| r rs IH]; intros els; simpl.
  - now destruct (els !! k).
  - rewrite IH, lookup_flag. now destruct (els !! k).
Qed.

Lemma lookup_cleared (form k : JSString) (els : gmap JSString Element) :
  cleared form els !! k
  = (fun msg => if is_error_message form msg then clear_message msg else msg)
      <$> els !! k.
Proof. unfold cleared. apply lookup_fmap. Qed.

(** The error displays after a submit, element by element. *)
Lemma lookup_outcome {C : Type} (form msg : JSString) (reset : C -> C)
    (rs : list Rule) (p : Page C) (k : JSString) :
  elements (outcome form msg reset rs p) !! k
  = (fun e => reported k rs
                (if is_error_message form e then clear_message e else e))
      <$> elements p !! k.
Proof.
  unfold outcome. destruct (all_pass rs); simpl;
    rewrite lookup_mark, lookup_cleared; now destruct (elements p !! k).
Qed.

(** A submit on which some rule fails leaves the banner hidden, the
    controls as they are and the timers as they are. *)
Lemma outcome_blocked {C : Type} (form msg : JSString) (reset : C -> C)
    (rs : list Rule) (p : Page C) :
  all_pass rs = false ->
  style_display (successMessage (outcome form msg reset rs p)) = lit "none"
  /\ textContent (successMessage (outcome form msg reset rs p))
     = textContent (successMessage p)
  /\ controls (outcome form msg reset rs p) = controls p
  /\ timers (outcome form msg reset rs p) = timers p
  /\ clock (outcome form msg reset rs p) = clock p.
Proof. unfold outcome. intros ->. simpl. auto. Qed.

Lemma all_pass_false (rs : list Rule) (r : Rule) :
  r ∈ rs -> fails r = true -> all_pass rs = false.
Proof.
  intros Hin Hf. unfold all_pass. apply not_true_is_false. intros H.
  rewrite forallb_forall in H. apply list_elem_of_In in Hin.
  specialize (H r Hin). rewrite Hf in H. discriminate.
Qed.

Lemma outcome_not_confirmed {C : Type} (form msg : JSString) (reset : C -> C)
    (rs : list Rule) (p : Page C) :
  all_pass rs = false -> not_confirmed p (outcome form msg reset rs p).
Proof.
  intros H. destruct (outcome_blocked form msg reset rs p H) as (? & ? & ? & ? & _).
  unfold not_confirmed. auto.
Qed.

(** C9. [showError] and [clearError] always run to completion; when the
    element [{inputId}-error] is absent they leave the page exactly as it
    is, whereas a write through the missing reference would have thrown.
    The submit listeners therefore complete whatever displays are
    missing. *)
Theorem error_helpers_guarded (inputId message : JSString) (p : Page BookingControls) :
  elements p !! (inputId ++ lit "-error") = None ->
  showError inputId message p = Normal (tt, p)
  /\ clearError inputId p = Normal (tt, p)
  /\ write_element None (set_textContent message) p = Throw TypeError
  /\ (exists q, booking_onSubmit p = Normal (tt, q)
                /\ elements q !! (inputId ++ lit "-error") = None).
Proof.
  intros H. fold (err_id inputId) in *.
  split; [| split; [| split]].
  - rewrite showError_run. f_equal. f_equal.
    rewrite <- (upd_elements_id p) at 2. apply upd_elements_ext.
    now apply alter_absent.
  - rewrite clearError_run. f_equal. f_equal.
    rewrite <- (upd_elements_id p) at 2. apply upd_elements_ext.
    now apply alter_absent.
  - reflexivity.
  - exists (booking_outcome p). split; [apply booking_onSubmit_run |].
    unfold booking_outcome. now rewrite lookup_outcome, H.
Qed.

(** C4 (as amended). A submit of either form with every required
    control empty does not confirm the form and leaves the "required"
    message of every required control in the display of that control,
    except for the country code of the booking form. The country-code
    check runs and writes its message to the display of the phone
    number, where the phone check then replaces it: after the submit
    that display holds the message of the phone number. *)
Theorem empty_forms_show_every_error
    (pb : Page BookingControls) (pc : Page ContactControls) :
  all_empty_booking (controls pb) ->
  all_empty_contact (controls pc) ->
  (exists qb,
      booking_onSubmit pb = Normal (tt, qb)
      /\ not_confirmed pb qb
      /\ (forall f : BookingField,
            f <> FCountryCode ->
            displays pb qb (booking_error_target f) (required_message f))
      /\ displays pb qb (booking_error_target FCountryCode)
           (required_message FPhone)
      /\ exists q1,
           (clearAllErrors booking_form ;;
            modify (upd_successMessage (set_style_display (lit "none"))) ;;
            isValid ← check_name true;
            isValid ← check_email isValid;
            check_countryCode isValid) pb
           = Normal (false, q1)
           /\ displays pb q1 (booking_error_target FCountryCode)
                (required_message FCountryCode))
  /\ (exists qc,
         contact_onSubmit pc = Normal (tt, qc)
         /\ not_confirmed pc qc
         /\ displays pc qc (lit "contact-name") (lit "Your Name is required.")
         /\ displays pc qc (lit "contact-email") (lit "Email Address is required.")
         /\ displays pc qc (lit "subject") (lit "Subject is required.")
         /\ displays pc qc (lit "message") (lit "Message is required.")).
Proof.
  intros Hb Hc. split.
  - exists (booking_outcome pb). split; [apply booking_onSubmit_run |].
    destruct pb as [[[n ? ?] [em ? ?] [ph ? ?] [cc ? ?] [rt ? ?] [ci ? ?] [co ? ?] [g ? ?]]
                      sm els ts clk].
    unfold all_empty_booking in Hb. simpl in Hb.
    destruct Hb as (-> & -> & -> & -> & -> & -> & -> & ->).
    split; [| split; [| split]].
    + apply outcome_not_confirmed. reflexivity.
    + intros f Hne e He. unfold booking_outcome. rewrite lookup_outcome, He.
      cbn [fmap option_fmap option_map]. apply f_equal.
      destruct (is_error_message booking_form e), f;
        try (now destruct Hne); vm_compute; reflexivity.
    + intros e He. unfold booking_outcome. rewrite lookup_outcome, He.
      cbn [fmap option_fmap option_map]. apply f_equal.
      destruct (is_error_message booking_form e); vm_compute; reflexivity.
    + eexists. split.
      * rewrite (bind_Normal _ _ _ _ _ (clearAllErrors_run _ _)).
        rewrite (bind_Normal _ _ _ _ _ (modify_run _ _)).
        rewrite (bind_Normal _ _ _ _ _ (check_name_run _ _)).
        rewrite (bind_Normal _ _ _ _ _ (check_email_run _ _)).
        rewrite check_countryCode_run. reflexivity.
      * intros e He.
        cbn [elements upd_elements upd_successMessage controls] in *.
        rewrite !lookup_flag, lookup_cleared, He.
        cbn [fmap option_fmap option_map]. apply f_equal.
        destruct (is_error_message booking_form e); vm_compute; reflexivity.
  - exists (contact_outcome pc). split; [apply contact_onSubmit_run |].
    destruct pc as [[[n ? ?] [em ? ?] [su ? ?] [me ? ?]] sm els ts clk].
    unfold all_empty_contact in Hc. simpl in Hc.
    destruct Hc as (-> & -> & -> & ->).
    split; [apply outcome_not_confirmed; reflexivity |].
    repeat split; intros e He; unfold contact_outcome;
      rewrite lookup_outcome, He; cbn [fmap option_fmap option_map]; apply f_equal;
      destruct (is_error_message contact_form e); vm_compute; reflexivity.
Qed.

(** *** Reading the rule table at one error display *)

Ltac decide_keys :=
  repeat match goal with
    | |- context [bool_decide (?a = ?b)] =>
        let v := eval vm_compute in (bool_decide (a = b)) in
        let H := fresh in
        assert (H : bool_decide (a = b) = v) by (vm_compute; reflexivity);
        rewrite H; clear H
    end.

Ltac read_table :=
  unfold reported, reports_to, booking_rules, contact_rules;
  cbn [foldl fails target text
       rule_name rule_email_required rule_email_format rule_countryCode
       rule_phone_required rule_phone_format rule_roomType
       rule_checkin_required rule_checkout_required rule_checkin_past
       rule_checkout_order rule_guests
       rule_contact_name rule_contact_email_required
       rule_contact_email_format rule_subject rule_message];
  decide_keys; cbn [andb].

Ltac in_table :=
  repeat first [ apply list_elem_of_here | apply list_elem_of_further ].

Ltac split_cases :=
  repeat match goal with
    | |- context [if ?c then _ else _] => destruct c eqn:?
    end;
  cbn [negb andb] in *; try discriminate; try reflexivity.

(** C10. When the country code is empty, its check writes "Please select
    a country code." to the error display of the phone number and to no
    other element. After the whole submit that display holds this message
    only if the phone number passes; if the phone number is empty or
    malformed the display holds the message of the phone number instead.
    An element [country-code-error] is never written to. *)
Theorem country_code_reports_to_phone (p : Page BookingControls) :
  is_empty (trim (value (countryCode (controls p)))) = true ->
  (exists q0,
      check_countryCode true p = Normal (false, q0)
      /\ displays p q0 (lit "phone") (lit "Please select a country code.")
      /\ forall k, k <> err_id (lit "phone") -> elements q0 !! k = elements p !! k)
  /\ exists q,
      booking_onSubmit p = Normal (tt, q)
      /\ not_confirmed p q
      /\ (is_empty (trim (value (phone (controls p)))) = false ->
          validatePhone (value (phone (controls p))) = true ->
          displays p q (lit "phone") (lit "Please select a country code."))
      /\ (is_empty (trim (value (phone (controls p)))) = true ->
          displays p q (lit "phone") (lit "Phone Number is required."))
      /\ (is_empty (trim (value (phone (controls p)))) = false ->
          validatePhone (value (phone (controls p))) = false ->
          displays p q (lit "phone") (lit "Phone Number must be exactly 10 digits."))
      /\ (forall e, elements p !! err_id (lit "country-code") = Some e ->
                    elements q !! err_id (lit "country-code")
                    = Some (if is_error_message booking_form e
                            then clear_message e else e)).
Proof.
  intros Hcc. split.
  - eexists. split; [| split].
    + rewrite check_countryCode_run. cbn [fails rule_countryCode].
      rewrite Hcc. reflexivity.
    + intros e He. cbn [elements upd_elements]. rewrite lookup_flag, He.
      unfold reports_to. cbn [fails target text rule_countryCode].
      rewrite Hcc, bool_decide_eq_true_2 by reflexivity. reflexivity.
    + intros k Hk. cbn [elements upd_elements]. rewrite lookup_flag.
      unfold reports_to. cbn [fails target text rule_countryCode].
      rewrite bool_decide_eq_false_2 by congruence. now destruct (elements p !! k).
  - exists (booking_outcome p). split; [apply booking_onSubmit_run |].
    split.
    { apply outcome_not_confirmed.
      apply (all_pass_false _ (rule_countryCode (controls p))); [| exact Hcc].
      unfold booking_rules. in_table. }
    unfold booking_outcome.
    repeat split.
    + intros He1 Hv e He. rewrite lookup_outcome, He.
      cbn [fmap option_fmap option_map]. apply f_equal. read_table.
      rewrite Hcc, He1, Hv. split_cases.
    + intros He1 e He. rewrite lookup_outcome, He.
      cbn [fmap option_fmap option_map]. apply f_equal. read_table.
      rewrite Hcc, He1. split_cases.
    + intros He1 Hv e He. rewrite lookup_outcome, He.
      cbn [fmap option_fmap option_map]. apply f_equal. read_table.
      rewrite Hcc, He1, Hv. split_cases.
    + intros e He. rewrite lookup_outcome, He.
      cbn [fmap option_fmap option_map]. apply f_equal. read_table. reflexivity.
Qed.

Ltac use_failure Hf :=
  cbn [fails rule_name rule_email_required rule_email_format rule_countryCode
       rule_phone_required rule_phone_format rule_roomType
       rule_checkin_required rule_checkout_required rule_checkin_past
       rule_checkout_order rule_guests] in Hf;
  unfold both_dates, truthy in *;
  rewrite ?Hf; cbn [negb andb]; rewrite ?andb_false_r; cbn [negb andb].

Ltac read_display He :=
  rewrite lookup_outcome, He; cbn [fmap option_fmap option_map];
  apply f_equal; read_table.

(** C3 (as amended). The submit listener evaluates every rule whatever
    the earlier ones gave: as soon as one rule fails the form is not
    confirmed, and the message of every failing rule other than the
    country-code rule is on display after the submit. The country-code
    rule writes to the display of the phone number, so its message is on
    display only if both phone rules pass; otherwise that display holds
    the message of the failing phone rule. *)
Theorem every_rule_is_evaluated (p : Page BookingControls) (r : Rule) :
  r ∈ booking_rules p ->
  fails r = true ->
  exists q,
    booking_onSubmit p = Normal (tt, q)
    /\ not_confirmed p q
    /\ (r <> rule_countryCode (controls p) -> displays p q (target r) (text r))
    /\ (fails (rule_countryCode (controls p)) = true ->
        displays p q (lit "phone")
          (if fails (rule_phone_required (controls p))
           then text (rule_phone_required (controls p))
           else if fails (rule_phone_format (controls p))
                then text (rule_phone_format (controls p))
                else text (rule_countryCode (controls p)))).
Proof.
  intros Hin Hf. exists (booking_outcome p).
  split; [apply booking_onSubmit_run |].
  split; [apply outcome_not_confirmed; now apply (all_pass_false _ r) |].
  unfold booking_outcome. split.
  - intros Hne. unfold booking_rules in Hin.
    rewrite !elem_of_cons, elem_of_nil in Hin.
    destruct Hin as [-> | [-> | [-> | [-> | [-> | [-> | [-> | [-> | [-> |
                    [-> | [-> | [-> | []]]]]]]]]]]]];
      try (intros e He; read_display He; use_failure Hf; split_cases; fail).
    now contradiction Hne.
  - intros Hcc e He. read_display He. use_failure Hcc. split_cases.
Qed.

(** *** The calendar: day numbers grow with the date *)

Local Open Scope Z_scope.

Lemma days_from_civil_alt y m d :
  days_from_civil y m d
  = year_days (if m <=? 2 then y - 1 else y)
    + month_offset (if m <=? 2 then m + 9 else m - 3) + d - 1 - 719468.
Proof.
  unfold days_from_civil, year_days, month_offset. cbv zeta.
  generalize (if m <=? 2 then y - 1 else y) as a.
  generalize ((153 * (if m <=? 2 then m + 9 else m - 3) + 2) / 5) as g.
  intros g a. (Z.div_mod_to_equations; lia).
Qed.

Lemma year_days_mono a b : a <= b -> year_days a <= year_days b.
Proof. unfold year_days. intros H. (Z.div_mod_to_equations; lia). Qed.

Lemma year_days_succ a :
  year_days (a + 1) = year_days a + (if is_leap_year (a + 1) then 366 else 365).
Proof.
  unfold year_days, is_leap_year.
  destruct (Z.eqb_spec ((a + 1) mod 4) 0), (Z.eqb_spec ((a + 1) mod 100) 0),
    (Z.eqb_spec ((a + 1) mod 400) 0); cbn [andb orb negb];
    (Z.div_mod_to_equations; lia).
Qed.

Lemma day_of_year_bound y m d :
  valid_date y m d ->
  0 <= month_offset (if m <=? 2 then m + 9 else m - 3) + d - 1
    <= (if is_leap_year ((if m <=? 2 then y - 1 else y) + 1) then 365 else 364).
Proof.
  intros [Hm Hd]. unfold days_in_month in Hd. unfold month_offset.
  assert (E : m = 1 \/ m = 2 \/ m = 3 \/ m = 4 \/ m = 5 \/ m = 6 \/ m = 7
              \/ m = 8 \/ m = 9 \/ m = 10 \/ m = 11 \/ m = 12) by lia.
  destruct E as [-> | [-> | [-> | [-> | [-> | [-> | [-> | [-> | [-> | [-> | [-> | ->]]]]]]]]]]];
    cbn [Z.leb Z.eqb Z.compare Pos.compare Pos.compare_cont Pos.eqb orb] in Hd |- *;
    try replace (y - 1 + 1) with y by lia;
    repeat match goal with
      | |- context [is_leap_year ?x] => destruct (is_leap_year x)
      end;
    change ((153 * (1 + 9) + 2) / 5) with 306;
    change ((153 * (2 + 9) + 2) / 5) with 337;
    change ((153 * (3 - 3) + 2) / 5) with 0;
    change ((153 * (4 - 3) + 2) / 5) with 31;
    change ((153 * (5 - 3) + 2) / 5) with 61;
    change ((153 * (6 - 3) + 2) / 5) with 92;
    change ((153 * (7 - 3) + 2) / 5) with 122;
    change ((153 * (8 - 3) + 2) / 5) with 153;
    change ((153 * (9 - 3) + 2) / 5) with 184;
    change ((153 * (10 - 3) + 2) / 5) with 214;
    change ((153 * (11 - 3) + 2) / 5) with 245;
    change ((153 * (12 - 3) + 2) / 5) with 275;
    lia.
Qed.

Lemma month_offset_step y1 m1 d1 y2 m2 d2 :
  valid_date y1 m1 d1 -> valid_date y2 m2 d2 ->
  (if m1 <=? 2 then m1 + 9 else m1 - 3) < (if m2 <=? 2 then m2 + 9 else m2 - 3) ->
  month_offset (if m1 <=? 2 then m1 + 9 else m1 - 3) + d1
  < month_offset (if m2 <=? 2 then m2 + 9 else m2 - 3) + d2.
Proof.
  intros [Hm1 Hd1] [Hm2 Hd2] Hlt. unfold days_in_month in *. unfold month_offset.
  assert (E1 : m1 = 1 \/ m1 = 2 \/ m1 = 3 \/ m1 = 4 \/ m1 = 5 \/ m1 = 6 \/ m1 = 7
              \/ m1 = 8 \/ m1 = 9 \/ m1 = 10 \/ m1 = 11 \/ m1 = 12) by lia.
  assert (E2 : m2 = 1 \/ m2 = 2 \/ m2 = 3 \/ m2 = 4 \/ m2 = 5 \/ m2 = 6 \/ m2 = 7
              \/ m2 = 8 \/ m2 = 9 \/ m2 = 10 \/ m2 = 11 \/ m2 = 12) by lia.
  destruct E1 as [-> | [-> | [-> | [-> | [-> | [-> | [-> | [-> | [-> | [-> | [-> | ->]]]]]]]]]]];
  destruct E2 as [-> | [-> | [-> | [-> | [-> | [-> | [-> | [-> | [-> | [-> | [-> | ->]]]]]]]]]]];
    cbn [Z.leb Z.eqb Z.compare Pos.compare Pos.compare_cont Pos.eqb orb] in Hd1, Hd2, Hlt |- *;
    try lia;
    try destruct (is_leap_year y1);
    Z.div_mod_to_equations; lia.
Qed.

Theorem days_from_civil_lt y1 m1 d1 y2 m2 d2 :
  valid_date y1 m1 d1 -> valid_date y2 m2 d2 ->
  civil_lt (y1, m1, d1) (y2, m2, d2) ->
  days_from_civil y1 m1 d1 < days_from_civil y2 m2 d2.
Proof.
  intros V1 V2 Hlt. rewrite !days_from_civil_alt.
  pose proof (day_of_year_bound _ _ _ V1) as B1.
  pose proof (day_of_year_bound _ _ _ V2) as B2.
  pose proof (month_offset_step _ _ _ _ _ _ V1 V2) as St.
  unfold civil_lt in Hlt. destruct V1 as [R1 _], V2 as [R2 _].
  set (a := if m1 <=? 2 then y1 - 1 else y1) in *.
  set (b := if m2 <=? 2 then y2 - 1 else y2) in *.
  set (p1 := if m1 <=? 2 then m1 + 9 else m1 - 3) in *.
  set (p2 := if m2 <=? 2 then m2 + 9 else m2 - 3) in *.
  assert (Hcase : a < b \/ (a = b /\ (p1 < p2 \/ (p1 = p2 /\ d1 < d2)))).
  { subst a b p1 p2. destruct (Z.leb_spec m1 2), (Z.leb_spec m2 2); lia. }
  destruct Hcase as [Hab | [Hab [Hp | [Hp Hd]]]].
  - pose proof (year_days_mono (a + 1) b ltac:(lia)).
    pose proof (year_days_succ a).
    destruct (is_leap_year (a + 1)); lia.
  - specialize (St Hp). rewrite Hab. lia.
  - rewrite Hab, Hp. lia.
Qed.

(** *** Date strings *)

Lemma digit_value_range (c : N) : is_digit c = true -> 0 <= digit_value c <= 9.
Proof.
  unfold is_digit, digit_value. intros H.
  apply andb_true_iff in H as [H1 H2].
  apply N.leb_le in H1. apply N.leb_le in H2. lia.
Qed.

Lemma parse_date_string_valid (s : JSString) (y m d : Z) :
  parse_date_string s = Some (y, m, d) ->
  s <> [] /\ 0 <= y <= 9999 /\ valid_date y m d.
Proof.
  unfold parse_date_string. intros H.
  do 10 (destruct s as [| ? s]; [discriminate |]).
  destruct s; [| discriminate].
  split; [discriminate |].
  destruct (forallb is_digit _ && _ && _) eqn:E; [| discriminate].
  apply andb_true_iff in E as [E _]. apply andb_true_iff in E as [E _].
  cbn [forallb] in E.
  repeat match type of E with
    | (_ && _) = true =>
        let Hd := fresh "Hd" in
        apply andb_true_iff in E as [Hd E]; apply digit_value_range in Hd
    end.
  match type of H with
  | (if ?c then _ else _) = _ => destruct c eqn:V; [| discriminate]
  end.
  injection H as <- <- <-.
  repeat (apply andb_true_iff in V as [V ?]).
  unfold valid_date.
  repeat match goal with
    | Hle : (_ <=? _) = true |- _ => apply Z.leb_le in Hle
    end.
  lia.
Qed.

Lemma MakeDay_civil (y m d : Z) :
  1 <= m <= 12 -> MakeDay y (m - 1) d = days_from_civil y m d.
Proof.
  intros Hm. unfold MakeDay.
  rewrite Z.div_small, Z.mod_small by lia.
  replace (y + 0) with y by lia. replace (m - 1 + 1) with m by lia.
  rewrite !days_from_civil_alt. lia.
Qed.

Lemma days_from_civil_range (y m d : Z) :
  0 <= y <= 9999 -> valid_date y m d ->
  -1000000 <= days_from_civil y m d <= 3000000.
Proof.
  intros Hy V. pose proof (day_of_year_bound _ _ _ V) as B.
  rewrite days_from_civil_alt.
  assert (Ha : -1 <= (if m <=? 2 then y - 1 else y) <= 9999)
    by (destruct (m <=? 2); lia).
  revert B Ha. generalize (if m <=? 2 then y - 1 else y) as a. intros a B Ha.
  assert (Hyd : -366 <= year_days a <= 3700000)
    by (unfold year_days; Z.div_mod_to_equations; lia).
  destruct (is_leap_year (a + 1)); lia.
Qed.

(** A date string denotes midnight UTC of its day. *)
Lemma Date_of_string_parse (s : JSString) (y m d : Z) :
  parse_date_string s = Some (y, m, d) ->
  Date_of_string s = Some (days_from_civil y m d * msPerDay).
Proof.
  intros H. unfold Date_of_string. rewrite H.
  destruct (parse_date_string_valid _ _ _ _ H) as (_ & Hy & V).
  rewrite MakeDay_civil by apply V.
  pose proof (days_from_civil_range _ _ _ Hy V) as R.
  unfold MakeDate, TimeClip, msPerDay in *.
  rewrite Z.add_0_r.
  destruct (Z.leb_spec (Z.abs (days_from_civil y m d * 86400000)) 8640000000000000);
    [reflexivity | lia].
Qed.


(** *** Dates of every length *)







(** *** The event loop *)

Lemma run_callbacks_run {C : Type} (ts : list Timer) :
  forall p : Page C,
    run_callbacks ts p
    = Normal (tt, match ts with [] => p | _ :: _ => hide_banner p end).
Proof.
  induction ts as [| t ts IH]; intros p; [reflexivity |].
  cbn [run_callbacks]. rewrite bind_run.
  destruct t as [dt []]. cbn [callback run_callback]. rewrite modify_run.
  rewrite IH. now destruct ts.
Qed.

Lemma elapse_run {C : Type} (dt : Z) (p : Page C) :
  let now := clock p + Z.max 0 dt in
  elapse dt p
  = Normal (tt,
      (if existsb (is_due now) (timers p) then hide_banner else fun q => q)
        (upd_timers (List.filter (fun t => negb (is_due now t)))
           (upd_clock (fun t => t + Z.max 0 dt) p))).
Proof.
  cbv zeta. unfold elapse.
  rewrite (bind_Normal _ _ _ _ _ (modify_run _ _)).
  unfold gets. rewrite !bind_run. cbv beta iota.
  rewrite modify_run, run_callbacks_run.
  cbn [clock timers upd_clock].
  induction (timers p) as [| t ts IH]; [reflexivity |].
  cbn [List.filter existsb]. now destruct (is_due _ t).
Qed.

Lemma checkin_onChange_run (p : Page BookingControls) :
  exists c : BookingControls,
    checkin_onChange p = Normal (tt, upd_controls (fun _ => c) p).
Proof.
  unfold checkin_onChange, gets. rewrite bind_run. cbv beta iota.
  destruct (truthy (value (checkin (controls p)))).
  - rewrite (bind_Normal _ _ _ _ _ (modify_run _ _)).
    rewrite bind_run. cbv beta iota.
    match goal with
    | |- context [if ?c then _ else _] => destruct c
    end.
    + rewrite modify_run. unfold upd_controls. eexists. reflexivity.
    + unfold mret, M_ret, upd_controls. eexists. reflexivity.
  - rewrite modify_run. unfold upd_controls. eexists. reflexivity.
Qed.

Lemma outcome_frame {C : Type} (form msg : JSString) (reset : C -> C)
    (rs : list Rule) (p : Page C) :
  clock (outcome form msg reset rs p) = clock p
  /\ forall t, t ∈ timers p -> t ∈ timers (outcome form msg reset rs p).
Proof.
  unfold outcome. destruct (all_pass rs); simpl; split; auto.
  intros t Ht. apply elem_of_app. now left.
Qed.

(** One turn of the event loop completes; the clock does not go back and
    a timer that is not yet due stays pending. *)
Lemma dispatch_run (ev : Event) (p : Page BookingControls) :
  exists q,
    dispatch ev p = Normal (tt, q)
    /\ clock p <= clock q
    /\ forall t, t ∈ timers p -> clock q < due t -> t ∈ timers q.
Proof.
  destruct ev as [f v | | dt]; cbn [dispatch].
  - rewrite (bind_Normal _ _ _ _ _ (modify_run _ _)).
    destruct f;
      try (eexists; split; [reflexivity | split; [cbn; lia | now intros]]).
    destruct (checkin_onChange_run
                (upd_controls (upd_field FCheckin (set_value v)) p)) as [g ->].
    eexists. split; [reflexivity | split; [cbn; lia | now intros]].
  - exists (booking_outcome p). split; [apply booking_onSubmit_run |].
    unfold booking_outcome.
    destruct (outcome_frame booking_form
                (lit "Booking confirmed! We will contact you shortly.")
                reset_booking (booking_rules p) p) as [Hc Ht].
    rewrite Hc. split; [lia | auto].
  - rewrite elapse_run. eexists. split; [reflexivity |].
    destruct (existsb _ (timers p)); cbn [clock timers hide_banner
      upd_successMessage upd_timers upd_clock]; (split; [lia |]);
      intros t Ht Hd; apply list_elem_of_In, filter_In;
      (split; [now apply list_elem_of_In |]);
      unfold is_due; apply negb_true_iff, Z.leb_gt; exact Hd.
Qed.

Lemma run_events_run (evs : list Event) :
  forall p : Page BookingControls,
    exists q,
      run_events evs p = Normal (tt, q)
      /\ clock p <= clock q
      /\ forall t, t ∈ timers p -> clock q < due t -> t ∈ timers q.
Proof.
  induction evs as [| ev evs IH]; intros p; cbn [run_events].
  - exists p. split; [reflexivity | split; [lia | auto]].
  - destruct (dispatch_run ev p) as (p1 & E1 & C1 & T1).
    destruct (IH p1) as (q & E2 & C2 & T2).
    exists q. rewrite (bind_Normal _ _ _ _ _ E1). split; [exact E2 |].
    split; [lia |]. intros t Ht Hd. apply T2; [| exact Hd].
    apply T1; [exact Ht | lia].
Qed.

(** C8. A submit of the booking form on which every rule passes shows
    the success message, puts every control back to its default value,
    which is the empty string on a page whose controls have empty
    defaults, and sets a timer for five seconds later. Nothing cancels that timer:
    whatever the user does it stays pending until it is due, and once
    five seconds have passed it has run and the message is hidden. *)
Theorem valid_booking_is_confirmed (p : Page BookingControls) :
  all_pass (booking_rules p) = true ->
  (forall f, defaultValue (field f (controls p)) = lit "") ->
  exists q,
    booking_onSubmit p = Normal (tt, q)
    /\ textContent (successMessage q)
       = lit "Booking confirmed! We will contact you shortly."
    /\ style_display (successMessage q) = lit "block"
    /\ (forall f, value (field f (controls q)) = defaultValue (field f (controls p)))
    /\ (forall f, value (field f (controls q)) = lit "")
    /\ timers q = timers p ++ [hide_timer p]
    /\ forall (evs : list Event) (dt : Z),
         exists q' q'',
           run_events evs q = Normal (tt, q')
           /\ elapse dt q' = Normal (tt, q'')
           /\ (clock q' < clock p + 5000 -> hide_timer p ∈ timers q')
           /\ (clock q' < clock p + 5000 <= clock q' + dt ->
               style_display (successMessage q'') = lit "none"
               /\ hide_timer p ∉ timers q'').
Proof.
  intros Hv Hd. exists (booking_outcome p).
  split; [apply booking_onSubmit_run |].
  unfold booking_outcome, outcome. rewrite Hv.
  split; [reflexivity |]. split; [reflexivity |].
  split; [intros f; destruct f; reflexivity |].
  split; [intros f; specialize (Hd f); destruct f; exact Hd |].
  split; [reflexivity |].
  intros evs dt.
  set (q := confirm _ _ _).
  destruct (run_events_run evs q) as (q' & E & Hc & Ht).
  exists q'. eexists. split; [exact E |]. split; [apply elapse_run |].
  assert (Hin : clock q' < clock p + 5000 -> hide_timer p ∈ timers q').
  { intros Hlt. apply Ht; [| exact Hlt].
    subst q. cbn [timers confirm upd_timers upd_controls upd_successMessage
                  upd_elements clock].
    apply elem_of_app. right. apply list_elem_of_here. }
  split; [exact Hin |].
  intros [Hlt Hle]. specialize (Hin Hlt).
  assert (Hmax : Z.max 0 dt = dt) by lia.
  assert (Hdue : is_due (clock q' + Z.max 0 dt) (hide_timer p) = true).
  { unfold is_due, hide_timer. cbn [due]. apply Z.leb_le. lia. }
  assert (Hex : existsb (is_due (clock q' + Z.max 0 dt)) (timers q') = true).
  { apply existsb_exists. exists (hide_timer p).
    split; [now apply list_elem_of_In | exact Hdue]. }
  rewrite Hex. split; [reflexivity |].
  cbn [timers hide_banner upd_successMessage upd_timers upd_clock].
  intros Hin'. apply list_elem_of_In, filter_In in Hin' as [_ Hn].
  rewrite Hdue in Hn. discriminate.
Qed.

(** *** The past-date rule and the zone *)

Lemma todayForCompare_value (p : Page BookingControls) :
  Z.abs (clock p) + 2 * msPerDay <= 8640000000000000 ->
  - msPerDay < LocalTZA < msPerDay ->
  todayForCompare p = Some (Day (LocalTime (clock p)) * msPerDay - LocalTZA).
Proof.
  intros Hc Hz. unfold todayForCompare, setHours_midnight, MakeDate, UTC, TimeClip.
  rewrite Z.add_0_r.
  assert (Hd : Day (LocalTime (clock p)) * msPerDay <= LocalTime (clock p)
               < Day (LocalTime (clock p)) * msPerDay + msPerDay).
  { unfold Day, msPerDay. generalize (LocalTime (clock p)). intros t.
    Z.div_mod_to_equations. lia. }
  unfold LocalTime, msPerDay in *.
  destruct (Z.leb_spec
              (Z.abs (Day (clock p + LocalTZA) * 86400000 - LocalTZA))
              8640000000000000); [reflexivity | lia].
Qed.

(** Which check-in days the past-date rule rejects. A day before today
    (local time) is rejected in every zone. Today itself is accepted east
    of UTC and on UTC, and rejected west of UTC: the check-in string is
    read as midnight UTC, which west of UTC lies before local midnight. *)
Lemma checkin_past_rule_by_zone (p : Page BookingControls) (y m d : Z) :
  parse_date_string (value (checkin (controls p))) = Some (y, m, d) ->
  value (checkout (controls p)) <> [] ->
  Z.abs (clock p) + 2 * msPerDay <= 8640000000000000 ->
  - msPerDay < LocalTZA < msPerDay ->
  (days_from_civil y m d < Day (LocalTime (clock p)) ->
   fails (rule_checkin_past p) = true)
  /\ (days_from_civil y m d = Day (LocalTime (clock p)) ->
      fails (rule_checkin_past p) = (LocalTZA <? 0)).
Proof.
  intros Hci Hco Hc Hz.
  destruct (parse_date_string_valid _ _ _ _ Hci) as (Nci & _ & _).
  cbn [fails rule_checkin_past]. unfold both_dates, truthy.
  rewrite (Date_of_string_parse _ _ _ _ Hci), (todayForCompare_value p Hc Hz).
  destruct (value (checkin (controls p))); [congruence |].
  destruct (value (checkout (controls p))); [congruence |].
  cbn [is_empty negb andb date_lt]. unfold msPerDay in *.
  split; intros Hd.
  - apply Z.ltb_lt. lia.
  - rewrite Hd.
    destruct (Z.ltb_spec LocalTZA 0); [apply Z.ltb_lt | apply Z.ltb_ge]; lia.
Qed.

(** *** The calendar: reading a day number back *)

Lemma year_of_era_range doe : 0 <= doe <= 146096 -> 0 <= year_of_era doe <= 399.
Proof. unfold year_of_era. intros H. Z.div_mod_to_equations. lia. Qed.

Lemma day_of_year_range doe :
  0 <= doe <= 146096 ->
  0 <= day_of_year doe
    <= (if is_leap_year (year_of_era doe + 1) then 365 else 364).
Proof.
  intros H. pose proof (year_of_era_range doe H) as Hy.
  unfold is_leap_year.
  destruct (Z.eqb_spec ((year_of_era doe + 1) mod 4) 0),
    (Z.eqb_spec ((year_of_era doe + 1) mod 100) 0),
    (Z.eqb_spec ((year_of_era doe + 1) mod 400) 0); cbn [andb orb negb];
    unfold day_of_year, year_of_era in *;
    (Z.div_mod_to_equations; lia).
Qed.

Lemma is_leap_year_period (a k : Z) : is_leap_year (a + k * 400) = is_leap_year a.
Proof.
  unfold is_leap_year.
  replace ((a + k * 400) mod 4) with (a mod 4) by (Z.div_mod_to_equations; lia).
  replace ((a + k * 400) mod 100) with (a mod 100) by (Z.div_mod_to_equations; lia).
  replace ((a + k * 400) mod 400) with (a mod 400) by (Z.div_mod_to_equations; lia).
  reflexivity.
Qed.

Lemma month_of_day doy :
  0 <= doy <= 365 ->
  0 <= (5 * doy + 2) / 153 <= 11
  /\ month_offset ((5 * doy + 2) / 153) <= doy
     < month_offset ((5 * doy + 2) / 153 + 1).
Proof. unfold month_offset. intros H. Z.div_mod_to_equations. lia. Qed.

(** [civil_from_days] gives a day of the calendar, and that day has the
    given day number. *)
Theorem civil_from_days_spec (z : Z) :
  let '(y, m, d) := civil_from_days z in
  valid_date y m d /\ days_from_civil y m d = z.
Proof.
  unfold civil_from_days. cbv zeta.
  set (era := (z + 719468) / 146097).
  set (doe := z + 719468 - era * 146097).
  assert (Hdoe : 0 <= doe <= 146096)
    by (subst doe era; Z.div_mod_to_equations; lia).
  fold (year_of_era doe). fold (day_of_year doe).
  pose proof (year_of_era_range doe Hdoe) as Hyoe.
  pose proof (day_of_year_range doe Hdoe) as Hdoy.
  assert (Hdoy' : 0 <= day_of_year doe <= 365)
    by (destruct (is_leap_year _); lia).
  pose proof (month_of_day _ Hdoy') as [Hmp Hoff].
  assert (Edoe : doe = year_of_era doe * 365 + year_of_era doe / 4
                       - year_of_era doe / 100 + day_of_year doe)
    by (unfold day_of_year; lia).
  assert (Hera : (year_of_era doe + era * 400) / 400 = era)
    by (Z.div_mod_to_equations; lia).
  assert (Ez : z = era * 146097 + doe - 719468) by (subst doe; lia).
  rewrite <- (is_leap_year_period (year_of_era doe + 1) era) in Hdoy.
  replace (year_of_era doe + 1 + era * 400)
    with (year_of_era doe + era * 400 + 1) in Hdoy by lia.
  revert Hyoe Hdoy Hdoy' Hmp Hoff Edoe Hera.
  generalize (year_of_era doe) as yoe. generalize (day_of_year doe) as doy.
  intros doy yoe Hyoe Hdoy Hdoy' Hmp Hoff Edoe Hera.
  clearbody doe era.
  set (mp := (5 * doy + 2) / 153) in *.
  set (m := if mp <? 10 then mp + 3 else mp - 9).
  assert (E : (mp = 0 /\ m = 3) \/ (mp = 1 /\ m = 4) \/ (mp = 2 /\ m = 5)
              \/ (mp = 3 /\ m = 6) \/ (mp = 4 /\ m = 7) \/ (mp = 5 /\ m = 8)
              \/ (mp = 6 /\ m = 9) \/ (mp = 7 /\ m = 10) \/ (mp = 8 /\ m = 11)
              \/ (mp = 9 /\ m = 12) \/ (mp = 10 /\ m = 1) \/ (mp = 11 /\ m = 2))
    by (subst m; destruct (Z.ltb_spec mp 10); lia).
  clearbody m mp.
  rewrite days_from_civil_alt. unfold valid_date, days_in_month, month_offset in *.
  destruct E as [[-> ->] | [[-> ->] | [[-> ->] | [[-> ->] | [[-> ->] | [[-> ->]
               | [[-> ->] | [[-> ->] | [[-> ->] | [[-> ->] | [[-> ->] | [-> ->]]]]]]]]]]]];
    cbn [Z.leb Z.eqb Z.compare Pos.compare Pos.compare_cont Pos.eqb orb] in *;
    try replace (yoe + era * 400 + 1 - 1) with (yoe + era * 400) by lia;
    try destruct (is_leap_year (yoe + era * 400 + 1));
    unfold year_days;
    (split; [split; [lia |] |]); Z.div_mod_to_equations; lia.
Qed.

Lemma civil_trichotomy (a b : Z * Z * Z) :
  a = b \/ civil_lt a b \/ civil_lt b a.
Proof.
  destruct a as [[y1 m1] d1], b as [[y2 m2] d2]. unfold civil_lt.
  destruct (Z.lt_trichotomy y1 y2) as [? | [-> | ?]]; [lia | | lia].
  destruct (Z.lt_trichotomy m1 m2) as [? | [-> | ?]]; [lia | | lia].
  destruct (Z.lt_trichotomy d1 d2) as [? | [-> | ?]]; [lia | auto | lia].
Qed.

(** Reading a day number back gives the date it was computed from. *)
Theorem civil_from_days_of_civil (y m d : Z) :
  valid_date y m d -> civil_from_days (days_from_civil y m d) = (y, m, d).
Proof.
  intros V. pose proof (civil_from_days_spec (days_from_civil y m d)) as H.
  destruct (civil_from_days (days_from_civil y m d)) as [[y' m'] d'].
  destruct H as [V' E].
  destruct (civil_trichotomy (y', m', d') (y, m, d)) as [Heq | [Hlt | Hlt]].
  - exact Heq.
  - pose proof (days_from_civil_lt _ _ _ _ _ _ V' V Hlt). lia.
  - pose proof (days_from_civil_lt _ _ _ _ _ _ V V' Hlt). lia.
Qed.

(** *** The minimum check-out date and the zone *)

Lemma Day_of_midnight (D : Z) :
  - msPerDay <= LocalTZA < msPerDay ->
  Day (LocalTime (D * msPerDay)) = if LocalTZA <? 0 then D - 1 else D.
Proof.
  intros Hz. unfold Day, LocalTime, msPerDay in *.
  destruct (Z.ltb_spec LocalTZA 0); Z.div_mod_to_equations; lia.
Qed.

Lemma local_date_string_civil (t y m d : Z) :
  civil_from_days (Day (LocalTime t)) = (y, m, d) ->
  local_date_string (Some t) = date_string y m d.
Proof.
  intros H. unfold local_date_string, date_string, getFullYear, getMonth, getDate,
    YearFromTime, MonthFromTime, DateFromTime, num_add.
  rewrite H. cbn [fst snd]. now replace (m - 1 + 1) with m by lia.
Qed.

(** One day later, by [setDate(getDate() + 1)], whatever the zone. *)
Lemma setDate_next_day (D : Z) :
  -1000000 <= D <= 3000000 ->
  - msPerDay <= LocalTZA < msPerDay ->
  setDate (Some (D * msPerDay)) (num_add (getDate (Some (D * msPerDay))) 1)
  = Some ((D + 1) * msPerDay).
Proof.
  intros HD Hz. unfold setDate, getDate, num_add, YearFromTime, MonthFromTime,
    DateFromTime.
  pose proof (civil_from_days_spec (Day (LocalTime (D * msPerDay)))) as Hs.
  destruct (civil_from_days (Day (LocalTime (D * msPerDay)))) as [[y m] d].
  destruct Hs as [[Hm Hd] Hs]. cbn [fst snd].
  rewrite MakeDay_civil by exact Hm.
  assert (E1 : days_from_civil y m (d + 1) = days_from_civil y m d + 1)
    by (rewrite !days_from_civil_alt; lia).
  rewrite E1, Hs. unfold MakeDate, UTC, TimeClip.
  assert (E2 : (Day (LocalTime (D * msPerDay)) + 1) * msPerDay
               + TimeWithinDay (LocalTime (D * msPerDay)) - LocalTZA
               = (D + 1) * msPerDay).
  { unfold Day, TimeWithinDay, LocalTime, msPerDay.
    Z.div_mod_to_equations. lia. }
  rewrite E2. unfold msPerDay in *.
  destruct (Z.leb_spec (Z.abs ((D + 1) * 86400000)) 8640000000000000);
    [reflexivity | lia].
Qed.


(** When the check-in date is cleared, so is the minimum check-out
    date. *)
Lemma checkin_cleared_clears_minimum (p : Page BookingControls) :
  value (checkin (controls p)) = [] ->
  exists q,
    checkin_onChange p = Normal (tt, q)
    /\ min (checkout (controls q)) = lit ""
    /\ value (checkout (controls q)) = value (checkout (controls p)).
Proof.
  intros H. unfold checkin_onChange, gets. rewrite bind_run. cbv beta iota.
  rewrite H. cbn [truthy is_empty negb]. rewrite modify_run.
  eexists. split; [reflexivity |]. split; reflexivity.
Qed.

End Program.

(* ===================================================================== *)
(** ** Instances on concrete inputs *)
(* ===================================================================== *)

Lemma ascii_lower_delimiter (c : N) :
  is_delimiter (ascii_lower_unit c) = is_delimiter c
  /\ (is_delimiter c = true -> ascii_lower_unit c = c).
Proof.
  unfold ascii_lower_unit.
  destruct ((65 <=? c) && (c <=? 90))%N eqn:E; [| auto].
  apply andb_true_iff in E as [E1 E2].
  apply N.leb_le in E1. apply N.leb_le in E2.
  assert (H : forall d, (65 <= d <= 122)%N -> is_delimiter d = false).
  { intros d Hd. unfold is_delimiter, is_js_space.
    change (cu "@") with 64%N. change (cu ".") with 46%N.
    rewrite !orb_false_iff, !andb_false_iff, !N.eqb_neq, !N.leb_gt. lia. }
  rewrite (H c), (H (c + 32)%N) by lia. split; [reflexivity | discriminate].
Qed.

Lemma ascii_toLowerCase_pieces (s : JSString) :
  exists ps : list JSString,
    ascii_toLowerCase s = concat ps /\ Forall2 lower_piece s ps.
Proof.
  exists (map (fun c => [ascii_lower_unit c]) s). split.
  - unfold ascii_toLowerCase. induction s as [| c s IH]; simpl; congruence.
  - induction s as [| c s IH]; simpl; constructor; auto.
    destruct (ascii_lower_delimiter c) as [H1 H2].
    unfold lower_piece. destruct (is_delimiter c) eqn:E.
    + now rewrite H2.
    + split; [discriminate |]. constructor; [congruence | constructor].
Qed.

Lemma validateEmail_correct_witness :
  (forall s : JSString,
      exists ps : list JSString,
        ascii_toLowerCase s = concat ps /\ Forall2 lower_piece s ps)
  /\ (validateEmail ascii_toLowerCase (lit "john@example.com") = true
      <-> email_shape (lit "john@example.com")).
Proof.
  split; [exact ascii_toLowerCase_pieces |].
  exact (proj1 (proj2 (validateEmail_correct ascii_toLowerCase
                         ascii_toLowerCase_pieces (lit "john@example.com")))).
Defined.

(** C1 as stated fails: ["a@b.c d"] has no white space before the [@],
    none between the [@] and the dot, and a non-empty suffix after the
    last dot, yet it does not validate. *)
Lemma validateEmail_spec_counterexample :
  spec_email_passes (lit "a@b.c d")
  /\ validateEmail ascii_toLowerCase (lit "a@b.c d") = false.
Proof.
  split; [| reflexivity].
  exists (lit "a"), (lit "b"), (lit "c d").
  split; [reflexivity |].
  split; [repeat constructor |].
  split; [repeat constructor |].
  split; [discriminate |].
  rewrite list_elem_of_In. simpl. intros [H | [H | [H | []]]]; discriminate H.
Qed.

(** C3 as stated fails: on the empty booking form the country-code rule
    fails, yet after the submit its message is not on display; the
    display of the phone number holds the message of the phone rule. *)
Lemma every_failing_rule_displayed_counterexample :
  exists q,
    booking_onSubmit ascii_toLowerCase 19800000 empty_booking_page = Normal (tt, q)
    /\ textContent <$> elements q !! lit "phone-error"
       = Some (lit "Phone Number is required.")
    /\ ~ every_failing_rule_displayed ascii_toLowerCase 19800000
           empty_booking_page q.
Proof.
  eexists. split; [vm_compute; reflexivity |].
  split; [vm_compute; reflexivity |].
  intros H.
  specialize (H (rule_countryCode (controls empty_booking_page))).
  assert (Hin : rule_countryCode (controls empty_booking_page)
                  ∈ booking_rules ascii_toLowerCase 19800000 empty_booking_page)
    by (unfold booking_rules;
        repeat first [ apply list_elem_of_here | apply list_elem_of_further ]).
  specialize (H Hin eq_refl (error_display "booking-form") eq_refl).
  vm_compute in H. discriminate H.
Qed.

Lemma every_rule_is_evaluated_witness :
  rule_name (controls empty_booking_page)
    ∈ booking_rules ascii_toLowerCase 19800000 empty_booking_page
  /\ fails (rule_name (controls empty_booking_page)) = true
  /\ exists q,
       booking_onSubmit ascii_toLowerCase 19800000 empty_booking_page
       = Normal (tt, q)
       /\ not_confirmed empty_booking_page q
       /\ displays empty_booking_page q (lit "name") (lit "Full Name is required.").
Proof.
  assert (Hin : rule_name (controls empty_booking_page)
                  ∈ booking_rules ascii_toLowerCase 19800000 empty_booking_page)
    by apply list_elem_of_here.
  split; [exact Hin |]. split; [reflexivity |].
  destruct (every_rule_is_evaluated ascii_toLowerCase 19800000
              empty_booking_page _ Hin eq_refl) as (q & Hrun & Hnc & Hd & _).
  exists q. split; [exact Hrun |]. split; [exact Hnc |].
  apply Hd. discriminate.
Defined.

Lemma every_required_error_displayed_counterexample :
  all_empty_booking (controls empty_booking_page)
  /\ exists q,
       booking_onSubmit ascii_toLowerCase 19800000 empty_booking_page
       = Normal (tt, q)
       /\ textContent <$> elements q !! lit "phone-error"
          = Some (lit "Phone Number is required.")
       /\ ~ on_display q (required_message FCountryCode)
       /\ ~ every_required_error_displayed q.
Proof.
  split; [repeat split; reflexivity |].
  exists (booking_outcome ascii_toLowerCase 19800000 empty_booking_page).
  split; [apply booking_onSubmit_run |].
  split; [vm_compute; reflexivity |].
  assert (Hn : ~ on_display
                 (booking_outcome ascii_toLowerCase 19800000 empty_booking_page)
                 (required_message FCountryCode)).
  { intros (k & e & Hl & Ht & _).
    apply elem_of_map_to_list in Hl.
    match type of Hl with
    | _ ∈ ?l => let l' := eval vm_compute in l in change l with l' in Hl
    end.
    rewrite !elem_of_cons, elem_of_nil in Hl.
    destruct Hl as [E | [E | [E | [E | [E | [E | [E | []]]]]]]];
      injection E as -> ->; vm_compute in Ht; discriminate Ht. }
  split; [exact Hn | intros H; exact (Hn (H FCountryCode))].
Qed.

Lemma empty_forms_show_every_error_witness :
  all_empty_booking (controls empty_booking_page)
  /\ all_empty_contact (controls empty_contact_page)
  /\ (exists qb,
         booking_onSubmit ascii_toLowerCase 19800000 empty_booking_page
         = Normal (tt, qb)
         /\ not_confirmed empty_booking_page qb
         /\ displays empty_booking_page qb (lit "phone")
              (lit "Phone Number is required."))
  /\ (exists qc,
         contact_onSubmit ascii_toLowerCase empty_contact_page = Normal (tt, qc)
         /\ not_confirmed empty_contact_page qc).
Proof.
  assert (Hb : all_empty_booking (controls empty_booking_page))
    by (repeat split; reflexivity).
  assert (Hc : all_empty_contact (controls empty_contact_page))
    by (repeat split; reflexivity).
  split; [exact Hb |]. split; [exact Hc |].
  destruct (empty_forms_show_every_error ascii_toLowerCase 19800000
              empty_booking_page empty_contact_page Hb Hc)
    as [(qb & Hrb & Hnb & _ & Hcc & _) (qc & Hrc & Hnc & _)].
  split; [exists qb | exists qc]; auto.
Defined.


Lemma valid_booking_is_confirmed_witness :
  let p := filled_booking_page "2024-06-20" "2024-06-22" 1718470800000 in
  all_pass (booking_rules ascii_toLowerCase 19800000 p) = true
  /\ (forall f, defaultValue (field f (controls p)) = lit "")
  /\ exists q,
       booking_onSubmit ascii_toLowerCase 19800000 p = Normal (tt, q)
       /\ style_display (successMessage q) = lit "block"
       /\ timers q = [mkTimer 1718470805000 HideSuccess].
Proof.
  intros p.
  assert (Hv : all_pass (booking_rules ascii_toLowerCase 19800000 p) = true)
    by (vm_compute; reflexivity).
  assert (Hd : forall f, defaultValue (field f (controls p)) = lit "")
    by (intros f; destruct f; reflexivity).
  split; [exact Hv |]. split; [exact Hd |].
  destruct (valid_booking_is_confirmed ascii_toLowerCase 19800000 p Hv Hd)
    as (q & Hrun & _ & Hs & _ & _ & Ht & _).
  exists q. split; [exact Hrun |]. split; [exact Hs |]. exact Ht.
Defined.

Lemma error_helpers_guarded_witness :
  elements bare_page !! (lit "name" ++ lit "-error") = None
  /\ showError (lit "name") (lit "Full Name is required.") bare_page
     = Normal (tt, bare_page)
  /\ clearError (lit "name") bare_page = Normal (tt, bare_page).
Proof.
  split; [reflexivity |].
  destruct (error_helpers_guarded ascii_toLowerCase 19800000
              (lit "name") (lit "Full Name is required.") bare_page eq_refl)
    as (Hs & Hc & _).
  split; [exact Hs | exact Hc].
Defined.

Lemma country_code_reports_to_phone_witness :
  is_empty (trim (value (countryCode (controls empty_booking_page)))) = true
  /\ exists q,
       booking_onSubmit ascii_toLowerCase 19800000 empty_booking_page
       = Normal (tt, q)
       /\ displays empty_booking_page q (lit "phone") (lit "Phone Number is required.").
Proof.
  split; [reflexivity |].
  destruct (country_code_reports_to_phone ascii_toLowerCase 19800000
              empty_booking_page eq_refl)
    as (_ & q & Hrun & _ & _ & Hreq & _).
  exists q. split; [exact Hrun |]. apply Hreq. reflexivity.
Defined.

(** C6 fails west of UTC. In a zone five hours behind UTC, at noon local
    time on 2024-06-15, the initializer makes 2024-06-15 the minimum
    check-in date, yet a submit with that check-in date (and every other
    control valid) reports "Check-in date cannot be in the past." and
    does not confirm the form. The date string is read as midnight UTC,
    which is 19:00 of the day before in local time, and compared with
    local midnight. *)
Theorem checkin_today_rejected_west_of_UTC :
  let p := filled_booking_page "2024-06-15" "2024-06-16" 1718470800000 in
  (exists p0,
      initBookingForm (-18000000) p = Normal (tt, p0)
      /\ min (checkin (controls p0)) = value (checkin (controls p)))
  /\ exists q,
       booking_onSubmit ascii_toLowerCase (-18000000) p = Normal (tt, q)
       /\ displays p q (lit "checkin") (lit "Check-in date cannot be in the past.")
       /\ not_confirmed p q.
Proof.
  intros p. split.
  - eexists. split; vm_compute; reflexivity.
  - eexists. split; [vm_compute; reflexivity |].
    split.
    + intros e He. vm_compute in He. injection He as <-. vm_compute. reflexivity.
    + repeat split; vm_compute; reflexivity.
Qed.

(** C7 fails west of UTC. In a zone five hours behind UTC, a change of
    the check-in date to 2024-06-15 sets the minimum check-out date to
    2024-06-15 itself, not to 2024-06-16, and a check-out date already
    chosen as 2024-06-15 is kept. East of UTC the same change gives
    2024-06-16 and clears the check-out date. *)
Theorem checkout_minimum_west_of_UTC :
  let p := filled_booking_page "2024-06-15" "2024-06-15" 1718470800000 in
  (exists q,
      checkin_onChange (-18000000) p = Normal (tt, q)
      /\ min (checkout (controls q)) = lit "2024-06-15"
      /\ value (checkout (controls q)) = lit "2024-06-15")
  /\ (exists q,
         checkin_onChange 19800000 p = Normal (tt, q)
         /\ min (checkout (controls q)) = lit "2024-06-16"
         /\ value (checkout (controls q)) = lit "").
Proof.
  intros p. split; eexists; repeat split; vm_compute; reflexivity.
Qed.

(** *** The examples of the specification *)

Example validateEmail_no_dot :
  validateEmail ascii_toLowerCase (lit "john@example") = false.
Proof. vm_compute. reflexivity. Qed.

Example validateEmail_well_formed :
  validateEmail ascii_toLowerCase (lit "john@example.com") = true.
Proof. vm_compute. reflexivity. Qed.

Example validateEmail_upper_case :
  validateEmail ascii_toLowerCase (lit "John@Example.COM") = true.
Proof. vm_compute. reflexivity. Qed.

Example epoch_day : days_from_civil 1970 1 1 = 0 /\ civil_from_days 0 = (1970, 1, 1).
Proof. split; reflexivity. Qed.

Example leap_day :
  days_from_civil 2024 3 1 = days_from_civil 2024 2 29 + 1
  /\ days_from_civil 2023 3 1 = days_from_civil 2023 2 28 + 1
  /\ civil_from_days (days_from_civil 2024 2 28 + 1) = (2024, 2, 29).
Proof. repeat split; reflexivity. Qed.

Example date_string_padded :
  date_string 2024 6 5 = lit "2024-06-05"
  /\ parse_date_string (lit "2024-06-05") = Some (2024, 6, 5)
  /\ parse_date_string (lit "2023-02-29") = None.
Proof. repeat split; vm_compute; reflexivity. Qed.

(** A date of the year 10000 is read as midnight in local time, so the
    minimum check-out date is the next day also west of UTC, and a
    check-out date not after the check-in date is reported. *)
Example long_year_dates :
  date_value (lit "10000-01-02") = Some (10000, 1, 2)
  /\ date_value (lit "2024-06-15") = Some (2024, 6, 15)
  /\ Date_of_string (-18000000) (lit "10000-01-01")
     = Some (days_from_civil 10000 1 1 * msPerDay + 18000000)
  /\ exists q,
       checkin_onChange (-18000000)
         (filled_booking_page "10000-01-01" "10000-01-01" 1718470800000)
       = Normal (tt, q)
       /\ min (checkout (controls q)) = lit "10000-01-02"
       /\ value (checkout (controls q)) = lit "".
Proof.
  split; [vm_compute; reflexivity |]. split; [vm_compute; reflexivity |].
  split; [vm_compute; reflexivity |].
  eexists. repeat split; vm_compute; reflexivity.
Qed.

(* ===================================================================== *)
(** ** The listeners as a whole *)
(* ===================================================================== *)

(** *** White space, date strings and their order *)

Lemma trimStart_nil (s : JSString) : trimStart s = [] <-> blank s.
Proof.
  unfold blank. induction s as [| c s IH]; simpl.
  - split; [constructor | reflexivity].
  - destruct (is_js_space c) eqn:E.
    + rewrite IH. split; [now constructor | now inversion 1].
    + split; [discriminate | inversion 1; congruence].
Qed.

Lemma trimStart_suffix (s : JSString) :
  exists pre, s = pre ++ trimStart s /\ blank pre.
Proof.
  unfold blank. induction s as [| c s (pre & E & B)]; simpl.
  - exists []. split; [reflexivity | constructor].
  - destruct (is_js_space c) eqn:Ec.
    + exists (c :: pre). split; [simpl; congruence | now constructor].
    + exists []. split; [reflexivity | constructor].
Qed.

Lemma blank_app (a b : JSString) : blank (a ++ b) <-> blank a /\ blank b.
Proof. apply Forall_app. Qed.

Lemma blank_rev (a : JSString) : blank (rev a) <-> blank a.
Proof.
  unfold blank. rewrite !Forall_forall. split; intros H x Hx; apply H.
  - rewrite list_elem_of_In in *. now apply in_rev in Hx.
  - rewrite list_elem_of_In in *. now apply in_rev.
Qed.

(** [trim] gives the empty string exactly on strings of white space. *)
Lemma trim_blank (s : JSString) : is_empty (trim s) = true <-> blank s.
Proof.
  unfold trim, trimEnd.
  assert (H : forall l : list N, is_empty l = true <-> l = [])
    by (intros [| ? ?]; simpl; split; intros; congruence).
  rewrite H. split.
  - intros E. apply (f_equal (@rev N)) in E. rewrite rev_involutive in E.
    simpl in E. apply trimStart_nil in E. apply (proj1 (blank_rev _)) in E.
    destruct (trimStart_suffix s) as (pre & Es & Bp).
    assert (G : blank (pre ++ trimStart s)) by (apply blank_app; now split).
    now rewrite <- Es in G.
  - intros B. apply trimStart_nil in B. rewrite B. reflexivity.
Qed.

Lemma trim_not_blank (s : JSString) : is_empty (trim s) = false <-> ~ blank s.
Proof.
  rewrite <- trim_blank. destruct (is_empty (trim s)); split; congruence.
Qed.



Lemma all_below_iter (f : Z -> bool) (n : N) :
  snd (N.iter n (range_step f) (true, 0)) = Z.of_N n
  /\ (fst (N.iter n (range_step f) (true, 0)) = true ->
      forall z, 0 <= z < Z.of_N n -> f z = true).
Proof.
  induction n as [| n [IH1 IH2]] using N.peano_ind.
  - split; [reflexivity | intros _ z Hz; lia].
  - rewrite N.iter_succ. unfold range_step at 1 3. cbn [fst snd].
    rewrite IH1. split; [lia |].
    intros H z Hz. apply andb_true_iff in H as [H1 H2].
    destruct (Z.eq_dec z (Z.of_N n)) as [-> | Hne]; [exact H2 |].
    apply IH2; [exact H1 | lia].
Qed.

Lemma all_below_spec (n : N) (f : Z -> bool) :
  all_below n f = true -> forall z, 0 <= z < Z.of_N n -> f z = true.
Proof. intros H. now apply all_below_iter. Qed.

Lemma String_of_num_four_digits (z : Z) :
  1000 <= z <= 9999 -> String_of_num (Some z) = four_digits z.
Proof.
  intros Hz.
  assert (H : all_below 10000
                (fun z => (z <? 1000)
                          || bool_decide (String_of_num (Some z) = four_digits z))
              = true) by (vm_compute; reflexivity).
  pose proof (all_below_spec _ _ H z ltac:(lia)) as Hc. cbv beta in Hc.
  destruct (Z.ltb_spec z 1000); [lia |].
  now apply bool_decide_eq_true in Hc.
Qed.

Lemma String_of_num_short (z : Z) :
  0 <= z <= 999 -> (length (String_of_num (Some z)) <= 3)%nat.
Proof.
  intros Hz.
  assert (H : all_below 1000
                (fun z => Nat.leb (length (String_of_num (Some z))) 3) = true)
    by (vm_compute; reflexivity).
  pose proof (all_below_spec _ _ H z ltac:(lia)) as Hc. cbv beta in Hc.
  now apply Nat.leb_le in Hc.
Qed.

Lemma padStart_two_digits (z : Z) :
  0 <= z <= 99 -> padStart 2 (cu "0") (String_of_num (Some z)) = two_digits z.
Proof.
  intros Hz.
  assert (H : all_below 100
                (fun z => bool_decide
                            (padStart 2 (cu "0") (String_of_num (Some z))
                             = two_digits z)) = true)
    by (vm_compute; reflexivity).
  pose proof (all_below_spec _ _ H z ltac:(lia)) as Hc. cbv beta in Hc.
  now apply bool_decide_eq_true in Hc.
Qed.

Lemma digit_unit_digit (q : Z) :
  0 <= q <= 9 -> is_digit (digit_unit q) = true /\ digit_value (digit_unit q) = q.
Proof.
  intros Hq. unfold is_digit, digit_value, digit_unit. split.
  - apply andb_true_iff. split; apply N.leb_le; lia.
  - lia.
Qed.

Lemma days_in_month_le_31 (y m : Z) : days_in_month y m <= 31.
Proof.
  unfold days_in_month.
  destruct (m =? 2); [destruct (is_leap_year y); lia |].
  destruct ((m =? 4) || (m =? 6) || (m =? 9) || (m =? 11)); lia.
Qed.

(** A day of a four-digit year written as [YYYY-MM-DD] reads back as that
    day. *)
Lemma parse_date_string_of_date_string (y m d : Z) :
  valid_date y m d -> 1000 <= y <= 9999 ->
  parse_date_string (date_string y m d) = Some (y, m, d).
Proof.
  intros [Hm Hd] Hy. pose proof (days_in_month_le_31 y m) as H31.
  unfold date_string.
  rewrite String_of_num_four_digits, !padStart_two_digits by lia.
  unfold four_digits, two_digits. cbn [app lit map list_ascii_of_string].
  unfold parse_date_string.
  assert (D : forall q, 0 <= q <= 9 ->
                is_digit (digit_unit q) = true /\ digit_value (digit_unit q) = q)
    by apply digit_unit_digit.
  destruct (D (y / 1000)) as [E1 V1]; [Z.div_mod_to_equations; lia |].
  destruct (D ((y / 100) mod 10)) as [E2 V2]; [Z.div_mod_to_equations; lia |].
  destruct (D ((y / 10) mod 10)) as [E3 V3]; [Z.div_mod_to_equations; lia |].
  destruct (D (y mod 10)) as [E4 V4]; [Z.div_mod_to_equations; lia |].
  destruct (D (m / 10)) as [E5 V5]; [Z.div_mod_to_equations; lia |].
  destruct (D (m mod 10)) as [E6 V6]; [Z.div_mod_to_equations; lia |].
  destruct (D (d / 10)) as [E7 V7]; [Z.div_mod_to_equations; lia |].
  destruct (D (d mod 10)) as [E8 V8]; [Z.div_mod_to_equations; lia |].
  cbn [forallb]. rewrite E1, E2, E3, E4, E5, E6, E7, E8, !N.eqb_refl.
  cbn [andb]. rewrite V1, V2, V3, V4, V5, V6, V7, V8.
  replace (1000 * (y / 1000) + 100 * ((y / 100) mod 10)
           + 10 * ((y / 10) mod 10) + y mod 10) with y
    by (Z.div_mod_to_equations; lia).
  replace (10 * (m / 10) + m mod 10) with m by (Z.div_mod_to_equations; lia).
  replace (10 * (d / 10) + d mod 10) with d by (Z.div_mod_to_equations; lia).
  destruct (Z.leb_spec 1 m), (Z.leb_spec m 12), (Z.leb_spec 1 d),
    (Z.leb_spec d (days_in_month y m)); try lia.
  reflexivity.
Qed.

(** The year is not padded: below the year 1000 the string is too short
    to be a date string. *)
Lemma parse_date_string_short_year (y m d : Z) :
  0 <= y <= 999 -> 1 <= m <= 12 -> 1 <= d <= 31 ->
  parse_date_string (date_string y m d) = None.
Proof.
  intros Hy Hm Hd. unfold date_string.
  rewrite !padStart_two_digits by lia.
  pose proof (String_of_num_short y Hy) as Hl.
  unfold two_digits. cbn [app lit map list_ascii_of_string].
  destruct (String_of_num (Some y)) as [| c1 [| c2 [| c3 [| c4 l]]]];
    cbn [length] in Hl; try lia; reflexivity.
Qed.
(** *** The error helpers *)

Lemma write_over {C : Type} (k : JSString) (f g h : Element -> Element) (p : Page C) :
  (forall e, g (f e) = h e) ->
  upd_elements (alter g k) (upd_elements (alter f k) p) = upd_elements (alter h k) p.
Proof.
  intros H. rewrite write_twice. apply upd_elements_ext.
  apply alter_ext. intros e _. apply H.
Qed.

Lemma upd_elements_fix {C : Type}
    (f : gmap JSString Element -> gmap JSString Element) (p : Page C) :
  f (elements p) = elements p -> upd_elements f p = p.
Proof. intros H. unfold upd_elements. rewrite H. now destruct p. Qed.

Lemma is_error_message_spec (form : JSString) (e : Element) :
  is_error_message form e = true
  <-> inside_form e = Some form /\ lit "error-message" ∈ classList e.
Proof.
  unfold is_error_message. now rewrite andb_true_iff, !bool_decide_eq_true.
Qed.

Lemma swept_swept (form : JSString) (e : Element) :
  swept form (swept form e) = swept form e.
Proof.
  unfold swept. destruct (is_error_message form e) eqn:E; [| now rewrite E].
  change (is_error_message form (clear_message e)) with (is_error_message form e).
  now rewrite E.
Qed.

(** X1. Of two consecutive calls of the error helpers on the same field
    only the last one shows: a message replaces an earlier message or an
    earlier clearing, and a clearing removes an earlier message. *)
Theorem error_display_last_write_wins {C : Type}
    (inputId m1 m2 : JSString) (p : Page C) :
  (showError inputId m1 ;; showError inputId m2) p = showError inputId m2 p
  /\ (clearError inputId ;; showError inputId m2) p = showError inputId m2 p
  /\ (showError inputId m1 ;; clearError inputId) p = clearError inputId p
  /\ (clearError inputId ;; clearError inputId) p = clearError inputId p.
Proof.
  repeat split;
    rewrite ?(bind_Normal _ _ _ _ _ (showError_run _ _ _)),
      ?(bind_Normal _ _ _ _ _ (clearError_run _ _));
    rewrite ?showError_run, ?clearError_run; do 2 f_equal;
    apply write_over; reflexivity.
Qed.

(** X2. [showError] and [clearError] write to one element only, the one
    with id [{inputId}-error], and of that element only to its text and
    its display: class and place in the document stay, and so do every
    other element, the controls, the banner, the timers and the clock. *)
Theorem error_helpers_touch_one_display {C : Type}
    (inputId message : JSString) (p : Page C) :
  exists q q',
    showError inputId message p = Normal (tt, q)
    /\ clearError inputId p = Normal (tt, q')
    /\ (controls q = controls p /\ successMessage q = successMessage p
        /\ timers q = timers p /\ clock q = clock p)
    /\ (controls q' = controls p /\ successMessage q' = successMessage p
        /\ timers q' = timers p /\ clock q' = clock p)
    /\ (forall k, k <> inputId ++ lit "-error" ->
          elements q !! k = elements p !! k
          /\ elements q' !! k = elements p !! k)
    /\ (forall e, elements p !! (inputId ++ lit "-error") = Some e ->
          elements q !! (inputId ++ lit "-error")
          = Some (mkElement message (lit "block") (classList e) (inside_form e))
          /\ elements q' !! (inputId ++ lit "-error")
             = Some (mkElement (lit "") (lit "none") (classList e) (inside_form e))).
Proof.
  do 2 eexists. split; [apply showError_run |]. split; [apply clearError_run |].
  fold (err_id inputId). cbn [controls successMessage timers clock elements upd_elements].
  repeat split; try reflexivity.
  - rewrite lookup_alter_ne; [reflexivity | congruence].
  - rewrite lookup_alter_ne; [reflexivity | congruence].
  - rewrite lookup_alter_eq, H. reflexivity.
  - rewrite lookup_alter_eq, H. reflexivity.
Qed.

(** X3. [clearAllErrors] blanks and hides exactly the elements of class
    [error-message] inside the form and leaves every other element as it
    is; it adds and removes no element and touches nothing else on the
    page. Clearing twice is clearing once, and [clearError] on a display
    of the form that was just swept changes nothing. *)
Theorem clearAllErrors_sweeps_the_form {C : Type} (form : JSString) (p : Page C) :
  exists q,
    clearAllErrors form p = Normal (tt, q)
    /\ (controls q = controls p /\ successMessage q = successMessage p
        /\ timers q = timers p /\ clock q = clock p)
    /\ (forall k, elements q !! k = None <-> elements p !! k = None)
    /\ (forall k e, elements p !! k = Some e ->
          inside_form e = Some form /\ lit "error-message" ∈ classList e ->
          elements q !! k
          = Some (mkElement (lit "") (lit "none") (classList e) (inside_form e)))
    /\ (forall k e, elements p !! k = Some e ->
          ~ (inside_form e = Some form /\ lit "error-message" ∈ classList e) ->
          elements q !! k = Some e)
    /\ clearAllErrors form q = Normal (tt, q)
    /\ (forall inputId,
          (forall e, elements p !! (inputId ++ lit "-error") = Some e ->
             inside_form e = Some form /\ lit "error-message" ∈ classList e) ->
          clearError inputId q = Normal (tt, q)).
Proof.
  eexists. split; [apply clearAllErrors_run |].
  cbn [controls successMessage timers clock elements upd_elements].
  split; [auto |]. split; [| split; [| split; [| split]]].
  - intros k. rewrite lookup_cleared. now destruct (elements p !! k).
  - intros k e He Hc. rewrite lookup_cleared, He. cbn [fmap option_fmap option_map].
    apply is_error_message_spec in Hc. now rewrite Hc.
  - intros k e He Hc. rewrite lookup_cleared, He. cbn [fmap option_fmap option_map].
    destruct (is_error_message form e) eqn:E; [| reflexivity].
    now apply is_error_message_spec in E.
  - rewrite clearAllErrors_run. do 2 f_equal. apply upd_elements_fix.
    cbn [elements upd_elements]. apply map_eq. intros k.
    rewrite !lookup_cleared. destruct (elements p !! k) as [e |]; [| reflexivity].
    cbn [fmap option_fmap option_map]. f_equal. apply (swept_swept form e).
  - intros inputId Hd. rewrite clearError_run. do 2 f_equal.
    apply upd_elements_fix. cbn [elements upd_elements].
    apply alter_id. intros e. rewrite lookup_cleared. fold (err_id inputId) in Hd.
    destruct (elements p !! err_id inputId) as [e0 |] eqn:E0; [| discriminate].
    cbn [fmap option_fmap option_map]. intros [= <-].
    specialize (Hd e0 eq_refl). apply is_error_message_spec in Hd.
    unfold swept. now rewrite Hd.
Qed.
(** *** What a submit leaves in one element *)

Lemma reported_snoc (k : JSString) (rs : list Rule) (r : Rule) (e : Element) :
  reported k (rs ++ [r]) e
  = (if reports_to k r then show_message (text r) else fun e => e) (reported k rs e).
Proof. unfold reported. now rewrite foldl_app. Qed.

Lemma reported_app (k : JSString) (rs1 rs2 : list Rule) (e : Element) :
  reported k (rs1 ++ rs2) e = reported k rs2 (reported k rs1 e).
Proof. unfold reported. now rewrite foldl_app. Qed.

(** The rules leave an element alone or leave the message of one of them
    in it, visibly; class and place in the document stay. *)
Lemma reported_shape (k : JSString) (rs : list Rule) :
  (forall e, reported k rs e = e)
  \/ exists m, forall e,
       reported k rs e = mkElement m (lit "block") (classList e) (inside_form e).
Proof.
  induction rs as [| r rs IH] using rev_ind; [now left |].
  destruct (reports_to k r) eqn:E.
  - right. exists (text r). intros e. rewrite reported_snoc, E.
    destruct IH as [H | [m H]]; rewrite H; reflexivity.
  - destruct IH as [H | [m H]]; [left | right; exists m];
      intros e; now rewrite reported_snoc, E, H.
Qed.

Lemma reported_untouched (k : JSString) (rs : list Rule) :
  (forall r, r ∈ rs -> reports_to k r = false) ->
  forall e, reported k rs e = e.
Proof.
  induction rs as [| r rs IH] using rev_ind; intros H e; [reflexivity |].
  rewrite reported_snoc, (H r) by (apply elem_of_app; right; apply list_elem_of_here).
  apply IH. intros r' Hr'. apply H, elem_of_app. now left.
Qed.

(** The last failing rule that reports to an element decides what the
    element shows. *)
Lemma reported_last (k : JSString) (rs1 rs2 : list Rule) (r : Rule) (e : Element) :
  reports_to k r = true ->
  (forall r', r' ∈ rs2 -> reports_to k r' = false) ->
  reported k (rs1 ++ r :: rs2) e
  = mkElement (text r) (lit "block") (classList e) (inside_form e).
Proof.
  intros Hr H2. rewrite reported_app.
  change (r :: rs2) with ([r] ++ rs2). rewrite reported_app.
  rewrite (reported_untouched k rs2 H2).
  change (reported k [r] ?x)
    with ((if reports_to k r then show_message (text r) else fun e => e) x).
  rewrite Hr. destruct (reported_shape k rs1) as [H | [m H]]; now rewrite H.
Qed.

Lemma swept_frame (form : JSString) (e : Element) :
  classList (swept form e) = classList e
  /\ inside_form (swept form e) = inside_form e.
Proof. unfold swept. now destruct (is_error_message form e). Qed.

Lemma lookup_outcome_swept {C : Type} (form msg : JSString) (reset : C -> C)
    (rs : list Rule) (p : Page C) (k : JSString) :
  elements (outcome form msg reset rs p) !! k
  = (fun e => reported k rs (swept form e)) <$> elements p !! k.
Proof. apply lookup_outcome. Qed.

(** A submit never adds or removes an element and never changes the
    class or the place of one. *)
Lemma outcome_elements_frame {C : Type} (form msg : JSString) (reset : C -> C)
    (rs : list Rule) (p : Page C) (k : JSString) :
  (elements (outcome form msg reset rs p) !! k = None <-> elements p !! k = None)
  /\ forall e e',
       elements p !! k = Some e ->
       elements (outcome form msg reset rs p) !! k = Some e' ->
       classList e' = classList e /\ inside_form e' = inside_form e.
Proof.
  rewrite lookup_outcome_swept. split.
  - now destruct (elements p !! k).
  - intros e e' -> [= <-]. destruct (swept_frame form e) as [Hc Hi].
    destruct (reported_shape k rs) as [H | [m H]]; rewrite H; cbn; auto.
Qed.

(** What a confirmation changes. *)
Lemma outcome_confirmed {C : Type} (form msg : JSString) (reset : C -> C)
    (rs : list Rule) (p : Page C) :
  all_pass rs = true ->
  successMessage (outcome form msg reset rs p)
  = mkElement msg (lit "block") [lit "form-message"; lit "success"]
      (inside_form (successMessage p))
  /\ controls (outcome form msg reset rs p) = reset (controls p)
  /\ timers (outcome form msg reset rs p) = timers p ++ [hide_timer p]
  /\ clock (outcome form msg reset rs p) = clock p.
Proof. unfold outcome. intros ->. cbn. auto. Qed.

(** A submit that is not confirmed, done twice, is as done once. *)
Lemma outcome_again {C : Type} (form msg : JSString) (reset : C -> C)
    (rs : list Rule) (p : Page C) :
  all_pass rs = false ->
  outcome form msg reset rs (outcome form msg reset rs p)
  = outcome form msg reset rs p.
Proof.
  intros H. unfold outcome. rewrite H. destruct p as [c b els ts t].
  unfold upd_elements, upd_successMessage. cbn [controls successMessage elements timers clock].
  f_equal. apply map_eq. intros k. rewrite !lookup_mark, !lookup_cleared, lookup_mark, lookup_cleared.
  destruct (els !! k) as [e |]; [| reflexivity].
  cbn [fmap option_fmap option_map]. f_equal. fold (swept form e).
  destruct (swept_frame form e) as [Hc Hi].
  destruct (reported_shape k rs) as [Hr | [m Hr]]; rewrite !Hr.
  - apply swept_swept.
  - match goal with |- context [is_error_message form ?x] =>
      change (is_error_message form x) with (is_error_message form (swept form e)) end.
    destruct (is_error_message form (swept form e)); reflexivity.
Qed.

Lemma is_empty_false (s : JSString) : is_empty s = false <-> s <> [].
Proof. destruct s; simpl; split; congruence. Qed.

Lemma digit_not_space (c : N) : is_digit c = true -> is_js_space c = false.
Proof.
  unfold is_digit, is_js_space. rewrite andb_true_iff, !N.leb_le. intros [H1 H2].
  repeat match goal with
    | |- context [(c =? ?n)%N] =>
        let E := fresh in destruct (N.eqb_spec c n) as [E | E]; [lia |]
    end.
  destruct (N.leb_spec 8192 c); [lia | reflexivity].
Qed.

Lemma email_shape_not_blank (s : JSString) : email_shape s -> ~ blank s.
Proof.
  intros (x & y & z & -> & Hx & _ & _ & Fx & _) B.
  destruct x as [| c x]; [congruence |].
  inversion Fx as [| ? ? Hc _]; subst. inversion B as [| ? ? Hs _]; subst.
  unfold email_unit in Hc. rewrite Hs in Hc. discriminate.
Qed.

Lemma ten_digits_not_blank (s : JSString) : ten_digits s -> ~ blank s.
Proof.
  intros [L F] B. destruct s as [| c s]; [discriminate |].
  inversion F as [| ? ? Hc _]; subst. inversion B as [| ? ? Hs _]; subst.
  apply digit_not_space in Hc. congruence.
Qed.

Lemma validatePhone_ten_digits (s : JSString) :
  validatePhone s = true <-> ten_digits s.
Proof.
  unfold validatePhone, phone_re, ten_digits.
  rewrite test_anchored_spec. apply Matches_repeat_atom.
Qed.

(** The two rules of a field that must be filled in and well formed pass
    together exactly when the value is well formed. *)
Lemma required_and_formed (s : JSString) (valid : bool) (P : Prop) :
  (valid = true <-> P) -> (P -> ~ blank s) ->
  negb (is_empty (trim s)) = true
  /\ negb (negb (is_empty (trim s)) && negb valid) = true
  <-> P.
Proof.
  intros Hv Hb. split.
  - intros [H1 H2]. apply Hv. rewrite negb_true_iff in H1. rewrite H1 in H2.
    now destruct valid.
  - intros HP. pose proof (proj2 (trim_not_blank s) (Hb HP)) as E.
    rewrite E. apply Hv in HP. now rewrite HP.
Qed.

Lemma all_pass_decided (rs : list Rule) (P : Prop) :
  (all_pass rs = true <-> P) -> ~ P -> all_pass rs = false.
Proof. intros H N. destruct (all_pass rs); [now destruct N; apply H | reflexivity]. Qed.

Lemma err_id_inj (a b : JSString) : err_id a = err_id b -> a = b.
Proof. unfold err_id. apply app_inv_tail. Qed.

Lemma dates_pass (a b : JSString) (x y : bool) :
  negb (is_empty a) = true /\ negb (is_empty b) = true
  /\ negb (truthy a && truthy b && x) = true
  /\ negb (truthy a && truthy b && y) = true
  <-> a <> [] /\ b <> [] /\ x = false /\ y = false.
Proof. destruct a, b, x, y; cbn; intuition congruence. Qed.

Lemma filled_not_blank (s : JSString) :
  negb (is_empty (trim s)) = true <-> ~ blank s.
Proof. rewrite negb_true_iff. apply trim_not_blank. Qed.

Lemma filled_not_empty (s : JSString) : negb (is_empty s) = true <-> s <> [].
Proof. rewrite negb_true_iff. apply is_empty_false. Qed.

Ltac table_keys :=
  repeat match goal with
    | |- context [bool_decide (?a = ?b)] =>
        let v := eval vm_compute in (bool_decide (a = b)) in
        let H := fresh in
        assert (H : bool_decide (a = b) = v) by (vm_compute; reflexivity);
        rewrite H; clear H
    end.

Ltac table_at He :=
  rewrite lookup_outcome, He; cbn [fmap option_fmap option_map];
  apply f_equal;
  unfold reported, reports_to, booking_rules, contact_rules;
  cbn [foldl fails target text
       rule_name rule_email_required rule_email_format rule_countryCode
       rule_phone_required rule_phone_format rule_roomType
       rule_checkin_required rule_checkout_required rule_checkin_past
       rule_checkout_order rule_guests
       rule_contact_name rule_contact_email_required
       rule_contact_email_format rule_subject rule_message];
  table_keys; cbn [andb].

Ltac table_cases Hf :=
  cbn [fails rule_contact_name rule_contact_email_required
       rule_contact_email_format rule_subject rule_message] in Hf;
  rewrite ?Hf; cbn [negb andb];
  repeat match goal with
    | |- context [if ?c then _ else _] => destruct c eqn:?
    end;
  cbn [negb andb] in *; try discriminate; try reflexivity.

Section Listeners.

Variable toLowerCase : JSString -> JSString.

Hypothesis toLowerCase_pieces :
  forall s : JSString,
    exists ps : list JSString,
      toLowerCase s = concat ps /\ Forall2 lower_piece s ps.

Variable LocalTZA : Z.

(** *** When a form is confirmed *)

Lemma booking_rules_pass (p : Page BookingControls) :
  all_pass (booking_rules toLowerCase LocalTZA p) = true
  <-> booking_accepts LocalTZA p.
Proof.
  unfold all_pass, booking_rules, booking_accepts. cbv zeta.
  cbn [forallb fails rule_name rule_email_required rule_email_format
       rule_countryCode rule_phone_required rule_phone_format rule_roomType
       rule_checkin_required rule_checkout_required rule_checkin_past
       rule_checkout_order rule_guests].
  unfold both_dates. rewrite !andb_true_iff.
  pose proof (required_and_formed (value (email (controls p))) _ _
                (validateEmail_shape toLowerCase toLowerCase_pieces _)
                (email_shape_not_blank _)) as He.
  pose proof (required_and_formed (value (phone (controls p))) _ _
                (validatePhone_ten_digits _) (ten_digits_not_blank _)) as Hp.
  pose proof (dates_pass (value (checkin (controls p)))
                (value (checkout (controls p)))
                (date_lt (Date_of_string LocalTZA (value (checkin (controls p))))
                   (todayForCompare LocalTZA p))
                (date_le (Date_of_string LocalTZA (value (checkout (controls p))))
                   (Date_of_string LocalTZA (value (checkin (controls p)))))) as Hd.
  split.
  - intros (N1 & E1 & E2 & CC & P1 & P2 & RT & CI & CO & PA & OR & G & _).
    destruct (proj1 Hd (conj CI (conj CO (conj PA OR)))) as (D1 & D2 & D3 & D4).
    split; [now apply filled_not_blank |]. split; [apply He; now split |].
    split; [now apply filled_not_blank |]. split; [apply Hp; now split |].
    split; [now apply filled_not_empty |].
    split; [exact D1 |]. split; [exact D2 |]. split; [exact D3 |].
    split; [exact D4 |]. now apply filled_not_empty.
  - intros (N1 & E & CC & P & RT & CI & CO & PA & OR & G).
    apply He in E as [E1 E2]. apply Hp in P as [P1 P2].
    destruct (proj2 Hd (conj CI (conj CO (conj PA OR)))) as (D1 & D2 & D3 & D4).
    repeat split; try assumption; try (now apply filled_not_blank);
      now apply filled_not_empty.
Qed.

Lemma contact_rules_pass (p : Page ContactControls) :
  all_pass (contact_rules toLowerCase p) = true <-> contact_accepts (controls p).
Proof.
  unfold all_pass, contact_rules, contact_accepts. cbv zeta.
  cbn [forallb fails rule_contact_name rule_contact_email_required
       rule_contact_email_format rule_subject rule_message].
  rewrite !andb_true_iff.
  pose proof (required_and_formed (value (contact_email (controls p))) _ _
                (validateEmail_shape toLowerCase toLowerCase_pieces _)
                (email_shape_not_blank _)) as He.
  split.
  - intros (N1 & E1 & E2 & S1 & M1 & _).
    split; [now apply filled_not_blank |]. split; [apply He; now split |].
    split; now apply filled_not_blank.
  - intros (N1 & E & S1 & M1). apply He in E as [E1 E2].
    repeat split; try assumption; now apply filled_not_blank.
Qed.

Lemma block_is_not_none : lit "none" <> lit "block".
Proof. discriminate. Qed.

(** X4. A submit of the booking form is confirmed exactly when the name
    and the country code are not blank, the email has the shape
    [x@y.z], the phone number is ten digits, room type, dates and guests
    are chosen, the check-in date is not before midnight of today and the
    check-out date is after the check-in date. Then the banner shows the
    confirmation, the controls are reset and the hiding timer is set;
    otherwise the banner is hidden and controls and timers stay. *)
Theorem booking_confirmed_iff_accepted (p : Page BookingControls) :
  exists q,
    booking_onSubmit toLowerCase LocalTZA p = Normal (tt, q)
    /\ (style_display (successMessage q) = lit "block"
        <-> booking_accepts LocalTZA p)
    /\ (booking_accepts LocalTZA p ->
        successMessage q
        = mkElement (lit "Booking confirmed! We will contact you shortly.")
            (lit "block") [lit "form-message"; lit "success"]
            (inside_form (successMessage p))
        /\ controls q = reset_booking (controls p)
        /\ timers q = timers p ++ [hide_timer p])
    /\ (~ booking_accepts LocalTZA p -> not_confirmed p q).
Proof.
  exists (booking_outcome toLowerCase LocalTZA p).
  split; [apply booking_onSubmit_run |]. unfold booking_outcome.
  pose proof (booking_rules_pass p) as Hp.
  pose proof (outcome_confirmed booking_form
                (lit "Booking confirmed! We will contact you shortly.")
                reset_booking (booking_rules toLowerCase LocalTZA p) p) as Hc.
  pose proof (outcome_not_confirmed booking_form
                (lit "Booking confirmed! We will contact you shortly.")
                reset_booking (booking_rules toLowerCase LocalTZA p) p) as Hn.
  split; [| split].
  - destruct (all_pass (booking_rules toLowerCase LocalTZA p)).
    + destruct (Hc eq_refl) as (-> & _). split; [intros _; now apply Hp | reflexivity].
    + destruct (Hn eq_refl) as (Hd & _). rewrite Hd. split.
      * intros H. now destruct (block_is_not_none H).
      * intros H. apply Hp in H. discriminate.
  - intros Ha. apply Hp in Ha. destruct (Hc Ha) as (? & ? & ? & _). auto.
  - intros Ha. apply Hn. exact (all_pass_decided _ _ Hp Ha).
Qed.

(** X5. A submit of the contact form is confirmed exactly when name,
    subject and message are not blank and the email has the shape
    [x@y.z]. Then the banner shows the thanks, the four controls are
    reset and a timer is set to hide the banner five seconds later;
    otherwise the banner is hidden and controls and timers stay. *)
Theorem contact_confirmed_iff_accepted (p : Page ContactControls) :
  exists q,
    contact_onSubmit toLowerCase p = Normal (tt, q)
    /\ (style_display (successMessage q) = lit "block"
        <-> contact_accepts (controls p))
    /\ (contact_accepts (controls p) ->
        successMessage q
        = mkElement (lit "Thank you! Your message has been sent.")
            (lit "block") [lit "form-message"; lit "success"]
            (inside_form (successMessage p))
        /\ controls q = reset_contact (controls p)
        /\ timers q = timers p ++ [mkTimer (clock p + 5000) HideSuccess])
    /\ (~ contact_accepts (controls p) -> not_confirmed p q).
Proof.
  exists (contact_outcome toLowerCase p).
  split; [apply contact_onSubmit_run |]. unfold contact_outcome.
  pose proof (contact_rules_pass p) as Hp.
  pose proof (outcome_confirmed contact_form
                (lit "Thank you! Your message has been sent.")
                reset_contact (contact_rules toLowerCase p) p) as Hc.
  pose proof (outcome_not_confirmed contact_form
                (lit "Thank you! Your message has been sent.")
                reset_contact (contact_rules toLowerCase p) p) as Hn.
  split; [| split].
  - destruct (all_pass (contact_rules toLowerCase p)).
    + destruct (Hc eq_refl) as (-> & _). split; [intros _; now apply Hp | reflexivity].
    + destruct (Hn eq_refl) as (Hd & _). rewrite Hd. split.
      * intros H. now destruct (block_is_not_none H).
      * intros H. apply Hp in H. discriminate.
  - intros Ha. apply Hp in Ha. destruct (Hc Ha) as (? & ? & ? & _). auto.
  - intros Ha. apply Hn. exact (all_pass_decided _ _ Hp Ha).
Qed.

(** *** What a submit shows and what it leaves *)

(** X6. On the contact form no message is lost: after a submit every
    failing rule has its own message on display, and the form is not
    confirmed. *)
Theorem contact_failing_rules_displayed (p : Page ContactControls) (r : Rule) :
  r ∈ contact_rules toLowerCase p ->
  fails r = true ->
  exists q,
    contact_onSubmit toLowerCase p = Normal (tt, q)
    /\ not_confirmed p q
    /\ displays p q (target r) (text r).
Proof.
  intros Hin Hf. exists (contact_outcome toLowerCase p).
  split; [apply contact_onSubmit_run |].
  split; [apply outcome_not_confirmed; now apply (all_pass_false _ r) |].
  unfold contact_outcome, contact_rules in *.
  rewrite !elem_of_cons, elem_of_nil in Hin.
  destruct Hin as [-> | [-> | [-> | [-> | [-> | []]]]]];
    intros e He; table_at He; table_cases Hf.
Qed.

(** X7. An element that no failing rule reports to is only swept by a
    submit: it is blanked and hidden if it is of class [error-message]
    inside the form, and it keeps what it shows otherwise, also when the
    form is confirmed. *)
Theorem submit_only_sweeps_other_elements (p : Page BookingControls) (k : JSString) :
  (forall r, r ∈ booking_rules toLowerCase LocalTZA p -> fails r = true ->
             target r ++ lit "-error" <> k) ->
  exists q,
    booking_onSubmit toLowerCase LocalTZA p = Normal (tt, q)
    /\ forall e, elements p !! k = Some e ->
         elements q !! k
         = Some (if bool_decide (inside_form e = Some (lit "booking-form"))
                    && bool_decide (lit "error-message" ∈ classList e)
                 then mkElement (lit "") (lit "none") (classList e) (inside_form e)
                 else e).
Proof.
  intros H. exists (booking_outcome toLowerCase LocalTZA p).
  split; [apply booking_onSubmit_run |]. intros e He.
  unfold booking_outcome. rewrite lookup_outcome_swept, He.
  cbn [fmap option_fmap option_map]. f_equal. apply reported_untouched.
  intros r Hr. unfold reports_to. destruct (fails r) eqn:Hf; [| apply andb_false_r].
  rewrite bool_decide_eq_false_2; [reflexivity |]. now apply H.
Qed.

(** X8. Whatever the values, a submit of the booking form leaves the
    clock, adds at most the one hiding timer behind the pending ones,
    never writes a [min] or a default value, leaves each value as it is
    or resets it to its default, and gives no element a new class or
    place and the document no new or fewer elements. *)
Theorem booking_submit_frame (p : Page BookingControls) :
  exists q,
    booking_onSubmit toLowerCase LocalTZA p = Normal (tt, q)
    /\ clock q = clock p
    /\ (timers q = timers p \/ timers q = timers p ++ [hide_timer p])
    /\ (forall f,
          min (field f (controls q)) = min (field f (controls p))
          /\ defaultValue (field f (controls q)) = defaultValue (field f (controls p))
          /\ (value (field f (controls q)) = value (field f (controls p))
              \/ value (field f (controls q)) = defaultValue (field f (controls p))))
    /\ inside_form (successMessage q) = inside_form (successMessage p)
    /\ forall k,
         (elements q !! k = None <-> elements p !! k = None)
         /\ forall e e',
              elements p !! k = Some e -> elements q !! k = Some e' ->
              classList e' = classList e /\ inside_form e' = inside_form e.
Proof.
  exists (booking_outcome toLowerCase LocalTZA p).
  split; [apply booking_onSubmit_run |]. unfold booking_outcome.
  split; [| split; [| split; [| split]]].
  - apply outcome_frame.
  - unfold outcome. destruct (all_pass _); cbn; auto.
  - intros f. unfold outcome. destruct (all_pass _); destruct f; cbn; auto.
  - unfold outcome. destruct (all_pass _); reflexivity.
  - intros k. apply outcome_elements_frame.
Qed.

Lemma booking_rules_ext (p q : Page BookingControls) :
  controls q = controls p -> clock q = clock p ->
  booking_rules toLowerCase LocalTZA q = booking_rules toLowerCase LocalTZA p.
Proof.
  intros Hc Hk. unfold booking_rules, rule_checkin_past, todayForCompare.
  now rewrite Hc, Hk.
Qed.

Lemma booking_rules_blocked (p : Page BookingControls) :
  all_pass (booking_rules toLowerCase LocalTZA p) = false ->
  booking_rules toLowerCase LocalTZA (booking_outcome toLowerCase LocalTZA p)
  = booking_rules toLowerCase LocalTZA p.
Proof.
  intros H. unfold booking_outcome.
  destruct (outcome_blocked booking_form
              (lit "Booking confirmed! We will contact you shortly.")
              reset_booking (booking_rules toLowerCase LocalTZA p) p H)
    as (_ & _ & Hc & _ & Hk).
  now apply booking_rules_ext.
Qed.

(** X9. Submitting a booking form that is not accepted a second time,
    with nothing changed in between, leaves the page exactly as the first
    submit left it. *)
Theorem rejected_submit_is_idempotent (p : Page BookingControls) :
  ~ booking_accepts LocalTZA p ->
  (booking_onSubmit toLowerCase LocalTZA ;; booking_onSubmit toLowerCase LocalTZA) p
  = booking_onSubmit toLowerCase LocalTZA p.
Proof.
  intros Ha. pose proof (all_pass_decided _ _ (booking_rules_pass p) Ha) as H.
  rewrite (bind_Normal _ _ _ _ _ (booking_onSubmit_run toLowerCase LocalTZA p)).
  rewrite !booking_onSubmit_run. do 2 f_equal.
  unfold booking_outcome at 1. rewrite (booking_rules_blocked p H).
  unfold booking_outcome. now apply outcome_again.
Qed.

(** X10. Of the failing rules that report to the same display, the one
    the listener evaluates last decides what the display shows. *)
Theorem last_failing_rule_is_displayed
    (p : Page BookingControls) (rs1 rs2 : list Rule) (r : Rule) :
  booking_rules toLowerCase LocalTZA p = rs1 ++ r :: rs2 ->
  fails r = true ->
  (forall r', r' ∈ rs2 -> fails r' = true -> target r' <> target r) ->
  exists q,
    booking_onSubmit toLowerCase LocalTZA p = Normal (tt, q)
    /\ not_confirmed p q
    /\ displays p q (target r) (text r).
Proof.
  intros Hs Hf Hl. exists (booking_outcome toLowerCase LocalTZA p).
  split; [apply booking_onSubmit_run |]. unfold booking_outcome. split.
  - apply outcome_not_confirmed. apply (all_pass_false _ r); [| exact Hf].
    rewrite Hs. apply elem_of_app. right. apply list_elem_of_here.
  - intros e He. rewrite lookup_outcome_swept, He, Hs.
    cbn [fmap option_fmap option_map]. f_equal.
    destruct (swept_frame booking_form e) as [Ec Ei].
    rewrite reported_last, Ec, Ei; [reflexivity | |].
    + unfold reports_to. now rewrite Hf, bool_decide_eq_true_2.
    + intros r' Hr'. unfold reports_to.
      destruct (fails r') eqn:Hf'; [| apply andb_false_r].
      rewrite bool_decide_eq_false_2; [reflexivity |].
      intros E. apply err_id_inj in E. now apply (Hl r').
Qed.

(** *** The page between two submits *)

Lemma kept_or_hidden_trans (a b c : Element) :
  kept_or_hidden a b -> kept_or_hidden b c -> kept_or_hidden a c.
Proof.
  unfold kept_or_hidden. intros [-> | ->] [-> | ->]; auto.
Qed.

Lemma quiet_dispatch (ev : Event) (p : Page BookingControls) :
  ev <> Submit ->
  exists q, dispatch toLowerCase LocalTZA ev p = Normal (tt, q)
            /\ elements q = elements p
            /\ kept_or_hidden (successMessage p) (successMessage q).
Proof.
  intros Hev. destruct ev as [f v | | dt]; [| congruence |]; cbn [dispatch].
  - rewrite (bind_Normal _ _ _ _ _ (modify_run _ _)).
    destruct f; try (eexists; split; [reflexivity | split; [reflexivity | now left]]).
    destruct (checkin_onChange_run LocalTZA
                (upd_controls (upd_field FCheckin (set_value v)) p)) as [c ->].
    eexists. split; [reflexivity | split; [reflexivity | now left]].
  - rewrite elapse_run. eexists. split; [reflexivity |].
    destruct (existsb _ (timers p)); split; try reflexivity; [now right | now left].
Qed.

(** X11. Nothing but a submit writes to an error display or shows the
    banner: whatever the user types or chooses and however much time
    passes, every element other than the controls and the banner holds
    what the last submit left in it, and the banner keeps its text, its
    class and its place and is either as it was or hidden, which is what
    the callback of a timer does. *)
Theorem errors_stay_until_next_submit (evs : list Event) (p : Page BookingControls) :
  Submit ∉ evs ->
  exists q,
    run_events toLowerCase LocalTZA evs p = Normal (tt, q)
    /\ elements q = elements p
    /\ kept_or_hidden (successMessage p) (successMessage q).
Proof.
  revert p. induction evs as [| ev evs IH]; intros p Hn; cbn [run_events].
  - exists p. split; [reflexivity | split; [reflexivity | now left]].
  - rewrite not_elem_of_cons in Hn. destruct Hn as [Hev Hn].
    destruct (quiet_dispatch ev p) as (p1 & E1 & H1 & B1); [congruence |].
    destruct (IH p1 Hn) as (q & E2 & H2 & B2).
    exists q. rewrite (bind_Normal _ _ _ _ _ E1). split; [exact E2 |].
    split; [congruence | exact (kept_or_hidden_trans _ _ _ B1 B2)].
Qed.

Lemma filter_none_due (now : Z) (ts : list Timer) :
  existsb (is_due now) ts = false ->
  List.filter (fun t => negb (is_due now t)) ts = ts.
Proof.
  induction ts as [| t ts IH]; [reflexivity |]. cbn [existsb List.filter].
  rewrite orb_false_iff. intros [-> H]. cbn [negb]. now rewrite IH.
Qed.

Lemma existsb_due_all (now : Z) (ts : list Timer) :
  ts <> [] -> Forall (fun t => due t <= now) ts -> existsb (is_due now) ts = true.
Proof.
  destruct ts as [| t ts]; [congruence |]. intros _ H.
  inversion H as [| ? ? Ht _]; subst. cbn [existsb]. unfold is_due at 1.
  apply Z.leb_le in Ht. now rewrite Ht.
Qed.

(** One turn of the event loop keeps the pending timers within five
    seconds and a displayed banner under a pending timer. *)
Lemma dispatch_keeps_cover (ev : Event) (p : Page BookingControls) :
  timers_fresh p -> banner_covered p ->
  exists q,
    dispatch toLowerCase LocalTZA ev p = Normal (tt, q)
    /\ timers_fresh q /\ banner_covered q.
Proof.
  intros Hf Hb. destruct ev as [f v | | dt]; cbn [dispatch].
  - rewrite (bind_Normal _ _ _ _ _ (modify_run _ _)).
    destruct f; try (eexists; split; [reflexivity | split; assumption]).
    destruct (checkin_onChange_run LocalTZA
                (upd_controls (upd_field FCheckin (set_value v)) p)) as [c ->].
    eexists. split; [reflexivity | split; assumption].
  - exists (booking_outcome toLowerCase LocalTZA p).
    split; [apply booking_onSubmit_run |].
    unfold booking_outcome, outcome, timers_fresh, banner_covered in *.
    destruct (all_pass _);
      cbn [confirm upd_timers upd_controls upd_successMessage upd_elements
           timers clock successMessage style_display confirmed_banner
           set_style_display].
    + split.
      * apply Forall_app. split; [exact Hf |]. constructor; [cbn; lia | constructor].
      * intros _ E. now apply app_eq_nil in E as [_ ?].
    + split; [exact Hf |]. intros E. now destruct (block_is_not_none E).
  - rewrite elapse_run. eexists. split; [reflexivity |].
    unfold timers_fresh, banner_covered in *.
    set (now := clock p + Z.max 0 dt).
    assert (Hk : Forall (fun t => now < due t <= now + 5000)
                   (List.filter (fun t => negb (is_due now t)) (timers p))).
    { rewrite Forall_forall in *. intros t Ht.
      apply list_elem_of_In, filter_In in Ht as [Ht Hd].
      apply list_elem_of_In, Hf in Ht. unfold is_due in Hd.
      apply negb_true_iff, Z.leb_gt in Hd. subst now. lia. }
    destruct (existsb (is_due now) (timers p)) eqn:Ex;
      cbn [hide_banner upd_timers upd_clock upd_successMessage timers clock
           successMessage style_display set_style_display]; fold now.
    + split; [exact Hk |]. intros E. now destruct (block_is_not_none E).
    + split; [exact Hk |]. rewrite (filter_none_due _ _ Ex). exact Hb.
Qed.

Lemma run_events_keeps_cover (evs : list Event) :
  forall p : Page BookingControls,
    timers_fresh p -> banner_covered p ->
    exists q,
      run_events toLowerCase LocalTZA evs p = Normal (tt, q)
      /\ timers_fresh q /\ banner_covered q.
Proof.
  induction evs as [| ev evs IH]; intros p Hf Hb; cbn [run_events].
  - exists p. split; [reflexivity | split; assumption].
  - destruct (dispatch_keeps_cover ev p Hf Hb) as (p1 & E1 & Hf1 & Hb1).
    destruct (IH p1 Hf1 Hb1) as (q & E2 & H2).
    exists q. rewrite (bind_Normal _ _ _ _ _ E1). split; assumption.
Qed.

(** X12. The banner never stays longer than five seconds. On a page
    whose pending timers are all due within five seconds and whose
    banner, if displayed, has a timer pending, every sequence of edits,
    submits and waits keeps it so; five seconds after the last event no
    timer is left pending and the banner is not displayed. *)
Theorem banner_never_outlives_five_seconds
    (evs : list Event) (p : Page BookingControls) :
  timers_fresh p ->
  banner_covered p ->
  exists q q',
    run_events toLowerCase LocalTZA evs p = Normal (tt, q)
    /\ timers_fresh q /\ banner_covered q
    /\ elapse 5000 q = Normal (tt, q')
    /\ timers q' = []
    /\ style_display (successMessage q') <> lit "block".
Proof.
  intros Hf Hb.
  destruct (run_events_keeps_cover evs p Hf Hb) as (q & E & Hfq & Hbq).
  exists q. eexists. split; [exact E |]. split; [exact Hfq |].
  split; [exact Hbq |]. split; [apply elapse_run |].
  unfold timers_fresh, banner_covered in *.
  change (Z.max 0 5000) with 5000.
  assert (Hall : Forall (fun t => due t <= clock q + 5000) (timers q)).
  { rewrite Forall_forall in *. intros t Ht. apply Hfq in Ht. lia. }
  assert (Hnil : List.filter (fun t => negb (is_due (clock q + 5000) t)) (timers q) = []).
  { clear - Hall. induction (timers q) as [| t ts IH]; [reflexivity |].
    inversion Hall as [| ? ? Ht Hts]; subst. cbn [List.filter]. unfold is_due at 1.
    apply Z.leb_le in Ht. rewrite Ht. cbn [negb]. now apply IH. }
  destruct (existsb (is_due (clock q + 5000)) (timers q)) eqn:Ex;
    cbn [hide_banner upd_timers upd_clock upd_successMessage timers clock
         successMessage style_display set_style_display].
  - split; [exact Hnil | apply block_is_not_none].
  - split; [exact Hnil |]. intros Eb. apply Hbq in Eb. apply Eb.
    destruct (timers q) as [| t ts]; [reflexivity |].
    rewrite (existsb_due_all _ (t :: ts)) in Ex by (congruence || exact Hall).
    discriminate.
Qed.

(** X13. The timer of an earlier confirmation hides the banner of a
    later one: when a form is confirmed while a timer is pending that is
    due within the next [dt] milliseconds, less than five seconds, the
    new banner is hidden [dt] milliseconds after it was shown, and its
    own timer is then still pending. The script never cancels a timer. *)
Theorem earlier_timer_hides_new_banner
    (p : Page BookingControls) (t : Timer) (dt : Z) :
  booking_accepts LocalTZA p ->
  t ∈ timers p ->
  due t <= clock p + dt ->
  0 <= dt < 5000 ->
  exists q1 q,
    booking_onSubmit toLowerCase LocalTZA p = Normal (tt, q1)
    /\ style_display (successMessage q1) = lit "block"
    /\ elapse dt q1 = Normal (tt, q)
    /\ style_display (successMessage q) = lit "none"
    /\ hide_timer p ∈ timers q.
Proof.
  intros Ha Ht Hd Hdt. apply booking_rules_pass in Ha.
  exists (booking_outcome toLowerCase LocalTZA p). eexists.
  split; [apply booking_onSubmit_run |].
  unfold booking_outcome.
  destruct (outcome_confirmed booking_form
              (lit "Booking confirmed! We will contact you shortly.")
              reset_booking (booking_rules toLowerCase LocalTZA p) p Ha)
    as (Hb & _ & Hts & Hk).
  split; [now rewrite Hb |]. split; [apply elapse_run |].
  rewrite Hts, Hk. replace (Z.max 0 dt) with dt by lia.
  assert (Ex : existsb (is_due (clock p + dt)) (timers p ++ [hide_timer p]) = true).
  { apply existsb_exists. exists t. split.
    - apply in_or_app. left. now apply list_elem_of_In.
    - unfold is_due. now apply Z.leb_le. }
  rewrite Ex.
  cbn [hide_banner upd_timers upd_clock upd_successMessage timers clock
       successMessage style_display set_style_display].
  split; [reflexivity |]. rewrite Hts.
  apply list_elem_of_In, filter_In. split.
  - apply in_or_app. right. now left.
  - unfold is_due, hide_timer. cbn [due]. apply negb_true_iff, Z.leb_gt. lia.
Qed.



(** *** The date controls *)



(** The string the change listener computes for the minimum check-out
    date. *)
Lemma checkoutMinDate_by_zone (s : JSString) (y m d : Z) :
  parse_date_string s = Some (y, m, d) ->
  - msPerDay <= LocalTZA < msPerDay ->
  local_date_string LocalTZA
    (setDate LocalTZA (Date_of_string LocalTZA s)
       (num_add (getDate LocalTZA (Date_of_string LocalTZA s)) 1))
  = if LocalTZA <? 0
    then date_string y m d
    else let '(y', m', d') := civil_from_days (days_from_civil y m d + 1) in
         date_string y' m' d'.
Proof.
  intros Hci Hz.
  destruct (parse_date_string_valid _ _ _ _ Hci) as (Nci & Hy & V).
  pose proof (days_from_civil_range _ _ _ Hy V) as R.
  rewrite (Date_of_string_parse LocalTZA _ _ _ _ Hci), setDate_next_day by assumption.
  pose proof (Day_of_midnight LocalTZA (days_from_civil y m d + 1) Hz) as HD.
  destruct (LocalTZA <? 0).
  - apply local_date_string_civil. rewrite HD.
    replace (days_from_civil y m d + 1 - 1) with (days_from_civil y m d) by lia.
    now apply civil_from_days_of_civil.
  - destruct (civil_from_days (days_from_civil y m d + 1)) as [[y' m'] d'] eqn:E.
    apply local_date_string_civil. now rewrite HD.
Qed.

(** X15. When the page loads, the minimum check-in date becomes today's
    date in local time, written [YYYY-MM-DD] so that it reads back as
    that very day; nothing else on the page changes. *)
Theorem initBookingForm_minimum_is_today (p : Page BookingControls) (y m d : Z) :
  civil_from_days (Day (LocalTime LocalTZA (clock p))) = (y, m, d) ->
  1000 <= y <= 9999 ->
  exists q,
    initBookingForm LocalTZA p = Normal (tt, q)
    /\ q = upd_controls (upd_checkin (set_min (date_string y m d))) p
    /\ parse_date_string (min (checkin (controls q))) = Some (y, m, d).
Proof.
  intros E Hy. unfold initBookingForm, Date_now, gets. rewrite bind_run.
  cbv beta iota zeta. rewrite modify_run, (local_date_string_civil _ _ _ _ _ E).
  eexists. split; [reflexivity |]. split; [reflexivity |].
  cbn [controls upd_controls checkin upd_checkin min set_min].
  apply parse_date_string_of_date_string; [| exact Hy].
  pose proof (civil_from_days_spec (Day (LocalTime LocalTZA (clock p)))) as S.
  rewrite E in S. apply S.
Qed.


(** X17. The change listener of the check-in date writes to the
    check-out control only, and there only to its minimum and its value:
    it shows no error, leaves the other controls, the banner, the timers
    and every element, and the check-out value either stays or becomes
    empty. With an empty check-in date the minimum becomes empty and the
    check-out value stays. *)
Theorem checkin_change_frame (p : Page BookingControls) :
  exists q,
    checkin_onChange LocalTZA p = Normal (tt, q)
    /\ (successMessage q = successMessage p /\ elements q = elements p
        /\ timers q = timers p /\ clock q = clock p)
    /\ (forall f, f <> FCheckout -> field f (controls q) = field f (controls p))
    /\ defaultValue (checkout (controls q)) = defaultValue (checkout (controls p))
    /\ (value (checkout (controls q)) = value (checkout (controls p))
        \/ value (checkout (controls q)) = lit "")
    /\ (value (checkin (controls p)) = [] ->
        min (checkout (controls q)) = lit ""
        /\ value (checkout (controls q)) = value (checkout (controls p))).
Proof.
  unfold checkin_onChange, gets. rewrite bind_run. cbv beta iota.
  destruct (value (checkin (controls p))) as [| c0 s0] eqn:Ev.
  - cbn [truthy is_empty negb]. rewrite modify_run. eexists.
    split; [reflexivity |]. cbn. repeat split; auto. intros f Hf. now destruct f.
  - cbn [truthy is_empty negb].
    rewrite (bind_Normal _ _ _ _ _ (modify_run _ _)).
    rewrite bind_run. cbv beta iota zeta.
    match goal with
    | |- context [if ?c then _ else _] => destruct c
    end.
    + rewrite modify_run. eexists. split; [reflexivity |]. cbn.
      repeat split; auto; try discriminate. intros f Hf. now destruct f.
    + eexists. split; [reflexivity |]. cbn.
      repeat split; auto; try discriminate. intros f Hf. now destruct f.
Qed.


(** The past-date rule as a comparison of two times. *)
Lemma rule_checkin_past_value (p : Page BookingControls) (y m d : Z) :
  parse_date_string (value (checkin (controls p))) = Some (y, m, d) ->
  value (checkout (controls p)) <> [] ->
  Z.abs (clock p) + 2 * msPerDay <= 8640000000000000 ->
  - msPerDay < LocalTZA < msPerDay ->
  fails (rule_checkin_past LocalTZA p)
  = (days_from_civil y m d * msPerDay
     <? Day (LocalTime LocalTZA (clock p)) * msPerDay - LocalTZA).
Proof.
  intros Hci Hco Hc Hz.
  destruct (parse_date_string_valid _ _ _ _ Hci) as (Nci & _ & _).
  cbn [fails rule_checkin_past]. unfold both_dates, truthy.
  rewrite (Date_of_string_parse LocalTZA _ _ _ _ Hci), (todayForCompare_value LocalTZA p Hc Hz).
  destruct (value (checkin (controls p))); [congruence |].
  destruct (value (checkout (controls p))); [congruence |].
  reflexivity.
Qed.

(** X19. Which check-in days a submit rejects as past. A day before
    today, in local time, is rejected in every zone, and a later day in
    none. Today itself is rejected west of UTC and passes on and east of
    UTC: the date string is read as midnight UTC and compared with local
    midnight. When the day passes, the check-in display is only swept. *)
Theorem checkin_day_against_today (p : Page BookingControls) (y m d : Z) :
  parse_date_string (value (checkin (controls p))) = Some (y, m, d) ->
  value (checkout (controls p)) <> [] ->
  Z.abs (clock p) + 2 * msPerDay <= 8640000000000000 ->
  - msPerDay < LocalTZA < msPerDay ->
  exists q,
    booking_onSubmit toLowerCase LocalTZA p = Normal (tt, q)
    /\ (days_from_civil y m d < Day (LocalTime LocalTZA (clock p))
        \/ (days_from_civil y m d = Day (LocalTime LocalTZA (clock p))
            /\ LocalTZA < 0) ->
        not_confirmed p q
        /\ displays p q (lit "checkin") (lit "Check-in date cannot be in the past."))
    /\ (Day (LocalTime LocalTZA (clock p)) < days_from_civil y m d
        \/ (days_from_civil y m d = Day (LocalTime LocalTZA (clock p))
            /\ 0 <= LocalTZA) ->
        forall e, elements p !! lit "checkin-error" = Some e ->
          elements q !! lit "checkin-error"
          = Some (if is_error_message booking_form e
                  then mkElement (lit "") (lit "none") (classList e) (inside_form e)
                  else e)).
Proof.
  intros Hci Hco Hc Hz.
  pose proof (rule_checkin_past_value p y m d Hci Hco Hc Hz) as Hv.
  destruct (parse_date_string_valid _ _ _ _ Hci) as (Nci & _ & _).
  apply is_empty_false in Nci.
  exists (booking_outcome toLowerCase LocalTZA p).
  split; [apply booking_onSubmit_run |]. unfold booking_outcome. split.
  - intros Hd.
    assert (Hf : fails (rule_checkin_past LocalTZA p) = true).
    { rewrite Hv. apply Z.ltb_lt. unfold msPerDay in *. lia. }
    split.
    + apply outcome_not_confirmed.
      apply (all_pass_false _ (rule_checkin_past LocalTZA p)); [| exact Hf].
      unfold booking_rules. repeat first [ apply list_elem_of_here | apply list_elem_of_further ].
    + intros e He. cbn [fails rule_checkin_past] in Hf. table_at He.
      rewrite Nci, Hf. destruct (is_error_message booking_form e); reflexivity.
  - intros Hd e He.
    assert (Hf : fails (rule_checkin_past LocalTZA p) = false).
    { rewrite Hv. apply Z.ltb_ge. unfold msPerDay in *. lia. }
    cbn [fails rule_checkin_past] in Hf.
    change (lit "checkin-error") with (err_id (lit "checkin")) in *. table_at He.
    rewrite Nci, Hf. destruct (is_error_message booking_form e); reflexivity.
Qed.

Lemma next_day_year (lo hi y m d y' m' d' : Z) :
  valid_date y m d -> lo <= y <= hi - 1 ->
  civil_from_days (days_from_civil y m d + 1) = (y', m', d') ->
  valid_date y' m' d' /\ lo <= y' <= hi.
Proof.
  intros V Hy E. pose proof (civil_from_days_spec (days_from_civil y m d + 1)) as S.
  rewrite E in S. destruct S as [V' D']. split; [exact V' |].
  assert (Vh : valid_date hi 1 1) by (unfold valid_date; cbn; lia).
  split.
  - destruct (Z_lt_le_dec y' lo) as [Hl |]; [| assumption].
    assert (L : civil_lt (y', m', d') (y, m, d)) by (unfold civil_lt; lia).
    pose proof (days_from_civil_lt _ _ _ _ _ _ V' V L). lia.
  - destruct (Z_lt_le_dec hi y') as [Hl |]; [| lia].
    assert (L1 : civil_lt (y, m, d) (hi, 1, 1)) by (unfold civil_lt; lia).
    assert (L2 : civil_lt (hi, 1, 1) (y', m', d')) by (unfold civil_lt; lia).
    pose proof (days_from_civil_lt _ _ _ _ _ _ V Vh L1).
    pose proof (days_from_civil_lt _ _ _ _ _ _ Vh V' L2). lia.
Qed.

Lemma checkin_onChange_sets_min (p : Page BookingControls) :
  value (checkin (controls p)) <> [] ->
  exists q,
    checkin_onChange LocalTZA p = Normal (tt, q)
    /\ min (checkout (controls q))
       = local_date_string LocalTZA
           (setDate LocalTZA (Date_of_string LocalTZA (value (checkin (controls p))))
              (num_add (getDate LocalTZA
                          (Date_of_string LocalTZA (value (checkin (controls p))))) 1)).
Proof.
  intros Hne. unfold checkin_onChange, gets. rewrite bind_run. cbv beta iota.
  unfold truthy at 1.
  destruct (value (checkin (controls p))) as [| c0 s0] eqn:Ev; [congruence |].
  cbn [is_empty negb].
  rewrite (bind_Normal _ _ _ _ _ (modify_run _ _)).
  rewrite bind_run. cbv beta iota zeta.
  match goal with
  | |- context [if ?c then _ else _] => destruct c
  end.
  - rewrite modify_run. eexists. split; reflexivity.
  - eexists. split; reflexivity.
Qed.

(** X20. The year of the minimum check-out date is not padded: for a
    check-in day of a year below 999 the string the change listener
    writes to [checkout.min] has a year of fewer than four digits and is
    not a date string. *)
Theorem short_year_minimum_is_no_date (p : Page BookingControls) (y m d : Z) :
  parse_date_string (value (checkin (controls p))) = Some (y, m, d) ->
  y <= 998 ->
  - msPerDay <= LocalTZA < msPerDay ->
  exists q,
    checkin_onChange LocalTZA p = Normal (tt, q)
    /\ parse_date_string (min (checkout (controls q))) = None.
Proof.
  intros Hci Hy Hz.
  destruct (parse_date_string_valid _ _ _ _ Hci) as (Nci & Hy0 & V).
  destruct (checkin_onChange_sets_min p Nci) as (q & Hrun & Hmin).
  exists q. split; [exact Hrun |].
  rewrite Hmin, (checkoutMinDate_by_zone _ _ _ _ Hci Hz).
  pose proof (days_in_month_le_31 y m) as B.
  destruct (LocalTZA <? 0).
  - apply parse_date_string_short_year; unfold valid_date in V; lia.
  - destruct (civil_from_days (days_from_civil y m d + 1)) as [[y' m'] d'] eqn:E.
    destruct (next_day_year 0 999 _ _ _ _ _ _ V ltac:(lia) E) as (V' & Hy').
    pose proof (days_in_month_le_31 y' m') as B'.
    apply parse_date_string_short_year; unfold valid_date in V'; lia.
Qed.

(** *** What the validators are given *)

(** X21. Lower-casing does not change the verdict of [validateEmail]:
    the pattern holds of the lower-cased string exactly when it holds of
    the string itself, and an address is valid exactly when its
    lower-cased form is. *)
Theorem validateEmail_ignores_case (s : JSString) :
  validateEmail toLowerCase s = test_anchored email_re s
  /\ validateEmail toLowerCase (toLowerCase s) = validateEmail toLowerCase s.
Proof.
  assert (H : forall t, validateEmail toLowerCase t = test_anchored email_re t).
  { intros t. apply eq_true_iff_eq.
    rewrite (validateEmail_shape toLowerCase toLowerCase_pieces).
    now rewrite test_anchored_spec, Matches_email_re. }
  split; [apply H |]. apply eq_true_iff_eq.
  rewrite !(validateEmail_shape toLowerCase toLowerCase_pieces).
  apply (email_shape_toLowerCase toLowerCase toLowerCase_pieces).
Qed.

Lemma space_is_not_at : is_js_space (cu "@") = false.
Proof. reflexivity. Qed.

Lemma spaced_email_invalid (s : JSString) (c : N) :
  c ∈ s -> is_js_space c = true -> validateEmail toLowerCase s = false.
Proof.
  intros Hc Hs. apply not_true_is_false. intros H.
  apply (validateEmail_shape toLowerCase toLowerCase_pieces) in H.
  destruct (email_shape_no_space _ H c Hc) as [[Hn _] | ->]; [congruence |].
  rewrite space_is_not_at in Hs. discriminate.
Qed.

Lemma spaced_phone_invalid (s : JSString) (c : N) :
  c ∈ s -> is_js_space c = true -> validatePhone s = false.
Proof.
  intros Hc Hs. apply not_true_is_false. intros H.
  apply validatePhone_ten_digits in H as [_ F].
  rewrite Forall_forall in F. apply F, digit_not_space in Hc. congruence.
Qed.

(** X22. The values are validated as typed: the submit listener trims a
    value only to see whether it is blank. An email or a phone number
    that is not blank but holds white space anywhere, also at either
    end, is reported as malformed, and the form is not confirmed. *)
Theorem values_are_not_trimmed (p : Page BookingControls) :
  exists q,
    booking_onSubmit toLowerCase LocalTZA p = Normal (tt, q)
    /\ (~ blank (value (email (controls p))) ->
        (exists c, c ∈ value (email (controls p)) /\ is_js_space c = true) ->
        not_confirmed p q
        /\ displays p q (lit "email")
             (lit "Please enter a valid email (e.g., name@example.com)."))
    /\ (~ blank (value (phone (controls p))) ->
        (exists c, c ∈ value (phone (controls p)) /\ is_js_space c = true) ->
        not_confirmed p q
        /\ displays p q (lit "phone")
             (lit "Phone Number must be exactly 10 digits.")).
Proof.
  exists (booking_outcome toLowerCase LocalTZA p).
  split; [apply booking_onSubmit_run |]. unfold booking_outcome. split.
  - intros Hb (c & Hc & Hs). apply trim_not_blank in Hb.
    pose proof (spaced_email_invalid _ c Hc Hs) as Hv.
    split.
    + apply outcome_not_confirmed.
      apply (all_pass_false _ (rule_email_format toLowerCase (controls p))).
      * unfold booking_rules.
        repeat first [ apply list_elem_of_here | apply list_elem_of_further ].
      * cbn [fails rule_email_format]. now rewrite Hb, Hv.
    + intros e He. table_at He. rewrite Hb, Hv.
      destruct (is_error_message booking_form e); reflexivity.
  - intros Hb (c & Hc & Hs). apply trim_not_blank in Hb.
    pose proof (spaced_phone_invalid _ c Hc Hs) as Hv.
    split.
    + apply outcome_not_confirmed.
      apply (all_pass_false _ (rule_phone_format (controls p))).
      * unfold booking_rules.
        repeat first [ apply list_elem_of_here | apply list_elem_of_further ].
      * cbn [fails rule_phone_format]. now rewrite Hb, Hv.
    + intros e He. table_at He. rewrite Hb, Hv.
      destruct (is_empty (trim (value (countryCode (controls p))))),
        (is_error_message booking_form e); reflexivity.
Qed.

End Listeners.
(** *** The listeners on concrete pages *)

Lemma booking_confirmed_iff_accepted_witness :
  exists q,
    booking_onSubmit ascii_toLowerCase 19800000
      (filled_booking_page "2024-06-20" "2024-06-22" 1718470800000)
    = Normal (tt, q)
    /\ (style_display (successMessage q) = lit "block"
        <-> booking_accepts 19800000
              (filled_booking_page "2024-06-20" "2024-06-22" 1718470800000)).
Proof.
  destruct (booking_confirmed_iff_accepted ascii_toLowerCase
              ascii_toLowerCase_pieces 19800000
              (filled_booking_page "2024-06-20" "2024-06-22" 1718470800000))
    as (q & Hrun & Hiff & _).
  exists q. split; [exact Hrun | exact Hiff].
Defined.

Lemma contact_confirmed_iff_accepted_witness :
  exists q,
    contact_onSubmit ascii_toLowerCase filled_contact_page = Normal (tt, q)
    /\ (style_display (successMessage q) = lit "block"
        <-> contact_accepts (controls filled_contact_page)).
Proof.
  destruct (contact_confirmed_iff_accepted ascii_toLowerCase
              ascii_toLowerCase_pieces filled_contact_page)
    as (q & Hrun & Hiff & _).
  exists q. split; [exact Hrun | exact Hiff].
Defined.

Lemma contact_failing_rules_displayed_witness :
  rule_subject (controls empty_contact_page)
    ∈ contact_rules ascii_toLowerCase empty_contact_page
  /\ fails (rule_subject (controls empty_contact_page)) = true
  /\ exists q,
       contact_onSubmit ascii_toLowerCase empty_contact_page = Normal (tt, q)
       /\ displays empty_contact_page q (lit "subject") (lit "Subject is required.").
Proof.
  assert (Hin : rule_subject (controls empty_contact_page)
                  ∈ contact_rules ascii_toLowerCase empty_contact_page).
  { unfold contact_rules.
    repeat first [ apply list_elem_of_here | apply list_elem_of_further ]. }
  split; [exact Hin |]. split; [reflexivity |].
  destruct (contact_failing_rules_displayed ascii_toLowerCase empty_contact_page
              (rule_subject (controls empty_contact_page)) Hin eq_refl)
    as (q & Hrun & _ & Hd).
  exists q. split; [exact Hrun | exact Hd].
Defined.

Lemma submit_only_sweeps_other_elements_witness :
  exists q,
    booking_onSubmit ascii_toLowerCase 19800000 stale_page = Normal (tt, q)
    /\ elements q !! lit "name-error"
       = Some (mkElement (lit "Full Name is required.") (lit "block")
                 [lit "error-message"] None).
Proof.
  assert (Hp : all_pass (booking_rules ascii_toLowerCase 19800000 stale_page) = true)
    by (vm_compute; reflexivity).
  assert (Hn : forall r,
             r ∈ booking_rules ascii_toLowerCase 19800000 stale_page ->
             fails r = true -> target r ++ lit "-error" <> lit "name-error").
  { intros r Hin Hf. rewrite (all_pass_false _ r Hin Hf) in Hp. discriminate Hp. }
  destruct (submit_only_sweeps_other_elements ascii_toLowerCase 19800000
              stale_page (lit "name-error") Hn)
    as (q & Hrun & Hel).
  exists q. split; [exact Hrun |].
  rewrite (Hel (mkElement (lit "Full Name is required.") (lit "block")
                  [lit "error-message"] None))
    by (vm_compute; reflexivity).
  vm_compute. reflexivity.
Defined.

Lemma rejected_submit_is_idempotent_witness :
  ~ booking_accepts 19800000 empty_booking_page
  /\ (booking_onSubmit ascii_toLowerCase 19800000 ;;
      booking_onSubmit ascii_toLowerCase 19800000) empty_booking_page
     = booking_onSubmit ascii_toLowerCase 19800000 empty_booking_page.
Proof.
  assert (Hn : ~ booking_accepts 19800000 empty_booking_page).
  { intros (H & _). apply H. constructor. }
  split; [exact Hn |].
  exact (rejected_submit_is_idempotent ascii_toLowerCase ascii_toLowerCase_pieces
           19800000 empty_booking_page Hn).
Defined.

Lemma last_failing_rule_is_displayed_witness :
  exists q,
    booking_onSubmit ascii_toLowerCase 19800000 empty_booking_page = Normal (tt, q)
    /\ displays empty_booking_page q (lit "phone") (lit "Phone Number is required.").
Proof.
  pose (rs := booking_rules ascii_toLowerCase 19800000 empty_booking_page).
  assert (Hs : rs = take 4 rs ++ rule_phone_required (controls empty_booking_page)
                      :: drop 5 rs) by reflexivity.
  assert (Hl : forall r', r' ∈ drop 5 rs -> fails r' = true ->
               target r' <> target (rule_phone_required (controls empty_booking_page))).
  { intros r' Hin Hf E. unfold rs, booking_rules in Hin. cbn [drop] in Hin.
    rewrite !elem_of_cons, elem_of_nil in Hin.
    destruct Hin as [-> | [-> | [-> | [-> | [-> | [-> | [-> | []]]]]]]];
      vm_compute in Hf, E; first [discriminate Hf | discriminate E]. }
  destruct (last_failing_rule_is_displayed ascii_toLowerCase 19800000
              empty_booking_page (take 4 rs) (drop 5 rs)
              (rule_phone_required (controls empty_booking_page)) Hs eq_refl Hl)
    as (q & Hrun & _ & Hd).
  exists q. split; [exact Hrun | exact Hd].
Defined.

Lemma errors_stay_until_next_submit_witness :
  (Submit ∉ [UserInput FName (lit "Jane"); Elapse 5000;
             UserInput FCheckin (lit "2024-06-20")])
  /\ exists q,
       run_events ascii_toLowerCase 19800000
         [UserInput FName (lit "Jane"); Elapse 5000;
          UserInput FCheckin (lit "2024-06-20")]
         resubmitted_page
       = Normal (tt, q)
       /\ elements q = elements resubmitted_page
       /\ kept_or_hidden (successMessage resubmitted_page) (successMessage q)
       /\ style_display (successMessage q) = lit "none".
Proof.
  assert (Hn : Submit ∉ [UserInput FName (lit "Jane"); Elapse 5000;
                         UserInput FCheckin (lit "2024-06-20")]).
  { rewrite !not_elem_of_cons. repeat split; try discriminate. apply not_elem_of_nil. }
  split; [exact Hn |].
  destruct (errors_stay_until_next_submit ascii_toLowerCase 19800000 _
              resubmitted_page Hn)
    as (q & Hrun & He & Hb).
  exists q. split; [exact Hrun |]. split; [exact He |]. split; [exact Hb |].
  vm_compute in Hrun. injection Hrun as <-. reflexivity.
Defined.

Lemma banner_never_outlives_five_seconds_witness :
  timers_fresh resubmitted_page
  /\ banner_covered resubmitted_page
  /\ exists q q',
       run_events ascii_toLowerCase 19800000 [Submit; Elapse 1000; Submit] resubmitted_page
       = Normal (tt, q)
       /\ elapse 5000 q = Normal (tt, q')
       /\ style_display (successMessage q') <> lit "block".
Proof.
  assert (Hf : timers_fresh resubmitted_page).
  { unfold timers_fresh. constructor; [cbn; lia | constructor]. }
  assert (Hb : banner_covered resubmitted_page) by (intros _; discriminate).
  split; [exact Hf |]. split; [exact Hb |].
  destruct (banner_never_outlives_five_seconds ascii_toLowerCase 19800000
              [Submit; Elapse 1000; Submit] resubmitted_page Hf Hb)
    as (q & q' & Hrun & _ & _ & He & _ & Hd).
  exists q, q'. split; [exact Hrun |]. split; [exact He | exact Hd].
Defined.

Lemma earlier_timer_hides_new_banner_witness :
  booking_accepts 19800000 resubmitted_page
  /\ mkTimer 1718470802000 HideSuccess ∈ timers resubmitted_page
  /\ exists q1 q,
       booking_onSubmit ascii_toLowerCase 19800000 resubmitted_page = Normal (tt, q1)
       /\ style_display (successMessage q1) = lit "block"
       /\ elapse 2000 q1 = Normal (tt, q)
       /\ style_display (successMessage q) = lit "none".
Proof.
  assert (Ha : booking_accepts 19800000 resubmitted_page).
  { apply (booking_rules_pass ascii_toLowerCase ascii_toLowerCase_pieces).
    vm_compute. reflexivity. }
  assert (Ht : mkTimer 1718470802000 HideSuccess ∈ timers resubmitted_page)
    by apply list_elem_of_here.
  split; [exact Ha |]. split; [exact Ht |].
  destruct (earlier_timer_hides_new_banner ascii_toLowerCase ascii_toLowerCase_pieces
              19800000 resubmitted_page (mkTimer 1718470802000 HideSuccess) 2000
              Ha Ht)
    as (q1 & q & Hrun & Hb & He & Hn & _); [cbn; lia | lia |].
  exists q1, q. repeat split; assumption.
Defined.


Lemma initBookingForm_minimum_is_today_witness :
  civil_from_days (Day (LocalTime 19800000 (clock empty_booking_page))) = (2024, 6, 15)
  /\ exists q,
       initBookingForm 19800000 empty_booking_page = Normal (tt, q)
       /\ min (checkin (controls q)) = lit "2024-06-15"
       /\ parse_date_string (min (checkin (controls q))) = Some (2024, 6, 15).
Proof.
  assert (Hd : civil_from_days (Day (LocalTime 19800000 (clock empty_booking_page)))
               = (2024, 6, 15)) by (vm_compute; reflexivity).
  split; [exact Hd |].
  destruct (initBookingForm_minimum_is_today 19800000 empty_booking_page
              2024 6 15 Hd)
    as (q & Hrun & Hq & Hp); [lia |].
  exists q. split; [exact Hrun |]. split; [| exact Hp].
  rewrite Hq. vm_compute. reflexivity.
Defined.



Lemma checkin_day_against_today_witness :
  parse_date_string
    (value (checkin (controls
       (filled_booking_page "2024-06-14" "2024-06-16" 1718470800000))))
  = Some (2024, 6, 14)
  /\ days_from_civil 2024 6 14
     < Day (LocalTime 19800000
              (clock (filled_booking_page "2024-06-14" "2024-06-16" 1718470800000)))
  /\ exists q,
       booking_onSubmit ascii_toLowerCase 19800000
         (filled_booking_page "2024-06-14" "2024-06-16" 1718470800000)
       = Normal (tt, q)
       /\ displays (filled_booking_page "2024-06-14" "2024-06-16" 1718470800000) q
            (lit "checkin") (lit "Check-in date cannot be in the past.").
Proof.
  assert (Hd : days_from_civil 2024 6 14
               < Day (LocalTime 19800000
                        (clock (filled_booking_page "2024-06-14" "2024-06-16"
                                  1718470800000))))
    by (vm_compute; reflexivity).
  split; [vm_compute; reflexivity |]. split; [exact Hd |].
  destruct (checkin_day_against_today ascii_toLowerCase 19800000
              (filled_booking_page "2024-06-14" "2024-06-16" 1718470800000)
              2024 6 14)
    as (q & Hrun & Hpast & _);
    [vm_compute; reflexivity | discriminate | vm_compute; discriminate
    | unfold msPerDay; lia |].
  exists q. split; [exact Hrun |]. apply Hpast. left. exact Hd.
Defined.

Lemma short_year_minimum_is_no_date_witness :
  parse_date_string
    (value (checkin (controls
       (filled_booking_page "0500-03-10" "2024-06-20" 1718470800000))))
  = Some (500, 3, 10)
  /\ exists q,
       checkin_onChange 19800000
         (filled_booking_page "0500-03-10" "2024-06-20" 1718470800000)
       = Normal (tt, q)
       /\ parse_date_string (min (checkout (controls q))) = None.
Proof.
  split; [vm_compute; reflexivity |].
  apply (short_year_minimum_is_no_date 19800000
           (filled_booking_page "0500-03-10" "2024-06-20" 1718470800000)
           500 3 10);
    [vm_compute; reflexivity | lia | unfold msPerDay; lia].
Defined.

Lemma validateEmail_ignores_case_witness :
  validateEmail ascii_toLowerCase (lit "John@Example.COM")
  = test_anchored email_re (lit "John@Example.COM")
  /\ validateEmail ascii_toLowerCase (ascii_toLowerCase (lit "John@Example.COM"))
     = validateEmail ascii_toLowerCase (lit "John@Example.COM").
Proof.
  exact (validateEmail_ignores_case ascii_toLowerCase ascii_toLowerCase_pieces
           (lit "John@Example.COM")).
Defined.

Lemma values_are_not_trimmed_witness :
  exists q,
    booking_onSubmit ascii_toLowerCase 19800000
      (upd_controls (upd_field FEmail (set_value (lit " john@example.com")))
         (filled_booking_page "2024-06-20" "2024-06-22" 1718470800000))
    = Normal (tt, q)
    /\ displays
         (upd_controls (upd_field FEmail (set_value (lit " john@example.com")))
            (filled_booking_page "2024-06-20" "2024-06-22" 1718470800000))
         q (lit "email")
         (lit "Please enter a valid email (e.g., name@example.com).").
Proof.
  destruct (values_are_not_trimmed ascii_toLowerCase ascii_toLowerCase_pieces
              19800000
              (upd_controls (upd_field FEmail (set_value (lit " john@example.com")))
                 (filled_booking_page "2024-06-20" "2024-06-22" 1718470800000)))
    as (q & Hrun & He & _).
  exists q. split; [exact Hrun |]. apply He.
  - apply trim_not_blank. vm_compute. reflexivity.
  - exists 32%N. split; [apply list_elem_of_here | reflexivity].
Defined.
